(** * ingesta-datos-publicos: extractors for public statistical sources

    A shallow embedding of the four loaders of the repository
    - [src/Dane/loader_clean_dane.py]      (module [Dane])
    - [src/SiMEM/simem_extract_clean.py]   (module [SiMEM])
    - [src/banrep/banrep_loader_clean_v3.py] (module [Banrep])
    - [src/pwt/pwt_loader_clean.py]        (module [PWT])
    together with the few library operations they call (module [Py] for the
    interpreter and [requests], module [Pandas] for the data frames).

    Python code that raises is embedded in an error monad over an explicit
    world (the GET calls issued, the sleeps taken, the log); Python integers
    are [Z]; Python dictionaries whose order is observable are association
    lists, the others are [gmap]s. *)

From stdpp Require Import base list strings gmap pretty.
From Stdlib Require Import ZArith Lia Ascii Sorted.

#[local] Set Warnings "-register-all".

Open Scope Z_scope.

(* ================================================================== *)
(** * Python runtime: exceptions, results, the world *)
(* ================================================================== *)

Module Py.

(** The exceptions the loaders can raise or let through. *)
Inductive exn : Type :=
| HTTPError (status : Z)          (* requests: Response.raise_for_status *)
| TransportError (what : string)  (* requests: ConnectionError, Timeout, ... *)
| JSONDecodeError                 (* Response.json() on a body that is not JSON *)
| RuntimeError (msg : string)
| ValueError (msg : string)
| TypeError (msg : string)
| AttributeError (msg : string)
| UnboundLocalError (name : string)
| ReError (msg : string).          (* re.error: a pattern that does not compile *)

Inductive result (A : Type) : Type :=
| Ok (a : A)
| Raise (e : exn).
Arguments Ok {A} a.
Arguments Raise {A} e.

Definition is_ok {A} (r : result A) : bool :=
  match r with Ok _ => true | Raise _ => false end.

(** JSON values as [json.loads] builds them; objects keep insertion order. *)
Inductive json : Type :=
| JNull
| JBool (b : bool)
| JNum (n : Z)
| JStr (s : string)
| JList (l : list json)
| JMap (m : list (string * json)).

(** An HTTP response: status code, body text, and the decoded body
    ([None] when the body is not JSON, so that [r.json()] raises). *)
Record response : Type := Response {
  status_code : Z;
  text : string;
  body : option json;
  content : list Byte.byte
}.

(** What one GET does: the server answers, or the transport fails. *)
Inductive outcome : Type :=
| Answers (r : response)
| Fails (e : exn).

(** A server decides each GET from the number of GET calls issued before
    it and from the URL. *)
Definition server : Type := nat -> string -> outcome.

(** Levels of the [logging] module, and [STDOUT] for [print]. *)
Inductive level : Type := INFO | WARNING | ERROR | STDOUT.

Inductive arg : Type := AStr (s : string) | AInt (n : Z).

(** The observable effects: GET calls, sleeps (seconds), log records
    (level, format string, arguments), each in the order they happened;
    and the files on disk, path to bytes. *)
Record world : Type := World {
  gets : list string;
  sleeps : list Z;
  logs : list (level * string * list arg);
  files : gmap string (list Byte.byte)
}.

Definition world0 : world := World [] [] [] ∅.

(** Computations: state passing over the world, with exceptions. *)
Definition M (A : Type) : Type := world -> result A * world.

Definition ret {A} (a : A) : M A := fun w => (Ok a, w).
Definition raise {A} (e : exn) : M A := fun w => (Raise e, w).
Definition bind {A B} (m : M A) (k : A -> M B) : M B :=
  fun w => match m w with
           | (Ok a, w') => k a w'
           | (Raise e, w') => (Raise e, w')
           end.

(** [try: m except Exception as e: h e] *)
Definition try_except {A} (m : M A) (h : exn -> M A) : M A :=
  fun w => match m w with
           | (Ok a, w') => (Ok a, w')
           | (Raise e, w') => h e w'
           end.

Definition lift {A} (r : result A) : M A := fun w => (r, w).

(** [session.get(url)] / [requests.get(url)] *)
Definition http_get (srv : server) (url : string) : M response :=
  fun w =>
    let w' := World (gets w ++ [url]) (sleeps w) (logs w) (files w) in
    match srv (List.length (gets w)) url with
    | Answers r => (Ok r, w')
    | Fails e => (Raise e, w')
    end.

(** [time.sleep(d)]: a negative length is a [ValueError]. *)
Definition sleep (d : Z) : M unit :=
  fun w =>
    if d <? 0 then (Raise (ValueError "sleep length must be non-negative"), w)
    else (Ok tt, World (gets w) (sleeps w ++ [d]) (logs w) (files w)).

Definition log (lv : level) (fmt : string) (args : list arg) : M unit :=
  fun w => (Ok tt, World (gets w) (sleeps w) (logs w ++ [(lv, fmt, args)]) (files w)).

(** [Response.raise_for_status()] of requests: raises for 4xx and 5xx. *)
Definition raise_for_status (r : response) : M unit :=
  if (400 <=? status_code r) && (status_code r <? 600)
  then raise (HTTPError (status_code r))
  else ret tt.

(** [Response.json()] *)
Definition json_of (r : response) : M json :=
  match body r with
  | Some j => ret j
  | None => raise JSONDecodeError
  end.

Definition print (msg : string) (args : list arg) : M unit :=
  log STDOUT msg args.

(** [Path.exists()], [Path.read_bytes()], [Path.write_bytes(b)] *)
Definition path_exists (p : string) : M bool :=
  fun w => (Ok (bool_decide (is_Some (files w !! p))), w).

Definition read_bytes (p : string) : M (list Byte.byte) :=
  fun w => match files w !! p with
           | Some b => (Ok b, w)
           | None => (Raise (RuntimeError ("FileNotFoundError: " +:+ p)), w)
           end.

Definition write_bytes (p : string) (b : list Byte.byte) : M unit :=
  fun w => (Ok tt, World (gets w) (sleeps w) (logs w) (<[p := b]> (files w))).

(** ** Strings (the model covers ASCII text) *)

Definition code (c : ascii) : Z := Z.of_N (N_of_ascii c).

Definition in_range (lo hi : Z) (c : ascii) : bool :=
  (lo <=? code c) && (code c <=? hi).

Definition is_upper (c : ascii) : bool := in_range 65 90 c.
Definition is_lower (c : ascii) : bool := in_range 97 122 c.
Definition is_digit (c : ascii) : bool := in_range 48 57 c.

(** [str.isspace] and the class [\s] of [re], on ASCII. *)
Definition is_space (c : ascii) : bool :=
  in_range 9 13 c || in_range 28 32 c.

Definition lower_char (c : ascii) : ascii :=
  if is_upper c then ascii_of_N (N_of_ascii c + 32) else c.

(** [str.lower] *)
Fixpoint lower (s : string) : string :=
  match s with
  | EmptyString => EmptyString
  | String c s' => String (lower_char c) (lower s')
  end.

Fixpoint lstrip (s : string) : string :=
  match s with
  | EmptyString => EmptyString
  | String c s' => if is_space c then lstrip s' else s
  end.

(** [str.strip] *)
Definition strip (s : string) : string :=
  String.rev (lstrip (String.rev (lstrip s))).

(** Truth value of a [str]. *)
Definition nonempty (s : string) : bool :=
  match s with EmptyString => false | _ => true end.

(** An optional string that is neither [None] nor empty. *)
Definition truthy (o : option string) : option string :=
  match o with
  | Some s => if nonempty s then Some s else None
  | None => None
  end.

(** Dictionaries in insertion order: [d[k] = v] and [d.get(k)]. *)
Fixpoint dict_set {V} (d : list (string * V)) (k : string) (v : V)
  : list (string * V) :=
  match d with
  | [] => [(k, v)]
  | (k', v') :: d' =>
      if String.eqb k k' then (k', v) :: d' else (k', v') :: dict_set d' k v
  end.

Fixpoint dict_get {V} (d : list (string * V)) (k : string) : option V :=
  match d with
  | [] => None
  | (k', v') :: d' => if String.eqb k k' then Some v' else dict_get d' k
  end.

(** [{**d1, **d2}] *)
Definition dict_merge {V} (d1 d2 : list (string * V)) : list (string * V) :=
  foldl (fun acc kv => dict_set acc kv.1 kv.2) d1 d2.

(** [x in xs] for a list of strings. *)
Definition mem (x : string) (xs : list string) : bool :=
  existsb (String.eqb x) xs.

End Py.

Import Py.

#[global] Instance M_ret : MRet M := @ret.
#[global] Instance M_bind : MBind M := fun A B k m => bind m k.

#[global] Instance result_ret : MRet result := @Ok.
#[global] Instance result_bind : MBind result :=
  fun A B k r => match r with Ok a => k a | Raise e => Raise e end.

(** [mapM] over a list, left to right, stopping at the first exception. *)
Fixpoint mapM {A B} (f : A -> result B) (l : list A) : result (list B) :=
  match l with
  | [] => Ok []
  | x :: l' =>
      match f x with
      | Ok y => match mapM f l' with Ok ys => Ok (y :: ys) | Raise e => Raise e end
      | Raise e => Raise e
      end
  end.

(* ================================================================== *)
(** * pandas: the data-frame operations the loaders call *)
(* ================================================================== *)

Module Pandas.

(** A cell of a data frame; [NA] is the null marker (None, NaN, NaT,
    pd.NA). Integers stand for all JSON numbers. *)
Inductive cell : Type :=
| NA
| Obj (j : json)        (* a value as decoded from JSON, never [JNull] *)
| Str (s : string)      (* a text value produced by a conversion *)
| Timestamp (ns : Z)    (* nanoseconds since the epoch *)
| Date (days : Z).      (* a [datetime.date], days since the epoch *)

Inductive dtype : Type := DObject | DNumeric | DBool | DDatetime64 | DString.

#[global] Instance dtype_eq_dec : EqDecision dtype.
Proof. solve_decision. Defined.

Record Series : Type := mkSeries { dtype_of : dtype; values : list cell }.

(** Columns in display order; names may repeat after a renaming. *)
Record DataFrame : Type := mkDataFrame {
  nrows : nat;
  data : list (string * Series)
}.

(** What the embedding takes from pandas and the interpreter as given:
    [str(v)], the dtype the constructor infers for a column, and the
    date parser, on a column (position [i] of the column [vs]) and on one
    string (a bound of a filter, taken without UTC offset), each giving
    the time on the clock of the value's own zone; and whether the values
    of a column that parse carry different UTC offsets, in which case
    [pd.to_datetime] cannot build a datetime column. *)
Record lib : Type := Lib {
  py_str : cell -> string;
  infer_dtype : list cell -> dtype;
  parse_at : list cell -> nat -> option Z;
  parse_scalar : string -> option Z;
  mixed_offsets : list cell -> bool
}.

Definition isna (c : cell) : bool :=
  match c with NA => true | _ => false end.
Definition notna (c : cell) : bool := negb (isna c).

Definition cell_of_json (j : json) : cell :=
  match j with JNull => NA | _ => Obj j end.

Fixpoint json_eqb (a b : json) : bool :=
  match a, b with
  | JNull, JNull => true
  | JBool x, JBool y => Bool.eqb x y
  | JNum x, JNum y => x =? y
  | JStr x, JStr y => String.eqb x y
  | JList l1, JList l2 =>
      (fix go (l1 l2 : list json) : bool :=
         match l1, l2 with
         | [], [] => true
         | x :: l1', y :: l2' => json_eqb x y && go l1' l2'
         | _, _ => false
         end) l1 l2
  | JMap m1, JMap m2 =>
      (fix go (m1 m2 : list (string * json)) : bool :=
         match m1, m2 with
         | [], [] => true
         | (k1, x) :: m1', (k2, y) :: m2' =>
             String.eqb k1 k2 && json_eqb x y && go m1' m2'
         | _, _ => false
         end) m1 m2
  | _, _ => false
  end.

Definition cell_eqb (a b : cell) : bool :=
  match a, b with
  | NA, NA => true
  | Obj x, Obj y => json_eqb x y
  | Str x, Str y => String.eqb x y
  | Timestamp x, Timestamp y => x =? y
  | Date x, Date y => x =? y
  | _, _ => false
  end.

(** ** Frames *)

Definition columns (df : DataFrame) : list string := map fst (data df).

(** [df.empty] *)
Definition empty (df : DataFrame) : bool :=
  (nrows df =? 0)%nat || (List.length (data df) =? 0)%nat.

(** [df.rename(columns={c: f(c) for c in df.columns})] *)
Definition rename (f : string -> string) (df : DataFrame) : DataFrame :=
  mkDataFrame (nrows df) (map (fun cs => (f cs.1, cs.2)) (data df)).

(** The columns called [c], in order. *)
Definition named (c : string) (df : DataFrame) : list (string * Series) :=
  filter (fun cs => String.eqb cs.1 c = true) (data df).

(** [df[c]] used as a Series: the column called [c]. When several columns
    carry the name pandas yields a frame, and the Series operation applied
    next fails; [e] is that failure. *)
Definition getitem (c : string) (e : exn) (df : DataFrame) : result Series :=
  match named c df with
  | [cs] => Ok cs.2
  | [] => Raise (ValueError ("KeyError: " +:+ c))
  | _ => Raise e
  end.

(** [df[keep]] for a list of names. *)
Definition select (keep : list string) (df : DataFrame) : DataFrame :=
  mkDataFrame (nrows df) (concat (map (fun c => named c df) keep)).

Fixpoint mask_list {A} (mask : list bool) (l : list A) : list A :=
  match mask, l with
  | b :: mask', x :: l' => if b then x :: mask_list mask' l' else mask_list mask' l'
  | _, _ => []
  end.

(** The cells of the column called [c] (the first one of that name). *)
Definition column_values (c : string) (df : DataFrame) : option (list cell) :=
  values <$> (snd <$> head (named c df)).

(** [df.loc[mask]] *)
Definition loc (mask : list bool) (df : DataFrame) : DataFrame :=
  mkDataFrame (List.length (mask_list mask (seq 0 (nrows df))))
    (map (fun cs => (cs.1, mkSeries (dtype_of cs.2) (mask_list mask (values cs.2))))
         (data df)).

(** Row [i], one cell per column. *)
Definition row (df : DataFrame) (i : nat) : list cell :=
  map (fun cs => nth i (values cs.2) NA) (data df).

Definition rows (df : DataFrame) : list (list cell) :=
  map (row df) (seq 0 (nrows df)).

(** The row as a record: column name and cell. *)
Definition record (df : DataFrame) (i : nat) : list (string * cell) :=
  map (fun cs => (cs.1, nth i (values cs.2) NA)) (data df).

Fixpoint row_eqb (r1 r2 : list cell) : bool :=
  match r1, r2 with
  | [], [] => true
  | a :: r1', b :: r2' => cell_eqb a b && row_eqb r1' r2'
  | _, _ => false
  end.

(** [True] where the row did not occur before. *)
Fixpoint first_seen (seen rs : list (list cell)) : list bool :=
  match rs with
  | [] => []
  | r :: rs' =>
      if existsb (row_eqb r) seen then false :: first_seen seen rs'
      else true :: first_seen (seen ++ [r]) rs'
  end.

(** [df.drop_duplicates().reset_index(drop=True)] *)
Definition drop_duplicates (df : DataFrame) : DataFrame :=
  loc (first_seen [] (rows df)) df.

(** [df.dropna(axis=1, how="all")] *)
Definition dropna_columns (df : DataFrame) : DataFrame :=
  mkDataFrame (nrows df)
    (filter (fun cs => existsb notna (values cs.2) = true) (data df)).

(** ** Series *)

Inductive errors : Type := errors_raise | errors_coerce.

(** One position of [pd.to_datetime(column)]: nulls stay null. *)
Definition parsed_at (L : lib) (vs : list cell) (i : nat) (c : cell)
  : option Z :=
  if isna c then None else parse_at L vs i.

Definition cell_of_parsed (o : option Z) : cell :=
  match o with Some t => Timestamp t | None => NA end.

(** The column parsed, position by position: the time, or [None] where the
    cell is null or does not parse. *)
Definition parsed_cells (L : lib) (vs : list cell) : list (option Z) :=
  imap (parsed_at L vs) vs.

(** The dtype of the column [pd.to_datetime] returns: datetime64, or
    object (a column of [datetime] values, each with its own zone) when
    the values carry different UTC offsets. *)
Definition datetime_dtype (L : lib) (vs : list cell) : dtype :=
  if mixed_offsets L vs then DObject else DDatetime64.

(** [pd.to_datetime(s, errors=...)] on a column. *)
Definition to_datetime (L : lib) (e : errors) (s : Series) : result Series :=
  let vs := values s in
  let parsed := parsed_cells L vs in
  let failed := existsb (fun co => notna co.1 && negb (bool_decide (is_Some co.2)))
                        (zip vs parsed) in
  match e with
  | errors_coerce =>
      Ok (mkSeries (datetime_dtype L vs) (map cell_of_parsed parsed))
  | errors_raise =>
      if failed then Raise (ValueError "time data does not match format")
      else Ok (mkSeries (datetime_dtype L vs) (map cell_of_parsed parsed))
  end.

(** [pd.to_datetime(text)] on one string (errors="raise"). *)
Definition to_datetime_scalar (L : lib) (text : string) : result Z :=
  match parse_scalar L text with
  | Some t => Ok t
  | None => Raise (ValueError "Unknown datetime string format")
  end.

Definition ns_per_day : Z := 86400000000000.

(** [s.dt.date]; only for a datetime column. *)
Definition dt_date (s : Series) : result Series :=
  match dtype_of s with
  | DDatetime64 =>
      Ok (mkSeries DObject
            (map (fun c => match c with
                           | Timestamp t => Date (t / ns_per_day)
                           | _ => NA
                           end) (values s)))
  | _ => Raise (AttributeError "Can only use .dt accessor with datetimelike values")
  end.

(** [s.astype("string")]: nulls stay null. *)
Definition astype_string (L : lib) (s : Series) : Series :=
  mkSeries DString
    (map (fun c => if isna c then NA else Str (py_str L c)) (values s)).

(** [s.astype(str)]: every element through [str]. *)
Definition astype_str (L : lib) (s : Series) : Series :=
  mkSeries DObject (map (fun c => Str (py_str L c)) (values s)).

(** [s.str.strip()] *)
Definition str_strip (s : Series) : Series :=
  mkSeries (dtype_of s)
    (map (fun c => match c with
                   | Str t => Str (strip t)
                   | Obj (JStr t) => Str (strip t)
                   | _ => NA
                   end) (values s)).

(** [s.notna().sum()] *)
Definition count_notna (s : Series) : Z :=
  Z.of_nat (List.length (filter (fun c => notna c = true) (values s))).

(** ** [pd.json_normalize(records, sep=sep)] on a list of JSON objects *)

Definition join_key (key_string sep key : string) : string :=
  if nonempty key_string then key_string +:+ sep +:+ key else key.

Fixpoint _normalise_json (d : json) (key_string sep : string)
         (normalized_dict : list (string * json)) : list (string * json) :=
  match d with
  | JMap m =>
      (fix items (m : list (string * json)) (acc : list (string * json)) :=
         match m with
         | [] => acc
         | (key, value) :: m' =>
             items m' (_normalise_json value (join_key key_string sep key) sep acc)
         end) m normalized_dict
  | _ => dict_set normalized_dict key_string d
  end.

Definition is_dict (j : json) : bool :=
  match j with JMap _ => true | _ => false end.

(** Scalars of the top level first, then the flattened nested objects. *)
Definition _normalise_json_ordered (d : list (string * json)) (sep : string)
  : list (string * json) :=
  let top_dict_ := filter (fun kv => is_dict kv.2 = false) d in
  let nested_dict_ :=
    _normalise_json (JMap (filter (fun kv => is_dict kv.2 = true) d)) "" sep [] in
  dict_merge top_dict_ nested_dict_.

(** The keys of the records, each once, in the order first seen. *)
Definition union_keys {V} (recs : list (list (string * V))) : list string :=
  foldl (fun acc rec =>
           foldl (fun acc kv => if mem kv.1 acc then acc else acc ++ [kv.1])
                 acc rec)
        [] recs.

(** A list of names without its repetitions, each name staying where it
    first occurs. *)
Fixpoint nub (l : list string) : list string :=
  match l with
  | [] => []
  | x :: l' => x :: filter (fun y => y <> x) (nub l')
  end.

(** The cell of a record under a column name: null when the key is
    missing. *)
Definition cell_at (rec : list (string * json)) (k : string) : cell :=
  match dict_get rec k with
  | Some j => cell_of_json j
  | None => NA
  end.

(** [pd.DataFrame(list_of_dicts)] *)
Definition from_records (L : lib) (recs : list (list (string * json)))
  : DataFrame :=
  mkDataFrame (List.length recs)
    (map (fun k =>
            let vs := map (fun rec => cell_at rec k) recs in
            (k, mkSeries (infer_dtype L vs) vs))
         (union_keys recs)).

Definition json_normalize (L : lib) (records : list (list (string * json)))
           (sep : string) : DataFrame :=
  from_records L (map (fun r => _normalise_json_ordered r sep) records).

(** ** Sorting and [pivot_table(..., aggfunc="first")] *)

(** Stable insertion sort by a boolean order. *)
Fixpoint insert_by {A} (leb : A -> A -> bool) (x : A) (l : list A) : list A :=
  match l with
  | [] => [x]
  | y :: l' => if leb x y then x :: y :: l' else y :: insert_by leb x l'
  end.

Fixpoint sort_by {A} (leb : A -> A -> bool) (l : list A) : list A :=
  match l with
  | [] => []
  | x :: l' => insert_by leb x (sort_by leb l')
  end.

(** A table in wide form: one row of cells per index key, one cell per
    column label. *)
Record wide (K C : Type) : Type := mkWide {
  index : list K;
  labels : list C;
  cells : list (list cell)
}.
Arguments mkWide {K C} index labels cells.
Arguments index {K C} w.
Arguments labels {K C} w.
Arguments cells {K C} w.

Section Pivot.
Context {K C : Type} `{EqDecision K, EqDecision C}.
Variable K_leb : K -> K -> bool.
Variable C_leb : C -> C -> bool.

(** [groupby(index + columns)], which leaves out a row whose key or
    label is null. *)
Definition grouped (long : list (option K * option C * cell))
  : list (K * C * cell) :=
  omap (fun r => match r with
                 | (Some k, Some c, v) => Some (k, c, v)
                 | _ => None
                 end) long.

(** [first] of a group: its first value that is not null. *)
Definition first_value (g : list (K * C * cell)) (kc : K * C) : cell :=
  default NA
    (head (filter (fun v => notna v = true)
             (map snd (filter (fun r => r.1 = kc) g)))).

(** [grouped.agg("first")] followed by [dropna(how="all")]: the groups
    whose aggregate is not null. *)
Definition agged (g : list (K * C * cell)) : list (K * C * cell) :=
  filter (fun r => notna r.2 = true)
    (map (fun kc => (kc, first_value g kc)) (remove_dups (map fst g))).

Definition agged_value (a : list (K * C * cell)) (k : K) (c : C) : cell :=
  default NA (snd <$> head (filter (fun r => r.1 = (k, c)) a)).

(** [pivot_table(index=.., columns=.., values=.., aggfunc="first")]:
    the aggregate unstacked, keys and labels sorted. *)
Definition pivot_table (long : list (option K * option C * cell)) : wide K C :=
  let a := agged (grouped long) in
  let idx := sort_by K_leb (remove_dups (map (fun r => r.1.1) a)) in
  let lbl := sort_by C_leb (remove_dups (map (fun r => r.1.2) a)) in
  mkWide idx lbl (map (fun k => map (fun c => agged_value a k c) lbl) idx).

(** The cell of the wide table at a key and a label. *)
Definition wide_cell (w : wide K C) (k : K) (c : C) : option cell :=
  '(i, _) ← list_find (fun k' => k' = k) (index w);
  '(j, _) ← list_find (fun c' => c' = c) (labels w);
  r ← cells w !! i;
  r !! j.

End Pivot.

End Pandas.

Import Pandas.

(* ================================================================== *)
(** * An instance of the library for the examples *)
(* ================================================================== *)

(** ISO-8601 dates ("YYYY-MM-DD", optionally followed by "T" or a blank and
    "HH:MM:SS", optionally with up to nine decimals; in a column, optionally
    followed by a UTC offset "+HH:MM" or "-HH:MM"), [str] of the JSON
    scalars, and the dtype of a column of numbers, of booleans, or of
    anything else. It is used to run the loaders on concrete inputs, on
    columns whose texts all have the same form. *)
Module Iso.

Definition digit_val (c : ascii) : option Z :=
  if is_digit c then Some (code c - 48) else None.

Fixpoint number (acc : Z) (cs : list ascii) : option Z :=
  match cs with
  | [] => Some acc
  | c :: cs' => d ← digit_val c; number (10 * acc + d) cs'
  end.

Definition is_leap (y : Z) : bool :=
  ((y mod 4 =? 0) && negb (y mod 100 =? 0)) || (y mod 400 =? 0).

Definition days_in_month (y m : Z) : Z :=
  if m =? 2 then (if is_leap y then 29 else 28)
  else if bool_decide (m ∈ [4; 6; 9; 11]) then 30 else 31.

(** Days from 1970-01-01 to the civil date. *)
Definition days_from_civil (y m d : Z) : Z :=
  let y' := if m <=? 2 then y - 1 else y in
  let era := y' / 400 in
  let yoe := y' - era * 400 in
  let mp := (m + 9) mod 12 in
  let doy := (153 * mp + 2) / 5 + d - 1 in
  let doe := yoe * 365 + yoe / 4 - yoe / 100 + doy in
  era * 146097 + doe - 719468.

Definition fraction_ns (fs : list ascii) : option Z :=
  let n := List.length fs in
  if (1 <=? n)%nat && (n <=? 9)%nat
  then v ← number 0 fs; Some (v * 10 ^ Z.of_nat (9 - n))
  else None.

Definition time_of_day (cs : list ascii) : option Z :=
  match cs with
  | h1 :: h2 :: ":"%char :: m1 :: m2 :: ":"%char :: s1 :: s2 :: frac =>
      h ← number 0 [h1; h2];
      m ← number 0 [m1; m2];
      s ← number 0 [s1; s2];
      f ← match frac with
          | [] => Some 0
          | "."%char :: fs => fraction_ns fs
          | _ => None
          end;
      if (h <? 24) && (m <? 60) && (s <? 60)
      then Some (((h * 60 + m) * 60 + s) * 1000000000 + f)
      else None
  | _ => None
  end.

Definition parse_iso (text : string) : option Z :=
  match String.list_ascii_of_string text with
  | y1 :: y2 :: y3 :: y4 :: "-"%char :: m1 :: m2 :: "-"%char :: d1 :: d2 :: rest =>
      y ← number 0 [y1; y2; y3; y4];
      m ← number 0 [m1; m2];
      d ← number 0 [d1; d2];
      if (1 <=? m) && (m <=? 12) && (1 <=? d) && (d <=? days_in_month y m) then
        t ← match rest with
            | [] => Some 0
            | sep :: clock =>
                if (code sep =? 84) || (code sep =? 32) then time_of_day clock
                else None
            end;
        Some (days_from_civil y m d * ns_per_day + t)
      else None
  | _ => None
  end.

(** A text that ends in a UTC offset "+HH:MM" or "-HH:MM": the text
    before the offset, and the offset in nanoseconds. *)
Definition split_offset (text : string) : option (string * Z) :=
  match rev (String.list_ascii_of_string text) with
  | m2 :: m1 :: ":"%char :: h2 :: h1 :: sign :: before =>
      sg ← (if code sign =? 43 then Some 1
            else if code sign =? 45 then Some (-1) else None);
      h ← number 0 [h1; h2];
      m ← number 0 [m1; m2];
      if (h <? 24) && (m <? 60)
      then Some (String.string_of_list_ascii (rev before),
                 sg * ((h * 60 + m) * 60 * 1000000000))
      else None
  | _ => None
  end.

(** The time a text of a column gives, on the clock of its own zone: a
    UTC offset only tells apart columns that mix zones. *)
Definition parse_text (text : string) : option Z :=
  match split_offset text with
  | Some (before, _) => parse_iso before
  | None => parse_iso text
  end.

(** The UTC offset of a cell that parses and has one. *)
Definition offset_of (c : cell) : option Z :=
  match c with
  | Obj (JStr s) | Str s =>
      match split_offset s with
      | Some (before, offset) => _ ← parse_iso before; Some offset
      | None => None
      end
  | _ => None
  end.

(** Two of the values carry different offsets. *)
Definition differing_offsets (vs : list cell) : bool :=
  match omap offset_of vs with
  | [] => false
  | o :: rest => existsb (fun o' => negb (o' =? o)) rest
  end.

Definition parse_cell (c : cell) : option Z :=
  match c with
  | Obj (JStr s) | Str s => parse_text s
  | Obj (JNum n) => Some n
  | Timestamp t => Some t
  | Date d => Some (d * ns_per_day)
  | _ => None
  end.

Definition str_of (c : cell) : string :=
  match c with
  | Obj (JStr s) | Str s => s
  | Obj (JNum n) => pretty n
  | Obj (JBool b) => if b then "True" else "False"
  | NA => "nan"
  | _ => "<object>"
  end.

Definition is_number (c : cell) : bool :=
  match c with Obj (JNum _) => true | _ => false end.
Definition is_bool (c : cell) : bool :=
  match c with Obj (JBool _) => true | _ => false end.

Definition dtype_for (vs : list cell) : dtype :=
  if forallb (fun c => is_number c || isna c) vs && existsb is_number vs
  then DNumeric
  else if forallb is_bool vs && existsb is_bool vs then DBool
  else DObject.

Definition L : lib :=
  Lib str_of dtype_for (fun vs i => parse_cell (nth i vs NA)) parse_iso
      differing_offsets.

End Iso.

(* ================================================================== *)
(** * src/Dane/loader_clean_dane.py *)
(* ================================================================== *)

Module Dane.

Definition BASE : string := "https://microdatos.dane.gov.co/index.php".

Section Fetch.
Variable srv : server.

(** The loop of [_retry_get]: [n] iterations left, [last] is the
    variable [r] as the previous iteration left it. *)
Fixpoint _retry_get_loop (n : nat) (backoff : Z) (last : option response)
         (url : string) : M response :=
  match n with
  | O =>
      match last with
      | Some r => _ ← raise_for_status r; mret r
      | None => raise (UnboundLocalError "r")
      end
  | S n' =>
      r ← http_get srv url;
      if status_code r <? 400 then mret r
      else if bool_decide (status_code r ∈ [429; 500; 502; 503; 504]) then
        _ ← log WARNING "GET %s -> %s, retry in %.1fs"
                [AStr url; AInt (status_code r); AInt backoff];
        _ ← sleep backoff;
        _retry_get_loop n' (backoff * 2) (Some r) url
      else
        _ ← raise_for_status r;
        _retry_get_loop n' backoff (Some r) url
  end.

(** [_retry_get]: five attempts, first delay one second. *)
Definition _retry_get (url : string) : M response :=
  _retry_get_loop 5 1 None url.

End Fetch.

(** The statuses [_retry_get] retries. *)
Definition retried (s : Z) : Prop := s ∈ [429; 500; 502; 503; 504].

(** [n] delays, each the double of the one before. *)
Fixpoint doubling (d : Z) (n : nat) : list Z :=
  match n with
  | O => []
  | S n' => d :: doubling (d * 2) n'
  end.

(** ** The NADA client and the extraction *)

Section Extraction.
Variable srv : server.
(** [requests] encoding the query parameters into the URL. *)
Variable urlencode : list (string * string) -> string.
(** [str(v)] of a decoded value that is a list or an object. *)
Variable py_repr : json -> string.
(** A row of the study table and a row of the variable table; the two
    parsers of the metadata are taken as given: each may raise. They get
    the study id as [run_extraction] has it. *)
Variables study_row var_row : Type.
Variable parse_study : json -> json -> result study_row.
Variable parse_variables : json -> json -> result (list var_row).
(** Compiled patterns and [re.compile(pattern, flags=re.IGNORECASE)],
    which raises [re.error] on a pattern that is not a regular
    expression. *)
Variable regex : Type.
Variable re_compile : string -> result regex.

(** The variable filters as [run_extraction] prepares them before its
    loop: [name_set], [name_rx], [lab_rx] and [file_set], each [None] when
    the filter is not asked for. *)
Record var_filters : Type := VarFilters {
  name_set : option (list string);
  name_rx : option regex;
  lab_rx : option regex;
  file_set : option (list Z)
}.

(** The test of one variable row against the prepared filters (the body
    of [for r in rows]) is taken as given; it may raise. *)
Variable selected : var_filters -> var_row -> result bool.

Definition json_get (d : json) (k : string) (dflt : json) : result json :=
  match d with
  | JMap m => Ok (default dflt (dict_get m k))
  | _ => Raise (AttributeError "object has no attribute 'get'")
  end.

(** [ids[:n]] *)
Definition slice_to {A} (n : Z) (l : list A) : list A :=
  if n <? 0 then take (Z.to_nat (Z.of_nat (List.length l) + n)) l
  else take (Z.to_nat n) l.

(** [data.get("rows", []) or []] as the loop uses it: the items that
    [for row in rows] goes through, after [len(rows)] has been taken. A
    list gives its elements, a string its characters, an object its keys;
    a number or [True] has no [len]. *)
Definition rows_of (rows0 : json) : result (list json) :=
  match rows0 with
  | JList l => Ok l
  | JNull | JBool false | JNum 0 | JStr EmptyString | JMap [] => Ok []
  | JStr s => Ok (map (fun c => JStr (String c EmptyString))
                      (String.list_ascii_of_string s))
  | JMap m => Ok (map (fun kv => JStr kv.1) m)
  | JNum _ => Raise (TypeError "object of type 'int' has no len()")
  | JBool true => Raise (TypeError "object of type 'bool' has no len()")
  end.

(** The ids of one page: [row.get("id")] where it is not [None], whatever
    value it is. *)
Definition page_ids (rows : list json) : result (list json) :=
  ids ← mapM (fun row => json_get row "id" JNull) rows;
  mret (filter (fun j => json_eqb j JNull = false) ids).

(** The loop of [search_catalog]: [pages] iterations left. *)
Fixpoint search_loop (pages : nat) (page offset : Z) (ids : list json)
         (q date_from date_to : option string)
         (page_size : Z) (limit_studies : Z) : M (list json) :=
  match pages with
  | O => mret ids
  | S pages' =>
      let params :=
        [("ps", pretty page_size); ("offset", pretty offset);
         ("sort_by", "proddate"); ("sort_order", "desc")]
        ++ match truthy q with Some v => [("q", v)] | None => [] end
        ++ match truthy date_from with Some v => [("from", v)] | None => [] end
        ++ match truthy date_to with Some v => [("to", v)] | None => [] end in
      let url := BASE +:+ "/api/catalog/search" +:+ "?" +:+ urlencode params in
      r ← _retry_get srv url;
      j ← json_of r;
      d ← lift (json_get j "result" (JMap []));
      rows0 ← lift (json_get d "rows" (JList []));
      rows ← lift (rows_of rows0);
      _ ← log INFO "search page=%s offset=%s -> %s estudios"
            [AInt (page + 1); AInt offset; AInt (Z.of_nat (List.length rows))];
      match rows with
      | [] => mret ids
      | _ =>
          new ← lift (page_ids rows);
          let ids' := ids ++ new in
          if negb (limit_studies =? 0)
             && (limit_studies <=? Z.of_nat (List.length ids'))
          then mret (slice_to limit_studies ids')
          else if Z.of_nat (List.length rows) <? page_size then mret ids'
          else search_loop pages' (page + 1) (offset + page_size) ids'
                           q date_from date_to page_size limit_studies
      end
  end.

Definition search_catalog (q date_from date_to : option string)
           (page_size max_pages limit_studies : Z) : M (list json) :=
  search_loop (Z.to_nat max_pages) 0 0 [] q date_from date_to
              page_size limit_studies.

(** [f"{study_id}"]: a number in decimal, a string as it is. *)
Definition id_text (study_id : json) : string :=
  match study_id with
  | JNum n => pretty n
  | JStr s => s
  | JBool true => "True"
  | JBool false => "False"
  | JNull => "None"
  | _ => py_repr study_id
  end.

(** [/metadata/export/{study_id}/json] *)
Definition export_url (study_id : json) : string :=
  BASE +:+ "/metadata/export/" +:+ id_text study_id +:+ "/json".

Definition export_metadata (study_id : json) : M json :=
  r ← _retry_get srv (export_url study_id);
  json_of r.

(** [re.compile(p, flags=re.IGNORECASE) if p else None] *)
Definition compile_if_given (p : option string) : result (option regex) :=
  match truthy p with
  | Some text => rx ← re_compile text; mret (Some rx)
  | None => Ok None
  end.

(** The four assignments before the loop of [run_extraction]. *)
Definition compile_filters (var_names : option (list string))
           (var_name_regex var_label_regex : option string)
           (file_ids_filter : option (list Z)) : result var_filters :=
  let names := match var_names with
               | Some (_ :: _ as l) => Some (map lower l)
               | _ => None
               end in
  rx1 ← compile_if_given var_name_regex;
  rx2 ← compile_if_given var_label_regex;
  let file_ids := match file_ids_filter with
                  | Some (_ :: _ as l) => Some l
                  | _ => None
                  end in
  mret (VarFilters names rx1 rx2 file_ids).

(** The variable filters applied to the rows of one study. *)
Fixpoint filter_rows (f : var_filters) (rows : list var_row)
  : result (list var_row) :=
  match rows with
  | [] => Ok []
  | r :: rows' =>
      selected f r ≫= fun ok : bool =>
      out ← filter_rows f rows';
      mret (if ok then r :: out else out)
  end.

(** The body of the loop of [run_extraction] for one study: the two
    accumulators [all_vars] and [all_studies], extended. *)
Definition extract_study (f : var_filters) (sid : json)
           (acc : list var_row * list study_row)
  : M (list var_row * list study_row) :=
  md ← export_metadata sid;
  st ← lift (parse_study md sid);
  rows ← lift (parse_variables md sid);
  out_rows ← lift (filter_rows f rows);
  mret (acc.1 ++ out_rows, acc.2 ++ [st]).

(** [for sid in study_ids: ...] *)
Fixpoint extract_all (f : var_filters) (study_ids : list json)
         (acc : list var_row * list study_row)
  : M (list var_row * list study_row) :=
  match study_ids with
  | [] => mret acc
  | sid :: rest =>
      acc' ← extract_study f sid acc;
      extract_all f rest acc'
  end.

(** [run_extraction]: the rows of [df_vars] and of [df_studies]. The
    study ids given are integers; the ids found by the search are used as
    the catalogue gave them. *)
Definition run_extraction (q : option string) (sid_list : list Z)
           (date_from date_to : option string)
           (limit_studies page_size max_pages : Z)
           (var_names : option (list string))
           (var_name_regex var_label_regex : option string)
           (file_ids_filter : option (list Z))
  : M (list var_row * list study_row) :=
  study_ids ← (match sid_list with
               | _ :: _ => mret (map JNum sid_list)
               | [] =>
                   match truthy q with
                   | None => raise (ValueError
                       "Debes proporcionar --sid o --q (texto de búsqueda).")
                   | Some _ =>
                       search_catalog q date_from date_to
                                      page_size max_pages limit_studies
                   end
               end);
  match study_ids with
  | [] => raise (RuntimeError
            "No se encontraron estudios con los parámetros dados.")
  | _ =>
      f ← lift (compile_filters var_names var_name_regex var_label_regex
                                file_ids_filter);
      extract_all f study_ids ([], [])
  end.

End Extraction.

(** ** Tolerant access to nested keys *)

(** [_get(d, *keys, default=dflt)], [JNull] standing for [None]. The walk
    stops with [dflt] at a value that is null or not an object; a key that
    is missing yields [dflt] as the current value and the walk goes on
    from it. No step of the walk can raise. *)
Fixpoint _get (d : json) (keys : list string) (dflt : json) : json :=
  match keys with
  | [] => match d with JNull => dflt | _ => d end
  | k :: keys' =>
      match d with
      | JMap m =>
          _get (match dict_get m k with Some v => v | None => dflt end)
               keys' dflt
      | _ => dflt
      end
  end.

(** The value found by following [keys] through nested objects, when
    every step is an object that has the key. *)
Fixpoint at_path (d : json) (keys : list string) : option json :=
  match keys with
  | [] => Some d
  | k :: keys' =>
      match d with
      | JMap m => v ← dict_get m k; at_path v keys'
      | _ => None
      end
  end.

End Dane.

(* ================================================================== *)
(** * src/SiMEM/simem_extract_clean.py *)
(* ================================================================== *)

Module SiMEM.

(** ** Names *)

(** [re.sub(r"([a-z0-9])([A-Z])", r"\1_\2", name)]: matches do not
    overlap, the scan resumes after the capital. *)
Fixpoint split_camel (s : string) : string :=
  match s with
  | String c1 ((String c2 rest) as tl) =>
      if (is_lower c1 || is_digit c1) && is_upper c2
      then String c1 (String "_" (String c2 (split_camel rest)))
      else String c1 (split_camel tl)
  | _ => s
  end.

Definition is_sep (c : ascii) : bool :=
  is_space c || (code c =? 45) || (code c =? 47).

(** [re.sub(r"[\s\-\/]+", "_", s)]; [in_run] holds inside a run already
    replaced. *)
Fixpoint join_seps (in_run : bool) (s : string) : string :=
  match s with
  | EmptyString => EmptyString
  | String c s' =>
      if is_sep c then
        if in_run then join_seps true s' else String "_" (join_seps true s')
      else String c (join_seps false s')
  end.

(** [s.replace("__", "_")]: one pass, left to right. *)
Fixpoint halve_underscores (s : string) : string :=
  match s with
  | String c1 ((String c2 rest) as tl) =>
      if (code c1 =? 95) && (code c2 =? 95)
      then String "_" (halve_underscores rest)
      else String c1 (halve_underscores tl)
  | _ => s
  end.

Definition _snake_case (name : string) : string :=
  lower (halve_underscores (join_seps false (split_camel name))).

(** ** Flattening: [pd.json_normalize(records, sep="_")] *)

Definition flatten (L : lib) (records : list (list (string * json)))
  : DataFrame :=
  json_normalize L records "_".

(** ** Typing the columns *)

(** One entry of the block [result.columns] of the API. *)
Record schema_column : Type := SchemaColumn {
  nameColumn : option string;
  dataType : option string
}.

Definition _norm (s : string) : string := lower (strip s).

(** The dictionary [idx]: normalised name to (name, lower-cased type);
    a later entry replaces an earlier one with the same key. *)
Definition schema_index (schema_columns : list schema_column)
  : gmap string (string * string) :=
  foldl (fun idx c =>
           match truthy (nameColumn c) with
           | Some n =>
               <[_norm n := (n, lower (default "" (truthy (dataType c))))]> idx
           | None => idx
           end)
        ∅ schema_columns.

(** Truth value of a decoded JSON value. *)
Definition json_truthy (j : json) : bool :=
  match j with
  | JNull => false
  | JBool b => b
  | JNum n => negb (n =? 0)
  | JStr s => nonempty s
  | JList l => negb (List.length l =? 0)%nat
  | JMap m => negb (List.length m =? 0)%nat
  end.

(** [d.get(k)] on a decoded value: only objects have [get]. *)
Definition json_get (d : json) (k : string) : result json :=
  match d with
  | JMap m => Ok (default JNull (dict_get m k))
  | _ => Raise (AttributeError "object has no attribute 'get'")
  end.

(** [x or y] *)
Definition json_or (x y : json) : json := if json_truthy x then x else y.

(** A value read where the code calls the [str] method [method] on it,
    after [or ""]: a string; nothing for a falsy value; any other value
    has no such method. *)
Definition as_str (method : string) (j : json) : result (option string) :=
  match j with
  | JStr s => Ok (Some s)
  | _ => if json_truthy j
         then Raise (AttributeError
                       ("object has no attribute '" +:+ method +:+ "'"))
         else Ok None
  end.

(** One step of the comprehension that builds [idx]: the guard
    [c.get("nameColumn")], then the key, then the value. *)
Definition schema_entry (c : json) : result schema_column :=
  n ← json_get c "nameColumn";
  if json_truthy n then
    name ← as_str "strip" n;
    t ← json_get c "dataType";
    type ← as_str "lower" t;
    mret (SchemaColumn name type)
  else mret (SchemaColumn None None).

(** The block [result.columns] as the comprehension goes through it: a
    list gives its entries; an object gives its keys and a string its
    characters, which have no [get]; anything else cannot be iterated. *)
Definition schema_of_json (j : json) : result (list schema_column) :=
  match j with
  | JList l => mapM schema_entry l
  | JMap [] | JStr EmptyString => Ok []
  | JMap _ | JStr _ => Raise (AttributeError "'str' object has no attribute 'get'")
  | _ => Raise (TypeError "object is not iterable")
  end.

Definition text_column (L : lib) (strip_text : bool) (s : Series) : Series :=
  let s' := astype_string L s in
  if strip_text then str_strip s' else s'.

(** The body of the loop of [_map_types_by_schema] for one column. *)
Definition type_by_schema (L : lib) (idx : gmap string (string * string))
           (strip_text : bool) (s : string * Series) : result (string * Series) :=
  let dtype := snd <$> idx !! _norm s.1 in
  if bool_decide (dtype = Some "fecha") then
    p ← to_datetime L errors_coerce s.2;
    d ← dt_date p;
    mret (s.1, d)
  else if bool_decide (dtype = Some "fecha hora") then
    p ← to_datetime L errors_coerce s.2;
    mret (s.1, p)
  else mret (s.1, text_column L strip_text s.2).

(** [schema_columns] is the block as decoded. The comprehension comes
    first; then the loop [for col in list(df.columns): df[col] = ...] goes
    through the columns one by one; the names are distinct there, the
    frame coming from the flattener. *)
Definition _map_types_by_schema (L : lib) (df : DataFrame)
           (schema_columns : json) (to_snake strip_text : bool)
  : result DataFrame :=
  entries ← schema_of_json schema_columns;
  typed ← mapM (type_by_schema L (schema_index entries) strip_text) (data df);
  let df' := mkDataFrame (nrows df) typed in
  mret (if to_snake then rename _snake_case df' else df').

(** [parsed.notna().mean() > 0.9], the mean taken as the exact quotient
    of the count by the number of rows (the floating-point quotient
    compares the same way below 10^14 rows; on no rows the mean is NaN
    and the test fails). *)
Definition mostly_dates (parsed : Series) : bool :=
  10 * count_notna parsed >? 9 * Z.of_nat (List.length (values parsed)).

(** The body of the loop of [_fallback_infer_types] for one column. *)
Definition infer_column (L : lib) (strip_text : bool) (s : string * Series)
  : result (string * Series) :=
  parsed ← to_datetime L errors_coerce s.2;
  if mostly_dates parsed then mret (s.1, parsed)
  else if bool_decide (dtype_of s.2 = DObject)
       then mret (s.1, text_column L strip_text s.2)
       else mret s.

Definition _fallback_infer_types (L : lib) (df : DataFrame)
           (to_snake strip_text : bool) : result DataFrame :=
  typed ← mapM (infer_column L strip_text) (data df);
  let df' := mkDataFrame (nrows df) typed in
  mret (if to_snake then rename _snake_case df' else df').

(** ** Client-side filters *)

(** The column a filter names: itself, or the first one equal to it up to
    case. *)
Definition effective_column (col : string) (to_snake : bool) (df : DataFrame)
  : option string :=
  let col_eff := if to_snake then _snake_case col else col in
  if mem col_eff (columns df) then Some col_eff
  else head (filter (fun c => String.eqb (lower c) (lower col_eff) = true)
                    (columns df)).

Definition isin (vals : list string) (c : cell) : bool :=
  match c with Str t => mem t vals | _ => false end.

Definition _apply_client_filters (L : lib) (df : DataFrame)
           (eq_filters : list (string * list string)) (to_snake : bool)
  : M DataFrame :=
  foldl (fun acc f =>
           res ← acc;
           let vals := map strip f.2 in
           match effective_column f.1 to_snake res with
           | None =>
               _ ← print "[WARN] Filtro ignorado: columna '%s' no encontrada."
                     [AStr f.1];
               mret res
           | Some col_eff =>
               series ← lift (getitem col_eff
                                (AttributeError "'DataFrame' object has no attribute 'str'")
                                res);
               let mask := map (isin vals) (values (str_strip (astype_str L series))) in
               mret (loc mask res)
           end)
        (mret df) eq_filters.

Record date_filter : Type := DateFilter {
  date_column : option string;
  start : option string;
  end_ : option string
}.

(** [Timedelta(days=0, hours=23, minutes=59, seconds=59,
    microseconds=999999)] in nanoseconds. *)
Definition end_of_day : Z := ((23 * 60 + 59) * 60 + 59) * 1000000000 + 999999000.

Definition ge_mask (bound : Z) (c : cell) : bool :=
  match c with Timestamp t => bound <=? t | _ => false end.

Definition le_mask (bound : Z) (c : cell) : bool :=
  match c with Timestamp t => t <=? bound | _ => false end.

(** [s >= bound] and [s <= bound] for a bound without zone: position by
    position on a datetime column; on the object column that
    [pd.to_datetime] gives for mixed offsets the values have a zone and
    cannot be compared with the bound. *)
Definition compare_bound (test : Z -> cell -> bool) (bound : Z) (s : Series)
  : result (list bool) :=
  if bool_decide (dtype_of s = DDatetime64)
  then Ok (map (test bound) (values s))
  else Raise (TypeError "Cannot compare tz-naive and tz-aware timestamps").

Definition _apply_client_date_filter (L : lib) (df : DataFrame)
           (conf : date_filter) (to_snake : bool) : M DataFrame :=
  match truthy (date_column conf) with
  | None => mret df
  | Some col =>
      match effective_column col to_snake df with
      | None =>
          _ ← print "[WARN] Filtro por fecha ignorado: columna '%s' no encontrada."
                [AStr col];
          mret df
      | Some col_eff =>
          s0 ← lift (getitem col_eff
                       (ValueError "to assemble mappings requires at least that [year, month, day] be specified")
                       df);
          s ← (if bool_decide (dtype_of s0 = DDatetime64) then mret s0
               else lift (to_datetime L errors_coerce s0));
          let mask0 := map (fun _ => true) (seq 0 (nrows df)) in
          mask1 ← match truthy (start conf) with
                  | Some a =>
                      t ← lift (to_datetime_scalar L a);
                      after ← lift (compare_bound ge_mask t s);
                      mret (zip_with andb mask0 after)
                  | None => mret mask0
                  end;
          mask2 ← match truthy (end_ conf) with
                  | Some b =>
                      t ← lift (to_datetime_scalar L b);
                      before ← lift (compare_bound le_mask (t + end_of_day) s);
                      mret (zip_with andb mask1 before)
                  | None => mret mask1
                  end;
          mret (loc mask2 df)
      end
  end.

(** ** Column subset (the last step of [fetch_dataset_and_clean]) *)

Definition step_subset (df : DataFrame) (subset_cols : list string)
           (to_snake : bool) : M DataFrame :=
  match subset_cols with
  | [] => mret df
  | _ =>
      let final_cols := map (fun c => if to_snake then _snake_case c else c)
                            subset_cols in
      let missing := filter (fun c => mem c (columns df) = false) final_cols in
      _ ← (match missing with
           | [] => mret tt
           | _ => print "[WARN] Columnas faltantes en subset: %s. Se ignorarán."
                    (map AStr missing)
           end);
      let keep := filter (fun c => mem c (columns df) = true) final_cols in
      match keep with
      | [] => mret df
      | _ => mret (select keep df)
      end
  end.

Section Fetch.
Variable srv : server.

(** [RuntimeError(f"HTTP {r.status_code}: {r.text[:300]}")] *)
Definition http_failure (r : response) : exn :=
  RuntimeError ("HTTP " +:+ pretty (status_code r) +:+ ": "
                +:+ String.substring 0 300 (text r)).

(** The loop of [_http_get_with_retries]: [n] iterations left of
    [range(1, max_retries + 1)], [attempt] the current one. *)
Fixpoint _http_get_loop (n : nat) (attempt : Z) (last_exc : option exn)
         (url : string) (max_retries backoff : Z) : M response :=
  match n with
  | O =>
      match last_exc with
      | Some e => raise e
      | None => raise (TypeError "exceptions must derive from BaseException")
      end
  | S n' =>
      o ← try_except
            (r ← http_get srv url;
             if (200 <=? status_code r) && (status_code r <? 300)
             then mret (inl r)
             else mret (inr (http_failure r)))
            (fun e => mret (inr e));
      match o with
      | inl r => mret r
      | inr e =>
          _ ← (if attempt <? max_retries then sleep (backoff * attempt)
               else mret tt);
          _http_get_loop n' (attempt + 1) (Some e) url max_retries backoff
      end
  end.

Definition _http_get_with_retries (url : string) (max_retries backoff : Z)
  : M response :=
  _http_get_loop (Z.to_nat max_retries) 1 None url max_retries backoff.

End Fetch.

(** What [_http_get_with_retries] keeps in [last_exc] after a GET that
    did not give a 2xx response; [None] for a 2xx response. *)
Definition failure_of (o : outcome) : option exn :=
  match o with
  | Answers r =>
      if (200 <=? status_code r) && (status_code r <? 300) then None
      else Some (http_failure r)
  | Fails e => Some e
  end.

(** The sleeps of [n] failed attempts from [attempt] on: [backoff *
    attempt] after each attempt but the one numbered [max_retries]. *)
Fixpoint delays (n : nat) (attempt max_retries backoff : Z) : list Z :=
  match n with
  | O => []
  | S n' =>
      (if attempt <? max_retries then [backoff * attempt] else [])
      ++ delays n' (attempt + 1) max_retries backoff
  end.

(** What is raised after [n] failed attempts, the first of them being GET
    number [first] of the world. *)
Definition raised (srv : server) (url : string) (first n : nat)
           (last_exc : option exn) : exn :=
  default (TypeError "exceptions must derive from BaseException")
    (match n with
     | O => last_exc
     | S n' => failure_of (srv (first + n')%nat url)
     end).

(** ** The whole extraction *)

Definition BASE_URL : string :=
  "https://www.simem.co/backend-files/api/PublicData".

Record params : Type := Params {
  dataset_id : string;
  start_date : string;
  end_date : string;
  column_destiny_name : option string;
  values_ : option (string + list string);
  to_snake_case : bool;
  strip_text : bool;
  drop_duplicates_ : bool;
  drop_all_null_columns : bool;
  subset_columns : list string;
  client_filters : list (string * list string);
  client_date_filter : date_filter;
  timeout_secs : Z;
  max_retries : Z;
  retry_backoff_secs : Z
}.

(** [s.split(",")] *)
Fixpoint split_commas (cur : string) (s : string) : list string :=
  match s with
  | EmptyString => [String.rev cur]
  | String c s' =>
      if (code c =? 44) then String.rev cur :: split_commas EmptyString s'
      else split_commas (String c cur) s'
  end.

Definition _ensure_values_list (values : option (string + list string))
  : option (list string) :=
  let items :=
    match values with
    | None => []
    | Some (inl s) => filter (fun x => nonempty x = true)
                             (map strip (split_commas EmptyString s))
    | Some (inr l) => filter (fun x => nonempty x = true) (map strip l)
    end in
  match items with [] => None | _ => Some items end.

Fixpoint join (sep : string) (l : list string) : string :=
  match l with
  | [] => EmptyString
  | [x] => x
  | x :: l' => x +:+ sep +:+ join sep l'
  end.

Section Extraction.
Variable srv : server.
Variable L : lib.
(** [urllib.parse.urlencode(q, quote_via=quote_plus)] *)
Variable urlencode : list (string * string) -> string.

Definition _build_query (p : params) (values_list : option (list string))
  : string :=
  BASE_URL +:+ "?" +:+
  urlencode [("startDate", start_date p);
             ("endDate", end_date p);
             ("datasetId", dataset_id p);
             ("columnDestinyName",
               default "null" (truthy (column_destiny_name p)));
             ("values",
               match values_list with
               | Some l => join "," l
               | None => "null"
               end)].

(** The records as [pd.json_normalize] takes them. A record that is not
    an object flattens to the empty record; a record that is itself a
    list is not covered by this embedding. *)
Definition records_of_json (j : json) : result (list (list (string * json))) :=
  match j with
  | JList l =>
      mapM (fun r => match r with
                     | JMap m => Ok m
                     | JList _ => Raise (TypeError "record is a list")
                     | _ => Ok []
                     end) l
  | JMap m => Ok [m]
  | _ => Raise (TypeError "NotImplementedError")
  end.

Record SimemResult : Type := mkSimemResult {
  raw_json : json;
  df : DataFrame;
  metadata : list (string * json);
  schema_columns : json
}.

Definition fetch_dataset_and_clean (p : params) : M SimemResult :=
  let values_list := _ensure_values_list (values_ p) in
  let to_snake := to_snake_case p in
  let url := _build_query p values_list in
  _ ← print "[INFO] GET %s" [AStr url];
  resp ← _http_get_with_retries srv url (max_retries p) (retry_backoff_secs p);
  payload ← try_except (json_of resp)
              (fun _ => raise (RuntimeError
                 ("Respuesta no JSON: " +:+ String.substring 0 300 (text resp))));
  success ← lift (json_get payload "success");
  if negb (json_truthy success)
  then raise (RuntimeError "API respondió success=false")
  else
    r0 ← lift (json_get payload "result");
    let result := json_or r0 (JMap []) in
    rec0 ← lift (json_get result "records");
    let records := json_or rec0 (JList []) in
    col0 ← lift (json_get result "columns");
    let schema := json_or col0 (JList []) in
    let metadata :=
      match result with
      | JMap m => filter (fun kv => mem kv.1 ["records"; "columns"] = false) m
      | _ => []
      end in
    recs ← lift (records_of_json records);
    let df0 := flatten L recs in
    df1 ← (if json_truthy schema then
             lift (_map_types_by_schema L df0 schema to_snake (strip_text p))
           else lift (_fallback_infer_types L df0 to_snake (strip_text p)));
    let df2 := if drop_all_null_columns p && negb (empty df1)
               then dropna_columns df1 else df1 in
    let df3 := if drop_duplicates_ p && negb (empty df2)
               then drop_duplicates df2 else df2 in
    df4 ← (match client_filters p with
           | [] => mret df3
           | fs => _apply_client_filters L df3 fs to_snake
           end);
    let cdf := client_date_filter p in
    df5 ← (match truthy (start cdf), truthy (end_ cdf) with
           | None, None => mret df4
           | _, _ => _apply_client_date_filter L df4 cdf to_snake
           end);
    df6 ← step_subset df5 (subset_columns p) to_snake;
    mret (mkSimemResult payload df6 metadata schema).

End Extraction.

End SiMEM.

(* ================================================================== *)
(** * src/banrep/banrep_loader_clean_v3.py *)
(* ================================================================== *)

Module Banrep.

(** The key of the wide table: a date (nanoseconds) when the long table
    has the column "date", else the text of "time". *)
Definition key : Type := Z + string.

Definition key_leb (a b : key) : bool :=
  match a, b with
  | inl x, inl y => x <=? y
  | inr x, inr y => String.leb x y
  | inl _, inr _ => true
  | inr _, inl _ => false
  end.

Definition key_of_cell (c : cell) : option key :=
  match c with
  | Timestamp t => Some (inl t)
  | Str s => Some (inr s)
  | _ => None
  end.

Section Wide.
Variable L : lib.

(** The label [_col_] of one row: [f"{flow_id} :: {series_name}"], or
    [f"{flow_id} :: series"] when the series name is null. *)
Definition col_label (flow_id : cell) (series_name : option cell) : string :=
  let fid := py_str L flow_id in
  match series_name with
  | Some c => if notna c then fid +:+ " :: " +:+ py_str L c
              else fid +:+ " :: series"
  | None => fid +:+ " :: series"
  end.

(** The rows of [tmp] as the pivot reads them: the key ("date" when the
    table has that column, else "time"), the label [_col_] and the value;
    [None] when a column the statements read is missing. *)
Definition long_rows (df_long : DataFrame)
  : option (list (option key * option string * cell)) :=
  let idx := if mem "date" (columns df_long) then "date" else "time" in
  ks ← column_values idx df_long;
  vs ← column_values "value" df_long;
  fs ← column_values "flow_id" df_long;
  let ss := column_values "series_name" df_long in
  Some (imap (fun i k =>
                (key_of_cell k,
                 Some (col_label (nth i fs NA) ((fun l => nth i l NA) <$> ss)),
                 nth i vs NA))
             ks).

(** The wide table of [consolidate] (the statements under "Ancho"),
    from the long table [df_long]. *)
Definition consolidate_wide (df_long : DataFrame) : result (wide key string) :=
  match long_rows df_long with
  | Some long => Ok (pivot_table key_leb String.leb long)
  | None => Raise (ValueError "KeyError")
  end.

End Wide.

(** ** Loading the flows *)

Definition starts_with_slash (s : string) : bool :=
  match s with String c _ => code c =? 47 | EmptyString => false end.

Fixpoint ends_with_slash (s : string) : bool :=
  match s with
  | EmptyString => false
  | String c EmptyString => code c =? 47
  | String _ s' => ends_with_slash s'
  end.

(** [os.path.join(a, b)] *)
Definition os_path_join (a b : string) : string :=
  if starts_with_slash b then b
  else if negb (nonempty a) || ends_with_slash a then a +:+ b
  else a +:+ "/" +:+ b.

(** [df[c] = v] for one value [v]: every column called [c] is replaced,
    or the column is added at the end. *)
Definition set_column (c : string) (v : cell) (df : DataFrame) : DataFrame :=
  let col := mkSeries DObject (replicate (nrows df) v) in
  if mem c (columns df)
  then mkDataFrame (nrows df)
         (map (fun cs => if String.eqb cs.1 c then (cs.1, col) else cs) (data df))
  else mkDataFrame (nrows df) (data df ++ [(c, col)]).

(** The key columns that are present first, then the other columns. *)
Definition key_columns_first (df : DataFrame) : DataFrame :=
  let first := filter (fun c => mem c (columns df) = true)
                      ["date"; "time"; "value"; "series_name"; "flow_id"] in
  let rest := filter (fun c => mem c first = false) (columns df) in
  select (first ++ rest) df.

(** [df[c] = s] for a name [c] the frame does not have yet. *)
Definition add_column (c : string) (s : Series) (df : DataFrame) : DataFrame :=
  mkDataFrame (nrows df) (data df ++ [(c, s)]).

(** The key columns of a flow. *)
Definition KEY_COLUMNS : list string :=
  ["time"; "date"; "value"; "series_name"; "flow_id"].

(** The body of the loop "Asegura columnas clave" for one name. *)
Definition ensure_key (df : DataFrame) (must : string) : result DataFrame :=
  if mem must (columns df) then Ok df
  else if String.eqb must "value" && mem "OBS_VALUE" (columns df) then
    s ← getitem "OBS_VALUE"
          (ValueError "Cannot set a DataFrame with multiple columns to the single column value")
          df;
    mret (add_column "value" s df)
  else Ok (add_column must (mkSeries DObject (replicate (nrows df) NA)) df).

Section Loader.
Variable L : lib.
(** [pd.read_csv(path)], the flow name of a path,
    [os.path.splitext(os.path.basename(path))[0]], and the parser behind
    [pd.to_datetime(text, format=fmt, errors="coerce")] are taken as given. *)
Variable read_csv : string -> M DataFrame.
Variable flow_of_path : string -> string.
Variable strptime : string -> string -> option Z.

(** [re.sub(r"[^0-9]", "", text)] *)
Fixpoint digits_only (s : string) : string :=
  match s with
  | EmptyString => EmptyString
  | String c s' => if is_digit c then String c (digits_only s') else digits_only s'
  end.

(** The column date built from the column time: the digits of each value
    read as year-month-day, or, when no value reads so, as year-month, or,
    when no value reads so either, as a year. *)
Definition build_date (times : list cell) : list cell :=
  let cleaned := map (fun c => digits_only (py_str L c)) times in
  let parse fmt := map (fun t => cell_of_parsed (strptime fmt t)) cleaned in
  let dt1 := parse "%Y%m%d" in
  if negb (forallb isna dt1) then dt1
  else
    let dt2 := parse "%Y%m" in
    if negb (forallb isna dt2) then dt2 else parse "%Y".

(** The body of [load_one_flow_csv]. *)
Definition load_one_flow_csv (path : string) : M DataFrame :=
  df ← read_csv path;
  let df1 :=
    if mem "flow_id" (columns df) then df
    else add_column "flow_id"
           (mkSeries DObject (replicate (nrows df) (Str (flow_of_path path)))) df in
  df2 ← (if negb (mem "date" (columns df1)) && mem "time" (columns df1) then
           s ← lift (getitem "time"
                       (AttributeError "'DataFrame' object has no attribute 'str'")
                       df1);
           mret (add_column "date" (mkSeries DDatetime64 (build_date (values s))) df1)
         else mret df1);
  lift (foldl (fun acc must => df' ← acc; ensure_key df' must) (Ok df2) KEY_COLUMNS).

End Loader.

Section Load.
(** [list_available_flows(out_dir)] and [load_one_flow_csv(path)], which
    read the disk through [glob] and [pd.read_csv], are taken as given. *)
Variable list_available_flows : string -> M (list string).
Variable load_one_flow_csv : string -> M DataFrame.

(** The frame of one flow as [consolidate] keeps it. *)
Definition flow_frame (fid : string) (df : DataFrame) : DataFrame :=
  key_columns_first (set_column "flow_id" (Str fid) df).

(** [for fid in flows: ...], [dfs] being the frames loaded so far. *)
Fixpoint load_flows (data_dir : string) (flows : list string)
         (dfs : list DataFrame) : M (list DataFrame) :=
  match flows with
  | [] => mret dfs
  | fid :: rest =>
      let path := os_path_join data_dir (fid +:+ ".csv") in
      there ← path_exists path;
      if negb there then
        _ ← log WARNING "No existe CSV para %s (omito). Esperado: %s"
              [AStr fid; AStr path];
        load_flows data_dir rest dfs
      else
        df ← load_one_flow_csv path;
        load_flows data_dir rest (dfs ++ [flow_frame fid df])
  end.

(** The first part of the body of [consolidate], up to the list [dfs] of
    the frames to concatenate; [flows] is a list of names or [None]. *)
Definition consolidate_frames (out_dir : string) (flows : option (list string))
  : M (list DataFrame) :=
  let data_dir := os_path_join out_dir "data" in
  flows' ← (match flows with
            | None | Some [] => list_available_flows out_dir
            | Some l => mret (filter (fun f => nonempty f = true) (map strip l))
            end);
  match flows' with
  | [] => raise (RuntimeError
            "No hay variables para consolidar (revisa out_dir/data o la lista de flows).")
  | _ =>
      dfs ← load_flows data_dir flows' [];
      match dfs with
      | [] => raise (RuntimeError
                "No se pudo cargar ningún CSV. ¿Ruta correcta y permisos?")
      | _ => mret dfs
      end
  end.

End Load.

End Banrep.

(* ================================================================== *)
(** * src/pwt/pwt_loader_clean.py *)
(* ================================================================== *)

Module PWT.

Record FileMeta : Type := mkFileMeta {
  id : Z;
  label : string;
  content_type : string;
  size : option Z;
  checksum : option string   (* md5 when the server gives one *)
}.

(** The class [\w\-.] of [_safe_name], on ASCII. *)
Definition is_safe (c : ascii) : bool :=
  is_lower c || is_upper c || is_digit c
  || (code c =? 95) || (code c =? 45) || (code c =? 46).

(** [re.sub(r"[^\w\-.]+", "_", s)]; [in_run] holds inside a run already
    replaced. *)
Fixpoint replace_unsafe (in_run : bool) (s : string) : string :=
  match s with
  | EmptyString => EmptyString
  | String c s' =>
      if is_safe c then String c (replace_unsafe false s')
      else if in_run then replace_unsafe true s'
           else String "_" (replace_unsafe true s')
  end.

Definition _safe_name (name : string) : string :=
  replace_unsafe false (strip name).

(** [out_dir / name] *)
Definition path_join (out_dir name : string) : string :=
  out_dir +:+ "/" +:+ name.

Section Cache.
Variable srv : server.
(** [hashlib.md5(b).hexdigest()] *)
Variable md5_hexdigest : list Byte.byte -> string.

Definition _maybe_use_cache (out_dir : string) (meta : FileMeta)
  : M (option (list Byte.byte)) :=
  let p := path_join out_dir (_safe_name (label meta)) in
  there ← path_exists p;
  if negb there then mret None
  else
    match truthy (checksum meta) with
    | Some sum =>
        b ← read_bytes p;
        if String.eqb (md5_hexdigest b) sum then
          _ ← log INFO "Cache OK para %s (md5 coincide)." [AStr (label meta)];
          b' ← read_bytes p;
          mret (Some b')
        else
          _ ← log INFO "Cache desactualizada para %s (md5 no coincide)."
                [AStr (label meta)];
          mret None
    | None =>
        _ ← log INFO "Cache encontrada para %s (sin checksum remoto)."
              [AStr (label meta)];
        b ← read_bytes p;
        mret (Some b)
    end.

Definition datafile_url (base : string) (file_id : Z) (original : bool)
  : string :=
  base +:+ "/api/access/datafile/" +:+ pretty file_id
  +:+ (if original then "?format=original" else "").

(** [download_file_by_id]: on an HTTP error with [format=original], one
    more request without the format. *)
Definition download_file_by_id (base : string) (file_id : Z)
  : M (list Byte.byte) :=
  r ← http_get srv (datafile_url base file_id true);
  try_except
    (_ ← raise_for_status r; mret (content r))
    (fun _ =>
       _ ← log WARNING "Fallo con format=original; reintentando sin formato…" [];
       r' ← http_get srv (datafile_url base file_id false);
       _ ← raise_for_status r';
       mret (content r')).

(** The part of [load_pwt] that obtains the raw bytes of the chosen
    file: from the cache, or downloaded and written to [out_dir]. *)
Definition load_raw (base out_dir : string) (use_cache : bool)
           (meta : FileMeta) : M (list Byte.byte) :=
  raw ← (if use_cache then _maybe_use_cache out_dir meta else mret None);
  match raw with
  | None =>
      _ ← log INFO "Descargando %s ..." [AStr (label meta)];
      b ← download_file_by_id base (id meta);
      _ ← write_bytes (path_join out_dir (_safe_name (label meta))) b;
      _ ← log INFO "Guardado archivo crudo en %s"
            [AStr (path_join out_dir (_safe_name (label meta)))];
      mret b
  | Some b =>
      _ ← log INFO "Usando archivo desde cache: %s" [AStr (label meta)];
      mret b
  end.

End Cache.

(** ** The views *)

(** A row of [vista_figura]: iso, country, variable code, variable name. *)
Definition entity : Type := string * string * string * string.

Definition iso_code (e : entity) : string * string := (e.1.1.1, e.1.2).

Definition pair_leb (a b : string * string) : bool :=
  if String.eqb a.1 b.1 then String.leb a.2 b.2 else String.leb a.1 b.1.

Definition entity_leb (a b : entity) : bool :=
  if bool_decide (a.1.1 = b.1.1)
  then pair_leb (a.1.2, a.2) (b.1.2, b.2)
  else pair_leb a.1.1 b.1.1.

Definition text_of_cell (c : cell) : option string :=
  match c with
  | Str s | Obj (JStr s) => Some s
  | _ => None
  end.

Definition year_of_cell (c : cell) : option Z :=
  match c with
  | Obj (JNum y) => Some y
  | _ => None
  end.

Section Views.
(** The table [VAR_LABELS] of variable descriptions. *)
Variable VAR_LABELS : gmap string string.

(** [df.melt(id_vars=["iso","country","year"], value_vars=var_cols)]
    with the column [variable_name] added, as the pivot reads it: one
    row per variable column and row of [df], variable by variable. *)
Definition melt (isos countries years : list cell)
           (var_cols : list (string * Series))
  : list (option entity * option Z * cell) :=
  concat
    (map (fun vc =>
            let name := default vc.1 (VAR_LABELS !! vc.1) in
            imap (fun i v =>
                    (iso ← text_of_cell (nth i isos NA);
                     cty ← text_of_cell (nth i countries NA);
                     Some (iso, cty, vc.1, name),
                     year_of_cell (nth i years NA),
                     v))
                 (values vc.2))
         var_cols).

(** The melted panel of [df]; [None] when a key column is missing. *)
Definition melted (df : DataFrame)
  : option (list (option entity * option Z * cell)) :=
  isos ← column_values "iso" df;
  countries ← column_values "country" df;
  years ← column_values "year" df;
  Some (melt isos countries years
          (filter (fun cs => mem cs.1 ["iso"; "country"; "year"] = false) (data df))).

(** [_build_views]: [vista_figura] (years as columns) and [wide_panel]. *)
Definition _build_views (df : DataFrame)
  : result (wide entity Z * DataFrame) :=
  match melted df with
  | Some long =>
      let w := pivot_table entity_leb Z.leb long in
      let sorted := sort_by (fun a b => pair_leb (iso_code a.1) (iso_code b.1))
                            (zip (index w) (cells w)) in
      let ys := sort_by Z.leb (labels w) in
      let pick (r : list cell) (y : Z) : cell :=
        default NA ('(j, _) ← list_find (fun c => c = y) (labels w); r !! j) in
      Ok (mkWide (map fst sorted) ys
                 (map (fun kr => map (pick kr.2) ys) sorted),
          df)
  | None => Raise (ValueError "KeyError")
  end.

End Views.

(** ** The optional filters of [load_pwt] *)

Definition upper_char (c : ascii) : ascii :=
  if is_lower c then ascii_of_N (N_of_ascii c - 32) else c.

(** [str.upper], on ASCII. *)
Fixpoint upper (s : string) : string :=
  match s with
  | EmptyString => EmptyString
  | String c s' => String (upper_char c) (upper s')
  end.

(** One position of [s.str.upper().isin(cc)]: a null is in no set. *)
Definition upper_isin (cc : list string) (c : cell) : bool :=
  match c with
  | Str t | Obj (JStr t) => mem (upper t) cc
  | _ => false
  end.

(** [s.str.upper().isin(cc)]: the accessor [.str] is refused on a column
    of numbers, booleans or dates; an object column is taken to hold text
    or nulls. *)
Definition str_upper_isin (cc : list string) (s : Series) : result (list bool) :=
  match dtype_of s with
  | DString | DObject => Ok (map (upper_isin cc) (values s))
  | _ => Raise (AttributeError "Can only use .str accessor with string values!")
  end.

(** [if countries: ...]: the rows whose iso or country is one of
    [countries], up to case. *)
Definition filter_countries (countries : list string) (df : DataFrame)
  : result DataFrame :=
  match countries with
  | [] => Ok df
  | _ =>
      let cc := map (fun c => upper (strip c)) countries in
      iso ← getitem "iso"
              (AttributeError "'DataFrame' object has no attribute 'str'") df;
      in_iso ← str_upper_isin cc iso;
      cty ← getitem "country"
              (AttributeError "'DataFrame' object has no attribute 'str'") df;
      in_cty ← str_upper_isin cc cty;
      mret (loc (zip_with orb in_iso in_cty) df)
  end.

(** [if keep_vars: ...]: the three key columns and, after them, the
    variables asked for that the panel has; the others are logged. *)
Definition keep_variables (keep_vars : list string) (df : DataFrame)
  : M DataFrame :=
  match keep_vars with
  | [] => mret df
  | _ =>
      let keep := ["iso"; "country"; "year"]
                  ++ filter (fun v => mem v (columns df) = true) keep_vars in
      let missing := filter (fun v => mem v (columns df) = false) keep_vars in
      _ ← (match missing with
           | [] => mret tt
           | _ => log WARNING "Variables no encontradas: %s"
                    [AStr (SiMEM.join ", " missing)]
           end);
      if forallb (fun c => mem c (columns df)) ["iso"; "country"; "year"]
      then mret (select keep df)
      else raise (ValueError "KeyError: not in index")
  end.

End PWT.

(* ================================================================== *)
(** * Shapes of frames and of names *)
(* ================================================================== *)

Module Schema.



End Schema.

Module Frames.

(** Every column has one cell per row. *)
Definition well_formed (df : DataFrame) : Prop :=
  Forall (fun cs : string * Series => List.length (values cs.2) = nrows df)
         (data df).

End Frames.

Module Names.

(** Every character of [s] satisfies [p]. *)
Fixpoint all_chars (p : ascii -> bool) (s : string) : bool :=
  match s with
  | EmptyString => true
  | String c s' => p c && all_chars p s'
  end.

(** A lower-case letter, a digit or an underscore. *)
Definition snake_char (c : ascii) : bool :=
  is_lower c || is_digit c || (code c =? 95).

(** No two underscores in a row. *)
Fixpoint single_underscores (s : string) : bool :=
  match s with
  | String c1 ((String c2 _) as tl) =>
      negb ((code c1 =? 95) && (code c2 =? 95)) && single_underscores tl
  | _ => true
  end.

(** A name already in snake case. *)
Definition canonical (s : string) : bool :=
  all_chars snake_char s && single_underscores s.

(** The first character, if there is one, is not white space. *)
Definition head_ok (s : string) : Prop :=
  match s with String c _ => is_space c = false | EmptyString => True end.

(** Neither the first nor the last character is white space. *)
Definition stripped (s : string) : bool :=
  match s with
  | EmptyString => true
  | String c _ => negb (is_space c)
  end
  && match String.rev s with
     | EmptyString => true
     | String c _ => negb (is_space c)
     end.

End Names.

(* ================================================================== *)
(** * Sample inputs *)
(* ================================================================== *)

(** A source that answers every GET with the status [s]. *)
Definition always (s : Z) : server :=
  fun _ _ => Answers (Response s "body" None []).

(** A source where the metadata of study 2 is missing (404) and every other
    study exports an empty object. *)
Definition study_2_missing : server :=
  fun _ url =>
    if String.eqb url (Dane.export_url (fun _ => "") (JNum 2))
    then Answers (Response 404 "Not Found" None [])
    else Answers (Response 200 "{}" (Some (JMap [])) []).

(** A stand-in for [re.compile]: a pattern is its own compiled form, and
    the pattern "(" is not a regular expression. *)
Definition compile_sample (pattern : string) : result string :=
  if String.eqb pattern "("
  then Raise (ReError "missing ), unterminated subpattern at position 0")
  else Ok pattern.

(** Parsers for the examples: the study row is the study id, each study has
    one variable row, every row is selected; [var_name_regex] is the one
    filter that can be given. *)
Definition run_sample_filtered (var_name_regex : option string)
           (sid_list : list Z) : M (list json * list json) :=
  Dane.run_extraction study_2_missing (fun _ => "") (fun _ => "") json json
    (fun _ sid => Ok sid) (fun _ sid => Ok [sid]) string compile_sample
    (fun _ _ => Ok true)
    None sid_list None None 25 100 10 None var_name_regex None None.

Definition run_sample (sid_list : list Z) : M (list json * list json) :=
  run_sample_filtered None sid_list.
(** A stand-in for MD5 that gives every file the digest of the empty file,
    the file pwt110.dta of the dataset, and a disk that holds an empty
    copy of it. *)
Definition md5_of_nothing : list Byte.byte -> string :=
  fun _ => "d41d8cd98f00b204e9800998ecf8427e".

Definition pwt110 (checksum : option string) : PWT.FileMeta :=
  PWT.mkFileMeta 7 "pwt110.dta" "application/x-stata" None checksum.

Definition disk_with_pwt110 : world :=
  World [] [] [] {[ "pwt_out/pwt110.dta" := [] ]}.

(** A frame of two rows with the columns "fecha" and "valor". *)
Definition two_columns : DataFrame :=
  mkDataFrame 2
    [("fecha", mkSeries DString [Str "2025-01-10"; Str "2025-01-11"]);
     ("valor", mkSeries DString [Str "1"; Str "2"])].

(** The records [{"a": {"b": 1}}, {"a": {"c": 2}}]. *)
Definition two_records : list (list (string * json)) :=
  [[("a", JMap [("b", JNum 1)])]; [("a", JMap [("c", JNum 2)])]].

(** A text column of [k] valid dates followed by [m] values that are not
    dates, and one of [k] valid dates followed by [m] nulls. *)
Definition dates_and_junk (k m : nat) : Series :=
  mkSeries DObject
    (replicate k (Obj (JStr "2025-01-10")) ++ replicate m (Obj (JStr "n/a"))).

Definition dates_and_nulls (k m : nat) : Series :=
  mkSeries DObject (replicate k (Obj (JStr "2025-01-10")) ++ replicate m NA).






(** A frame with one datetime column "fecha" holding one timestamp, the
    filter "from 2025-01-10 to 2025-01-10" on it, and midnight of that day
    in nanoseconds since the epoch. *)
Definition one_timestamp (t : Z) : DataFrame :=
  mkDataFrame 1 [("fecha", mkSeries DDatetime64 [Timestamp t])].

Definition no_timestamp : DataFrame :=
  mkDataFrame 0 [("fecha", mkSeries DDatetime64 [])].

Definition on_2025_01_10 : SiMEM.date_filter :=
  SiMEM.DateFilter (Some "fecha") (Some "2025-01-10") (Some "2025-01-10").

Definition midnight_2025_01_10 : Z := 1736467200000000000.

(** A long table of one flow and one series with three observations: two
    on date 1, the first of them without a value, and one on date 2 without
    a value. *)
Definition three_observations : DataFrame :=
  mkDataFrame 3
    [("date", mkSeries DDatetime64 [Timestamp 1; Timestamp 1; Timestamp 2]);
     ("value", mkSeries DNumeric [NA; Obj (JNum 5); NA]);
     ("series_name", mkSeries DString [Str "s"; Str "s"; Str "s"]);
     ("flow_id", mkSeries DString [Str "F"; Str "F"; Str "F"])].

(** A source that answers the first [k] GET calls with the status [s] and
    every later one with 200 and an empty JSON object. *)
Definition flaky (k : nat) (s : Z) : server :=
  fun n _ =>
    if (n <? k)%nat then Answers (Response s "busy" None [])
    else Answers (Response 200 "{}" (Some (JMap [])) []).

(** A source whose every answer is a catalogue page that lists the
    studies 1, "2" (the id as text) and 3, and a row without id. *)
Definition three_studies : server :=
  fun _ _ =>
    Answers (Response 200 ""
      (Some (JMap [("result",
               JMap [("rows", JList [JMap [("id", JNum 1)];
                                     JMap [("title", JStr "sin id")];
                                     JMap [("id", JStr "2")];
                                     JMap [("id", JNum 3)]])])]))
      []).

(** A run of [run_extraction] by search on that source, with the parsers
    of [run_sample] and at most two studies. *)
Definition search_sample : M (list json * list json) :=
  Dane.run_extraction three_studies (fun _ => "") (fun _ => "") json json
    (fun _ sid => Ok sid) (fun _ sid => Ok [sid]) string compile_sample
    (fun _ _ => Ok true)
    (Some "censo") [] None None 2 100 10 None None None None.

(** A source that answers every GET with the body [{"success": true}]. *)
Definition success_without_result : server :=
  fun _ _ => Answers (Response 200 "" (Some (JMap [("success", JBool true)])) []).

(** Metadata with a title under study_desc.title_statement. *)
Definition nested_title : json :=
  JMap [("study_desc",
         JMap [("title_statement", JMap [("title", JStr "Censo")])])].

(** The parameters of a SiMEM extraction with every cleaning step on and
    no client-side filter, and a source whose payload holds the same
    record twice. *)
Definition sample_params : SiMEM.params :=
  SiMEM.Params "a704ee" "2025-07-01" "2025-07-02" None None
    true true true true [] [] (SiMEM.DateFilter None None None) 60 3 2.

Definition same_record_twice : server :=
  fun _ _ =>
    Answers (Response 200 ""
      (Some (JMap [("success", JBool true);
                   ("result",
                    JMap [("records",
                           JList [JMap [("Fecha", JStr "2025-07-01"); ("Valor", JNum 1)];
                                  JMap [("Fecha", JStr "2025-07-01"); ("Valor", JNum 1)]]);
                          ("columns", JList [])])]))
      []).

(** A panel of one country over two years with the variable pop. *)
Definition small_panel : DataFrame :=
  mkDataFrame 2
    [("iso", mkSeries DString [Str "COL"; Str "COL"]);
     ("country", mkSeries DString [Str "Colombia"; Str "Colombia"]);
     ("year", mkSeries DNumeric [Obj (JNum 2020); Obj (JNum 2019)]);
     ("pop", mkSeries DNumeric [Obj (JNum 51); Obj (JNum 50)])].

(** A disk that holds the CSV of the flow A only, and a reader that gives
    every file the frame [two_columns]. *)
Definition disk_with_flow_A : world :=
  World [] [] [] {[ "out/data/A.csv" := [] ]}.

Definition read_two_columns : string -> M DataFrame :=
  fun _ => mret two_columns.

Definition no_flows : string -> M (list string) :=
  fun _ => mret [].

(** The frame of a flow whose CSV has the columns obs, value, flow_id and
    date, in that order. *)
Definition flow_columns : DataFrame :=
  mkDataFrame 1
    [("obs", mkSeries DString [Str "a"]);
     ("value", mkSeries DNumeric [Obj (JNum 1)]);
     ("flow_id", mkSeries DString [Str "B"]);
     ("date", mkSeries DString [Str "2025-01-10"])].

(** The file of a flow that has the columns time and OBS_VALUE only, a
    reader that gives it for every path, and the year of a text of four
    digits. *)
Definition time_and_obs : DataFrame :=
  mkDataFrame 2
    [("time", mkSeries DObject [Obj (JStr "2024"); Obj (JStr "2025")]);
     ("OBS_VALUE", mkSeries DNumeric [Obj (JNum 1); Obj (JNum 2)])].

Definition read_time_and_obs : string -> M DataFrame :=
  fun _ => mret time_and_obs.

(** A panel of three countries; the name of the third is missing. *)
Definition two_countries : DataFrame :=
  mkDataFrame 3
    [("iso", mkSeries DString [Str "COL"; Str "PER"; Str "ECU"]);
     ("country", mkSeries DString [Str "Colombia"; Str "Peru"; NA]);
     ("year", mkSeries DNumeric [Obj (JNum 2020); Obj (JNum 2020); Obj (JNum 2020)])].

Definition year_only (fmt text : string) : option Z :=
  if String.eqb fmt "%Y" then
    y ← Iso.number 0 (String.list_ascii_of_string text);
    Some (Iso.days_from_civil y 1 1 * ns_per_day)
  else None.

(** Unfolding the operations of the monad. *)
Ltac munfold :=
  unfold mbind, mret, M_bind, M_ret, result_bind, result_ret,
         bind, ret, raise, lift, try_except, print, log, sleep, http_get,
         raise_for_status, json_of, path_exists, read_bytes, write_bytes in *.

(* ================================================================== *)
(** * Properties *)
(* ================================================================== *)

(** ** The monad *)

Lemma bind_ok {A B} (m : M A) (k : A -> M B) w a w' :
  m w = (Ok a, w') -> (m ≫= k) w = k a w'.
Proof. intros E. munfold. by rewrite E. Qed.

Lemma bind_raise {A B} (m : M A) (k : A -> M B) w e w' :
  m w = (Raise e, w') -> (m ≫= k) w = (Raise e, w').
Proof. intros E. munfold. by rewrite E. Qed.

(** ** Lists *)

Module ListFacts.

Lemma mem_spec x xs : mem x xs = true <-> x ∈ xs.
Proof.
  unfold mem. rewrite existsb_exists. split.
  - intros (y & Hy & E). apply String.eqb_eq in E. subst.
    by apply list_elem_of_In.
  - intros H. exists x. split; [by apply list_elem_of_In | apply String.eqb_refl].
Qed.

Lemma mapM_total {A B} (f : A -> result B) (g : A -> B) (l : list A) :
  (forall x, f x = Ok (g x)) -> mapM f l = Ok (map g l).
Proof.
  intros H. induction l as [|x l IH]; [done|]. simpl. by rewrite H, IH.
Qed.

Lemma lookup_map {A B} (f : A -> B) (l : list A) (i : nat) (x : A) :
  l !! i = Some x -> map f l !! i = Some (f x).
Proof.
  revert i. induction l as [|y l IH]; intros [|i]; simpl; try done.
  - by intros [= ->].
  - apply IH.
Qed.

Lemma nth_map_lookup {A B} (f : A -> B) (l : list A) (i : nat) (x : A) (d : B) :
  l !! i = Some x -> nth i (map f l) d = f x.
Proof.
  revert i. induction l as [|y l IH]; intros [|i]; simpl; try done.
  - by intros [= ->].
  - apply IH.
Qed.

Lemma elem_of_map {A B} (f : A -> B) (l : list A) (y : B) :
  y ∈ map f l <-> exists x, y = f x /\ x ∈ l.
Proof.
  rewrite list_elem_of_In, in_map_iff. split.
  - intros (x & <- & Hx). exists x. by rewrite list_elem_of_In.
  - intros (x & -> & Hx). exists x. by rewrite <- list_elem_of_In.
Qed.

Lemma filter_swap {A} (P Q : A -> Prop) `{!forall x, Decision (P x)}
      `{!forall x, Decision (Q x)} (l : list A) :
  filter P (filter Q l) = filter Q (filter P l).
Proof.
  rewrite !list_filter_filter. apply list_filter_iff. tauto.
Qed.

Lemma zip_map_fst {A B} (f : A -> B) (l : list A) :
  map fst (zip l (map f l)) = l.
Proof. induction l as [|x l IH]; [done|]. simpl. by rewrite IH. Qed.

Lemma elem_of_zip_map {A B} (f : A -> B) (l : list A) (x : A) (y : B) :
  (x, y) ∈ zip l (map f l) -> y = f x.
Proof.
  induction l as [|a l IH]; simpl.
  - intros H. by apply elem_of_nil in H.
  - rewrite elem_of_cons. intros [[= -> ->]|H]; [done|by apply IH].
Qed.

Lemma zip_with_all_true (l : list bool) n :
  n = List.length l ->
  zip_with andb (map (fun _ => true) (seq 0 n)) l = l.
Proof.
  intros ->. generalize 0%nat. induction l as [|b l IH]; intros k; [done|].
  simpl. by rewrite IH.
Qed.

Lemma zip_with_map {A} (f g : A -> bool) (l : list A) :
  zip_with andb (map f l) (map g l) = map (fun x => f x && g x) l.
Proof. induction l as [|x l IH]; [done|]. simpl. by rewrite IH. Qed.

End ListFacts.

(** ** The retrying fetch helpers *)

Module FetchFacts.

Lemma retried_range s : Dane.retried s -> 429 <= s < 600.
Proof.
  unfold Dane.retried. rewrite !elem_of_cons, elem_of_nil. lia.
Qed.

Lemma doubling_snoc d n :
  Dane.doubling d (S n) = Dane.doubling d n ++ [d * 2 ^ Z.of_nat n].
Proof.
  revert d. induction n as [|n IH]; intros d.
  - simpl. f_equal. lia.
  - change (Dane.doubling d (S (S n))) with (d :: Dane.doubling (d * 2) (S n)).
    rewrite IH.
    change (Dane.doubling d (S n)) with (d :: Dane.doubling (d * 2) n).
    rewrite <- app_comm_cons. do 3 f_equal.
    rewrite (Nat2Z.inj_succ n), Z.pow_succ_r by lia. lia.
Qed.

Section Dane.
Variable srv : server.
Variable url : string.

(** One iteration on a retried status: a warning, a sleep, and the loop
    goes on with the delay doubled. *)
Lemma loop_retry n backoff last w r :
  srv (List.length (gets w)) url = Answers r ->
  Dane.retried (status_code r) ->
  0 <= backoff ->
  Dane._retry_get_loop srv (S n) backoff last url w =
  Dane._retry_get_loop srv n (backoff * 2) (Some r) url
    (World (gets w ++ [url]) (sleeps w ++ [backoff])
           (logs w ++ [(WARNING, "GET %s -> %s, retry in %.1fs",
                        [AStr url; AInt (status_code r); AInt backoff])])
           (files w)).
Proof.
  intros Hs Hr Hb. pose proof (retried_range _ Hr) as Hrange.
  simpl. munfold. rewrite Hs. simpl.
  destruct (status_code r <? 400) eqn:E; [lia|].
  rewrite bool_decide_eq_true_2 by exact Hr. simpl.
  destruct (backoff <? 0) eqn:E2; [lia|]. reflexivity.
Qed.

(** One iteration on a 4xx or 5xx status that is not retried: the
    error is raised after that one GET. *)
Lemma loop_fatal n backoff last w r :
  srv (List.length (gets w)) url = Answers r ->
  400 <= status_code r < 600 ->
  ¬ Dane.retried (status_code r) ->
  Dane._retry_get_loop srv (S n) backoff last url w =
  (Raise (HTTPError (status_code r)),
   World (gets w ++ [url]) (sleeps w) (logs w) (files w)).
Proof.
  intros Hs Hrange Hr. simpl. munfold. rewrite Hs. simpl.
  destruct (status_code r <? 400) eqn:E; [lia|].
  rewrite bool_decide_eq_false_2 by exact Hr. simpl.
  destruct (400 <=? status_code r) eqn:E1; [|lia].
  destruct (status_code r <? 600) eqn:E2; [|lia]. reflexivity.
Qed.

(** A transport failure is not caught. *)
Lemma loop_transport n backoff last w e :
  srv (List.length (gets w)) url = Fails e ->
  Dane._retry_get_loop srv (S n) backoff last url w =
  (Raise e, World (gets w ++ [url]) (sleeps w) (logs w) (files w)).
Proof. intros Hs. simpl. munfold. by rewrite Hs. Qed.

(** [k] retried responses, then a fatal one. *)
Lemma loop_retries_then_fatal k : forall n backoff last w r,
  (k < n)%nat -> 0 <= backoff ->
  (forall i, (i < k)%nat ->
     exists ri, srv (List.length (gets w) + i)%nat url = Answers ri
                /\ Dane.retried (status_code ri)) ->
  srv (List.length (gets w) + k)%nat url = Answers r ->
  400 <= status_code r < 600 -> ¬ Dane.retried (status_code r) ->
  exists lg,
    Dane._retry_get_loop srv n backoff last url w =
    (Raise (HTTPError (status_code r)),
     World (gets w ++ replicate (S k) url)
           (sleeps w ++ Dane.doubling backoff k) (logs w ++ lg) (files w))
    /\ List.length lg = k.
Proof.
  induction k as [|k IH]; intros n backoff last w r Hk Hb Hpre Hr Hrange Hnot.
  - destruct n as [|n]; [lia|]. exists [].
    rewrite Nat.add_0_r in Hr.
    rewrite (loop_fatal _ _ _ _ _ Hr Hrange Hnot). simpl.
    by rewrite !app_nil_r.
  - destruct n as [|n]; [lia|].
    destruct (Hpre 0%nat ltac:(lia)) as (r0 & Hr0 & Hret0).
    rewrite Nat.add_0_r in Hr0.
    rewrite (loop_retry _ _ _ _ _ Hr0 Hret0 Hb).
    edestruct (IH n (backoff * 2) (Some r0)
                 (World (gets w ++ [url]) (sleeps w ++ [backoff])
                    (logs w ++ [(WARNING, "GET %s -> %s, retry in %.1fs",
                        [AStr url; AInt (status_code r0); AInt backoff])])
                    (files w)) r) as (lg & Hrun & Hlen).
    + lia.
    + lia.
    + intros i Hi. simpl. rewrite length_app. simpl.
      destruct (Hpre (S i) ltac:(lia)) as (ri & Hri & Hreti).
      exists ri. split; [|done].
      rewrite <- Hri. f_equal. lia.
    + simpl. rewrite length_app. simpl. rewrite <- Hr. f_equal. lia.
    + done.
    + done.
    + eexists. rewrite Hrun. simpl. split.
      * rewrite <- !app_assoc. simpl. reflexivity.
      * simpl. rewrite Hlen. reflexivity.
Qed.

(** A source that answers the same retried status every time. *)
Lemma loop_always s : Dane.retried s -> forall n backoff last w,
  0 <= backoff ->
  (forall i, (i < n)%nat ->
     exists r, srv (List.length (gets w) + i)%nat url = Answers r
               /\ status_code r = s) ->
  match last with Some r => status_code r = s | None => n <> O end ->
  exists lg,
    Dane._retry_get_loop srv n backoff last url w =
    (Raise (HTTPError s),
     World (gets w ++ replicate n url)
           (sleeps w ++ Dane.doubling backoff n) (logs w ++ lg) (files w))
    /\ List.length lg = n.
Proof.
  intros Hs. pose proof (retried_range _ Hs) as Hrange.
  induction n as [|n IH]; intros backoff last w Hb Hall Hlast.
  - destruct last as [r|]; [|done]. exists []. simpl. munfold.
    rewrite Hlast.
    destruct (400 <=? s) eqn:E1; [|lia].
    destruct (s <? 600) eqn:E2; [|lia]. simpl.
    by rewrite !app_nil_r; destruct w.
  - destruct (Hall 0%nat ltac:(lia)) as (r0 & Hr0 & Hst0).
    rewrite Nat.add_0_r in Hr0.
    assert (Dane.retried (status_code r0)) as Hret0 by (by rewrite Hst0).
    rewrite (loop_retry _ _ _ _ _ Hr0 Hret0 Hb).
    edestruct (IH (backoff * 2) (Some r0)) as (lg & Hrun & Hlen);
      [| | | rewrite Hrun].
    + lia.
    + intros i Hi. simpl. rewrite length_app. simpl.
      destruct (Hall (S i) ltac:(lia)) as (ri & Hri & Hsti).
      exists ri. split; [|done]. rewrite <- Hri. f_equal. lia.
    + done.
    + eexists. simpl. split.
      * rewrite <- !app_assoc. simpl. reflexivity.
      * simpl. by rewrite Hlen.
Qed.

End Dane.

End FetchFacts.

Module SimemFetchFacts.

Section Loop.
Variable srv : server.
Variable url : string.
Variables max_retries backoff : Z.

(** One failed attempt: the exception is kept, the helper sleeps unless
    this was the last attempt, and the loop goes on. *)
Lemma loop_failed n attempt last w e :
  SiMEM.failure_of (srv (List.length (gets w)) url) = Some e ->
  0 <= backoff * attempt ->
  SiMEM._http_get_loop srv (S n) attempt last url max_retries backoff w =
  SiMEM._http_get_loop srv n (attempt + 1) (Some e) url max_retries backoff
    (World (gets w ++ [url])
           (sleeps w ++ (if attempt <? max_retries then [backoff * attempt] else []))
           (logs w) (files w)).
Proof.
  intros Hf Hb. simpl. munfold. unfold SiMEM.failure_of in Hf.
  destruct (srv (List.length (gets w)) url) as [r|e0]; simpl.
  - destruct ((200 <=? status_code r) && (status_code r <? 300)); [done|].
    injection Hf as <-. simpl.
    destruct (attempt <? max_retries); simpl.
    + destruct (backoff * attempt <? 0) eqn:E; [lia|]. reflexivity.
    + by rewrite app_nil_r.
  - injection Hf as <-.
    destruct (attempt <? max_retries); simpl.
    + destruct (backoff * attempt <? 0) eqn:E; [lia|]. reflexivity.
    + by rewrite app_nil_r.
Qed.

(** [n] attempts that all fail: [n] GET calls, then the last exception. *)
Lemma loop_all_failed : forall n attempt last w,
  0 <= backoff -> 0 <= attempt ->
  (forall i, (i < n)%nat ->
     SiMEM.failure_of (srv (List.length (gets w) + i)%nat url) <> None) ->
  SiMEM._http_get_loop srv n attempt last url max_retries backoff w =
  (Raise (SiMEM.raised srv url (List.length (gets w)) n last),
   World (gets w ++ replicate n url)
         (sleeps w ++ SiMEM.delays n attempt max_retries backoff)
         (logs w) (files w)).
Proof.
  induction n as [|n IH]; intros attempt last w Hb Ha Hall.
  - simpl. unfold SiMEM.raised. rewrite !app_nil_r.
    destruct last; munfold; simpl; by destruct w.
  - destruct (SiMEM.failure_of (srv (List.length (gets w)) url)) as [e|] eqn:Hf.
    2:{ exfalso. apply (Hall 0%nat); [lia|]. by rewrite Nat.add_0_r. }
    rewrite (loop_failed _ _ _ _ _ Hf) by nia.
    rewrite IH; [|lia|lia|].
    + simpl. rewrite <- !app_assoc. simpl. f_equal. f_equal.
      unfold SiMEM.raised. rewrite length_app. simpl.
      destruct n as [|n].
      * by rewrite Nat.add_0_r, Hf.
      * by replace (List.length (gets w) + 1 + n)%nat
          with (List.length (gets w) + S n)%nat by lia.
    + intros i Hi. simpl. rewrite length_app. simpl.
      replace (List.length (gets w) + 1 + i)%nat
        with (List.length (gets w) + S i)%nat by lia.
      apply Hall. lia.
Qed.

Lemma delays_last : forall n attempt,
  SiMEM.delays n attempt (attempt + Z.of_nat n - 1) backoff =
  map (fun k => backoff * (attempt + Z.of_nat k)) (seq 0 (n - 1)).
Proof.
  induction n as [|n IH]; intros attempt; [done|].
  simpl SiMEM.delays.
  replace (attempt + Z.of_nat (S n) - 1) with (attempt + 1 + Z.of_nat n - 1) by lia.
  rewrite IH. destruct n as [|n].
  - simpl. by destruct (Z.ltb_spec attempt (attempt + 1 + Z.of_nat 0 - 1)); [lia|].
  - destruct (Z.ltb_spec attempt (attempt + 1 + Z.of_nat (S n) - 1)); [|lia].
    replace (S (S n) - 1)%nat with (S n) by lia.
    replace (S n - 1)%nat with n by lia.
    rewrite <- cons_seq, <- seq_shift. simpl. f_equal.
    + f_equal. lia.
    + rewrite map_map. apply map_ext. intros k. f_equal. lia.
Qed.

End Loop.

End SimemFetchFacts.

(** ** C2, C3: what the two helpers retry, and how *)

(** C2, as stated, fails on [_http_get_with_retries]: against a source that
    answers 404 the helper of SiMEM does not give up after the first
    response; with [max_retries = 3] it issues three GET calls and sleeps
    twice before the error surfaces. *)
Lemma C2_simem_retries_a_404 :
  SiMEM._http_get_with_retries (always 404) "u" 3 2 world0 =
  (Raise (RuntimeError "HTTP 404: body"),
   World ["u"; "u"; "u"] [2; 4] [] ∅).
Proof. vm_compute. reflexivity. Qed.

(** C2, amended. [_retry_get] of Dane: after [k] retried responses (429,
    500, 502, 503, 504), a 4xx or 5xx response outside that list, so any
    4xx other than 429, raises [HTTPError] at once: [k + 1] GET calls and no
    more; a transport failure is not retried either.
    [_http_get_with_retries] of SiMEM: a response that is not 2xx, a 4xx
    included, and an exception of the GET are retried alike, so that
    [max_retries] failures cost [max_retries] GET calls. *)
Theorem C2_what_is_retried (srv : server) (url : string) (w : world)
        (k : nat) (r : response) (e : exn) (max_retries backoff : Z) :
  (k < 5)%nat ->
  400 <= status_code r < 600 ->
  ¬ Dane.retried (status_code r) ->
  0 <= backoff ->
  (forall s, 400 <= s < 500 -> s <> 429 -> ¬ Dane.retried s)
  /\ ((forall i, (i < k)%nat ->
         exists ri, srv (List.length (gets w) + i)%nat url = Answers ri
                    /\ Dane.retried (status_code ri)) ->
      srv (List.length (gets w) + k)%nat url = Answers r ->
      exists lg,
        Dane._retry_get srv url w =
        (Raise (HTTPError (status_code r)),
         World (gets w ++ replicate (S k) url)
               (sleeps w ++ Dane.doubling 1 k) (logs w ++ lg) (files w)))
  /\ (srv (List.length (gets w)) url = Fails e ->
      Dane._retry_get srv url w =
      (Raise e, World (gets w ++ [url]) (sleeps w) (logs w) (files w)))
  /\ ((forall i, (i < Z.to_nat max_retries)%nat ->
         SiMEM.failure_of (srv (List.length (gets w) + i)%nat url) <> None) ->
      SiMEM._http_get_with_retries srv url max_retries backoff w =
      (Raise (SiMEM.raised srv url (List.length (gets w)) (Z.to_nat max_retries) None),
       World (gets w ++ replicate (Z.to_nat max_retries) url)
             (sleeps w ++ SiMEM.delays (Z.to_nat max_retries) 1 max_retries backoff)
             (logs w) (files w))).
Proof.
  intros Hk Hrange Hnot Hb. repeat split.
  - intros s Hs Hne. unfold Dane.retried.
    rewrite !elem_of_cons, elem_of_nil. lia.
  - intros Hpre Hr.
    destruct (FetchFacts.loop_retries_then_fatal srv url k 5 1 None w r)
      as (lg & Hrun & _); try done.
    by exists lg.
  - intros Hf. by apply FetchFacts.loop_transport.
  - intros Hall. apply SimemFetchFacts.loop_all_failed; [done|lia|done].
Qed.

Lemma C2_what_is_retried_witness :
  (forall s, 400 <= s < 500 -> s <> 429 -> ¬ Dane.retried s)
  /\ (exists lg,
        Dane._retry_get (always 404) "u" world0 =
        (Raise (HTTPError 404), World ["u"] [] ([] ++ lg) ∅))
  /\ SiMEM._http_get_with_retries (always 404) "u" 3 2 world0 =
     (Raise (RuntimeError "HTTP 404: body"), World ["u"; "u"; "u"] [2; 4] [] ∅).
Proof.
  destruct (C2_what_is_retried (always 404) "u" world0 0
              (Response 404 "body" None []) JSONDecodeError 3 2)
    as (H1 & H2 & _ & H4).
  - lia.
  - simpl. lia.
  - simpl. unfold Dane.retried. rewrite !elem_of_cons, elem_of_nil. lia.
  - lia.
  - split; [exact H1|]. split.
    + apply H2; [intros i Hi; lia | reflexivity].
    + rewrite H4; [reflexivity|]. intros i _. discriminate.
Defined.

(** C3, as stated, fails on [_http_get_with_retries]: its delays are
    [backoff * attempt], which is not a doubling sequence from the fourth
    attempt on. Against a source that always answers 503, with
    [max_retries = 4] and [backoff = 2], the sleeps are 2, 4, 6. *)
Lemma C3_simem_delays_are_linear :
  sleeps (SiMEM._http_get_with_retries (always 503) "u" 4 2 world0).2 = [2; 4; 6]
  /\ [2; 4; 6] <> Dane.doubling 2 3.
Proof. split; [vm_compute; reflexivity | discriminate]. Qed.

(** C3, amended. Against a source that always answers 503:
    [_retry_get] of Dane issues exactly 5 GET calls, sleeps 1, 2, 4, 8, 16
    seconds (one sleep after each attempt, the last included) and raises
    [HTTPError] for 503; [_http_get_with_retries] of SiMEM issues exactly
    [max_retries] GET calls, sleeps [backoff * k] after attempt [k] for
    [k < max_retries], and raises the error built from the last 503
    response. *)
Theorem C3_source_always_503 (srv : server) (url : string) (w : world)
        (max_retries backoff : Z) :
  (forall i u, exists r, srv i u = Answers r /\ status_code r = 503) ->
  1 <= max_retries ->
  0 <= backoff ->
  (exists lg,
     Dane._retry_get srv url w =
     (Raise (HTTPError 503),
      World (gets w ++ replicate 5 url) (sleeps w ++ [1; 2; 4; 8; 16])
            (logs w ++ lg) (files w))
     /\ List.length lg = 5%nat)
  /\ (exists r,
        status_code r = 503 /\
        SiMEM._http_get_with_retries srv url max_retries backoff w =
        (Raise (SiMEM.http_failure r),
         World (gets w ++ replicate (Z.to_nat max_retries) url)
               (sleeps w ++ map (fun k => backoff * Z.of_nat k)
                                (seq 1 (Z.to_nat max_retries - 1)))
               (logs w) (files w))).
Proof.
  intros H503 Hmax Hb. split.
  - assert (Dane.retried 503) as Hret
        by (unfold Dane.retried; rewrite !elem_of_cons; tauto).
    destruct (FetchFacts.loop_always srv url 503 Hret 5 1 None w)
      as (lg & Hrun & Hlen); [lia| |done|].
    + intros i _. apply H503.
    + exists lg. split; [exact Hrun | exact Hlen].
  - set (n := Z.to_nat max_retries).
    destruct (H503 (List.length (gets w) + (n - 1))%nat url) as (r & Hr & Hst).
    exists r. split; [exact Hst|].
    unfold SiMEM._http_get_with_retries. fold n.
    rewrite SimemFetchFacts.loop_all_failed; [|done|lia|].
    + f_equal.
      * f_equal. unfold SiMEM.raised.
        destruct n as [|n'] eqn:En; [lia|].
        replace (S n' - 1)%nat with n' in Hr by lia.
        rewrite Hr. simpl. rewrite Hst. reflexivity.
      * f_equal. f_equal.
        replace max_retries with (1 + Z.of_nat n - 1) at 1 by lia.
        rewrite SimemFetchFacts.delays_last.
        rewrite <- seq_shift, map_map. apply map_ext. intros j. f_equal. lia.
    + intros i _. destruct (H503 (List.length (gets w) + i)%nat url) as (ri & Hri & Hsti).
      rewrite Hri. simpl. rewrite Hsti. discriminate.
Qed.

Lemma C3_source_always_503_witness :
  (exists lg,
     Dane._retry_get (always 503) "u" world0 =
     (Raise (HTTPError 503),
      World (replicate 5 "u") [1; 2; 4; 8; 16] ([] ++ lg) ∅)
     /\ List.length lg = 5%nat)
  /\ (exists r,
        status_code r = 503 /\
        SiMEM._http_get_with_retries (always 503) "u" 3 2 world0 =
        (Raise (SiMEM.http_failure r), World (replicate 3 "u") [2; 4] [] ∅)).
Proof.
  apply (C3_source_always_503 (always 503) "u" world0 3 2).
  - intros i u. eexists. split; reflexivity.
  - lia.
  - lia.
Defined.

(** ** C1: a failing unit in [run_extraction] *)

Module DaneFacts.

Section Extraction.
Variable srv : server.
Variable urlencode : list (string * string) -> string.
Variable py_repr : json -> string.
Variables study_row var_row : Type.
Variable parse_study : json -> json -> result study_row.
Variable parse_variables : json -> json -> result (list var_row).
Variable regex : Type.
Variable re_compile : string -> result regex.
Variable selected : Dane.var_filters regex -> var_row -> result bool.

Local Abbreviation extract_study :=
  (Dane.extract_study srv py_repr study_row var_row parse_study parse_variables
     regex selected).
Local Abbreviation extract_all :=
  (Dane.extract_all srv py_repr study_row var_row parse_study parse_variables
     regex selected).

(** A study that is processed adds exactly one row to [all_studies]. *)
Lemma extract_study_ok f sid acc w acc' w' :
  extract_study f sid acc w = (Ok acc', w') ->
  List.length acc'.2 = S (List.length acc.2).
Proof.
  unfold Dane.extract_study. munfold.
  destruct (Dane.export_metadata srv py_repr sid w) as [[md|e] w1]; [|done].
  destruct (parse_study md sid) as [st|e]; [|done].
  destruct (parse_variables md sid) as [rows|e]; [|done].
  destruct (Dane.filter_rows var_row regex selected f rows) as [out|e]; [|done].
  intros [= <- <-]. simpl. rewrite length_app. simpl. lia.
Qed.

Lemma extract_all_cons f sid rest acc w :
  extract_all f (sid :: rest) acc w =
  match extract_study f sid acc w with
  | (Ok acc', w') => extract_all f rest acc' w'
  | (Raise e, w') => (Raise e, w')
  end.
Proof. reflexivity. Qed.

(** The loop either includes every study, or stops at the first study
    whose processing raises, with that exception and in the world that
    study left. *)
Lemma extract_all_spec f study_ids : forall acc w,
  match extract_all f study_ids acc w with
  | (Ok acc', _) =>
      List.length acc'.2 = (List.length acc.2 + List.length study_ids)%nat
  | (Raise e, w') =>
      exists pre bad post acc0 w0,
        study_ids = pre ++ bad :: post
        /\ extract_all f pre acc w = (Ok acc0, w0)
        /\ extract_study f bad acc0 w0 = (Raise e, w')
  end.
Proof.
  induction study_ids as [|sid rest IH]; intros acc w.
  - simpl. munfold. lia.
  - rewrite extract_all_cons.
    destruct (extract_study f sid acc w) as [[acc1|e] w1] eqn:E1.
    + specialize (IH acc1 w1).
      destruct (extract_all f rest acc1 w1) as [[acc2|e] w2] eqn:E2.
      * rewrite IH, (extract_study_ok _ _ _ _ _ _ E1). simpl. lia.
      * destruct IH as (pre & bad & post & acc0 & w0 & -> & Hpre & Hbad).
        exists (sid :: pre), bad, post, acc0, w0. repeat split; [|done].
        by rewrite extract_all_cons, E1.
    + exists [], sid, rest, acc, w. repeat split; done.
Qed.

(** With study ids given, [run_extraction] compiles the filters and then
    is the loop over the ids. *)
Lemma run_extraction_sid_list q sid rest date_from date_to
      limit_studies page_size max_pages
      var_names var_name_regex var_label_regex file_ids_filter w :
  Dane.run_extraction srv urlencode py_repr study_row var_row parse_study
    parse_variables regex re_compile selected q (sid :: rest) date_from date_to
    limit_studies page_size max_pages
    var_names var_name_regex var_label_regex file_ids_filter w =
  match Dane.compile_filters regex re_compile var_names var_name_regex
          var_label_regex file_ids_filter with
  | Ok f => extract_all f (map JNum (sid :: rest)) ([], []) w
  | Raise e => (Raise e, w)
  end.
Proof.
  unfold Dane.run_extraction. munfold. cbn [map].
  by destruct (Dane.compile_filters _ _ _ _ _ _).
Qed.

(** The preparation of the filters fails only when one of the two
    patterns is given and does not compile, with the exception of
    [re.compile]. *)
Lemma compile_filters_raise var_names var_name_regex var_label_regex
      file_ids_filter e :
  Dane.compile_filters regex re_compile var_names var_name_regex
    var_label_regex file_ids_filter = Raise e ->
  exists pattern,
    (truthy var_name_regex = Some pattern \/ truthy var_label_regex = Some pattern)
    /\ re_compile pattern = Raise e.
Proof.
  unfold Dane.compile_filters, Dane.compile_if_given. munfold.
  destruct (truthy var_name_regex) as [p1|] eqn:E1.
  - destruct (re_compile p1) as [rx1|e1] eqn:R1.
    + destruct (truthy var_label_regex) as [p2|] eqn:E2; [|done].
      destruct (re_compile p2) as [rx2|e2] eqn:R2; [done|].
      intros [= <-]. exists p2. by split; [right|].
    + intros [= <-]. exists p1. by split; [left|].
  - destruct (truthy var_label_regex) as [p2|] eqn:E2; [|done].
    destruct (re_compile p2) as [rx2|e2] eqn:R2; [done|].
    intros [= <-]. exists p2. by split; [right|].
Qed.

End Extraction.

End DaneFacts.

(** C1, as stated, fails: a batch of three studies in which study 2 answers
    404 gives no result at all. [HTTPError] for 404 leaves [run_extraction];
    study 3 is never requested and study 1 is lost. *)
Lemma C1_one_bad_unit_aborts :
  run_sample [1; 2; 3] world0 =
  (Raise (HTTPError 404),
   World [Dane.export_url (fun _ => "") (JNum 1);
          Dane.export_url (fun _ => "") (JNum 2)] [] [] ∅).
Proof. vm_compute. reflexivity. Qed.

(** C1, amended. [run_extraction] over a non-empty list of study ids first
    prepares the variable filters and then processes the studies in order.
    It returns a result only when nothing raises, and then every study is
    included. Otherwise the exception leaves [run_extraction] as it is:
    either a pattern among the filters does not compile, and [re.error] is
    raised before any study is requested; or a study raises, and then it is
    the first one that does, in the world that study left: the studies
    after it are not requested, and nothing is recorded or returned for the
    batch. *)
Theorem C1_first_failure_propagates
        (srv : server) (urlencode : list (string * string) -> string)
        (py_repr : json -> string)
        (study_row var_row : Type)
        (parse_study : json -> json -> result study_row)
        (parse_variables : json -> json -> result (list var_row))
        (regex : Type) (re_compile : string -> result regex)
        (selected : Dane.var_filters regex -> var_row -> result bool)
        (q date_from date_to : option string) (sid_list : list Z)
        (limit_studies page_size max_pages : Z)
        (var_names : option (list string))
        (var_name_regex var_label_regex : option string)
        (file_ids_filter : option (list Z)) (w : world) :
  sid_list <> [] ->
  match Dane.run_extraction srv urlencode py_repr study_row var_row parse_study
          parse_variables regex re_compile selected q sid_list date_from date_to
          limit_studies page_size max_pages
          var_names var_name_regex var_label_regex file_ids_filter w with
  | (Ok (all_vars, all_studies), _) =>
      List.length all_studies = List.length sid_list
  | (Raise e, w') =>
      (w' = w
       /\ exists pattern,
            (truthy var_name_regex = Some pattern
             \/ truthy var_label_regex = Some pattern)
            /\ re_compile pattern = Raise e)
      \/ (exists f pre bad post acc0 w0,
            Dane.compile_filters regex re_compile var_names var_name_regex
              var_label_regex file_ids_filter = Ok f
            /\ sid_list = pre ++ bad :: post
            /\ Dane.extract_all srv py_repr study_row var_row parse_study
                 parse_variables regex selected f (map JNum pre) ([], []) w
               = (Ok acc0, w0)
            /\ List.length acc0.2 = List.length pre
            /\ Dane.extract_study srv py_repr study_row var_row parse_study
                 parse_variables regex selected f (JNum bad) acc0 w0
               = (Raise e, w'))
  end.
Proof.
  intros Hne. destruct sid_list as [|sid rest]; [done|].
  rewrite DaneFacts.run_extraction_sid_list.
  destruct (Dane.compile_filters regex re_compile var_names var_name_regex
              var_label_regex file_ids_filter) as [f|e0] eqn:Ef.
  2:{ left. split; [done|]. by eapply DaneFacts.compile_filters_raise. }
  pose proof (DaneFacts.extract_all_spec srv py_repr study_row var_row
                parse_study parse_variables regex selected f
                (map JNum (sid :: rest)) ([], []) w) as H.
  destruct (Dane.extract_all _ _ _ _ _ _ _ _ f (map JNum (sid :: rest)) _ w)
    as [[[vars studies]|e] w'].
  - by rewrite length_map in H.
  - right. destruct H as (pre & bad & post & acc0 & w0 & Hsplit & Hpre & Hbad).
    assert (exists pre' bad' post',
               sid :: rest = pre' ++ bad' :: post'
               /\ pre = map JNum pre' /\ bad = JNum bad')
      as (pre' & bad' & post' & Hs & -> & ->).
    { apply map_eq_app in Hsplit as (l1 & l2 & E & E1 & E2).
      apply map_eq_cons in E2 as (b & l3 & -> & E3 & E4).
      exists l1, b, l3. by rewrite E, <- E1, <- E3. }
    exists f, pre', bad', post', acc0, w0. repeat split; try done.
    pose proof (DaneFacts.extract_all_spec srv py_repr study_row var_row
                  parse_study parse_variables regex selected f
                  (map JNum pre') ([], []) w) as H.
    rewrite Hpre in H. by rewrite length_map in H.
Qed.

Lemma C1_first_failure_propagates_witness :
  match run_sample_filtered (Some "(") [1; 2; 3] world0 with
  | (Ok (all_vars, all_studies), _) =>
      List.length all_studies = List.length [1; 2; 3]
  | (Raise e, w') =>
      (w' = world0
       /\ exists pattern,
            (truthy (Some "(") = Some pattern \/ truthy None = Some pattern)
            /\ compile_sample pattern = Raise e)
      \/ (exists f pre bad post acc0 w0,
            Dane.compile_filters string compile_sample None (Some "(") None None
            = Ok f
            /\ [1; 2; 3] = pre ++ bad :: post
            /\ Dane.extract_all study_2_missing (fun _ => "") json json
                 (fun _ sid => Ok sid) (fun _ sid => Ok [sid]) string
                 (fun _ _ => Ok true) f (map JNum pre) ([], []) world0
               = (Ok acc0, w0)
            /\ List.length acc0.2 = List.length pre
            /\ Dane.extract_study study_2_missing (fun _ => "") json json
                 (fun _ sid => Ok sid) (fun _ sid => Ok [sid]) string
                 (fun _ _ => Ok true) f (JNum bad) acc0 w0
               = (Raise e, w'))
  end
  /\ run_sample_filtered (Some "(") [1; 2; 3] world0
     = (Raise (ReError "missing ), unterminated subpattern at position 0"),
        world0).
Proof.
  split.
  - apply (C1_first_failure_propagates study_2_missing (fun _ => "")
             (fun _ => "") json json (fun _ sid => Ok sid)
             (fun _ sid => Ok [sid]) string compile_sample (fun _ _ => Ok true)
             None None None [1; 2; 3] 25 100 10 None (Some "(") None None world0).
    discriminate.
  - vm_compute. reflexivity.
Defined.

(** ** C10: the cache gate of the PWT loader *)

Module CacheFacts.

Section Cache.
Variable srv : server.
Variable md5_hexdigest : list Byte.byte -> string.
Variables base out_dir : string.
Variable meta : PWT.FileMeta.

Local Abbreviation path := (PWT.path_join out_dir (PWT._safe_name (PWT.label meta))).

(** No local file: a miss, and nothing is logged. *)
Lemma cache_absent w :
  files w !! path = None ->
  PWT._maybe_use_cache md5_hexdigest out_dir meta w = (Ok None, w).
Proof.
  intros Hf. unfold PWT._maybe_use_cache. munfold. by rewrite Hf.
Qed.

(** A hit makes [load_raw] return the cached bytes without any GET and
    without writing to the disk. *)
Lemma load_raw_hit w w' raw :
  PWT._maybe_use_cache md5_hexdigest out_dir meta w = (Ok (Some raw), w') ->
  PWT.load_raw srv md5_hexdigest base out_dir true meta w =
  (Ok raw,
   World (gets w') (sleeps w')
         (logs w' ++ [(INFO, "Usando archivo desde cache: %s", [AStr (PWT.label meta)])])
         (files w')).
Proof.
  intros Hc. unfold PWT.load_raw. munfold. by rewrite Hc.
Qed.

(** A miss makes [load_raw] download: its first GET asks for the file. *)
Lemma load_raw_miss w w' :
  PWT._maybe_use_cache md5_hexdigest out_dir meta w = (Ok None, w') ->
  exists rest,
    gets (PWT.load_raw srv md5_hexdigest base out_dir true meta w).2 =
    gets w' ++ PWT.datafile_url base (PWT.id meta) true :: rest.
Proof.
  intros Hc. unfold PWT.load_raw, PWT.download_file_by_id. munfold.
  rewrite Hc. simpl.
  destruct (srv (List.length (gets w')) (PWT.datafile_url base (PWT.id meta) true))
    as [r|e]; simpl.
  - destruct ((400 <=? status_code r) && (status_code r <? 600)); simpl.
    + destruct (srv _ (PWT.datafile_url base (PWT.id meta) false)) as [r'|e']; simpl.
      * destruct ((400 <=? status_code r') && (status_code r' <? 600)); simpl;
          eexists; rewrite <- app_assoc; reflexivity.
      * eexists; rewrite <- app_assoc; reflexivity.
    + by exists [].
  - by exists [].
Qed.

End Cache.

End CacheFacts.

(** C10. When the local file exists at [out_dir / _safe_name(label)]:
    with a checksum from the source, the MD5 of the local bytes is compared
    with it; equal, the cached bytes are returned (a hit, logged, and
    [load_pwt] then issues no GET and writes nothing); different, the result
    is a miss and the stale cache is logged (and [load_pwt] downloads);
    with no checksum from the source, the file alone makes a hit. *)
Theorem C10_cache_resolution (srv : server)
        (md5_hexdigest : list Byte.byte -> string) (base out_dir : string)
        (meta : PWT.FileMeta) (w : world) (b : list Byte.byte) :
  files w !! PWT.path_join out_dir (PWT._safe_name (PWT.label meta)) = Some b ->
  let logged fmt :=
    World (gets w) (sleeps w)
          (logs w ++ [(INFO, fmt, [AStr (PWT.label meta)])]) (files w) in
  let fetched := PWT.load_raw srv md5_hexdigest base out_dir true meta w in
  match truthy (PWT.checksum meta) with
  | Some sum =>
      if String.eqb (md5_hexdigest b) sum then
        PWT._maybe_use_cache md5_hexdigest out_dir meta w =
          (Ok (Some b), logged "Cache OK para %s (md5 coincide).")
        /\ fetched.1 = Ok b /\ gets fetched.2 = gets w /\ files fetched.2 = files w
      else
        PWT._maybe_use_cache md5_hexdigest out_dir meta w =
          (Ok None, logged "Cache desactualizada para %s (md5 no coincide).")
        /\ exists rest,
             gets fetched.2 =
             gets w ++ PWT.datafile_url base (PWT.id meta) true :: rest
  | None =>
      PWT._maybe_use_cache md5_hexdigest out_dir meta w =
        (Ok (Some b), logged "Cache encontrada para %s (sin checksum remoto).")
      /\ fetched.1 = Ok b /\ gets fetched.2 = gets w /\ files fetched.2 = files w
  end.
Proof.
  intros Hf logged fetched.
  assert (PWT._maybe_use_cache md5_hexdigest out_dir meta w =
          match truthy (PWT.checksum meta) with
          | Some sum =>
              if String.eqb (md5_hexdigest b) sum
              then (Ok (Some b), logged "Cache OK para %s (md5 coincide).")
              else (Ok None, logged "Cache desactualizada para %s (md5 no coincide).")
          | None => (Ok (Some b), logged "Cache encontrada para %s (sin checksum remoto).")
          end) as Hcache.
  { unfold PWT._maybe_use_cache. munfold. rewrite Hf. simpl.
    destruct (truthy (PWT.checksum meta)) as [sum|]; simpl.
    - rewrite Hf. destruct (String.eqb (md5_hexdigest b) sum); simpl.
      + by rewrite Hf.
      + done.
    - by rewrite Hf. }
  destruct (truthy (PWT.checksum meta)) as [sum|].
  - destruct (String.eqb (md5_hexdigest b) sum).
    + split; [exact Hcache|]. subst fetched.
      by rewrite (CacheFacts.load_raw_hit srv _ base _ _ _ _ _ Hcache).
    + split; [exact Hcache|]. subst fetched.
      apply (CacheFacts.load_raw_miss srv _ base _ _ _ _ Hcache).
  - split; [exact Hcache|]. subst fetched.
    by rewrite (CacheFacts.load_raw_hit srv _ base _ _ _ _ _ Hcache).
Qed.

Lemma C10_cache_resolution_witness :
  PWT._maybe_use_cache md5_of_nothing "pwt_out"
    (pwt110 (Some "d41d8cd98f00b204e9800998ecf8427e")) disk_with_pwt110 =
  (Ok (Some []),
   World [] [] [(INFO, "Cache OK para %s (md5 coincide).", [AStr "pwt110.dta"])]
         {[ "pwt_out/pwt110.dta" := [] ]})
  /\ gets (PWT.load_raw (always 200) md5_of_nothing "https://dataverse.nl" "pwt_out"
             true (pwt110 (Some "d41d8cd98f00b204e9800998ecf8427e"))
             disk_with_pwt110).2 = [].
Proof.
  pose proof (C10_cache_resolution (always 200) md5_of_nothing
                "https://dataverse.nl" "pwt_out"
                (pwt110 (Some "d41d8cd98f00b204e9800998ecf8427e"))
                disk_with_pwt110 [] eq_refl) as H.
  simpl in H. destruct H as (H1 & _ & H3 & _). split; [exact H1 | exact H3].
Defined.

(** ** C9: the column subset *)

Module SubsetFacts.

Lemma named_absent c (l : list (string * Series)) :
  c ∉ map fst l -> filter (fun cs => String.eqb cs.1 c = true) l = [].
Proof.
  induction l as [|[c' s'] l IH]; [done|]. simpl. intros Hnotin.
  rewrite not_elem_of_cons in Hnotin. destruct Hnotin as [Hne Hnotin].
  rewrite filter_cons_False; [by apply IH|].
  simpl. rewrite String.eqb_eq. congruence.
Qed.

(** With distinct column names, a name that is present selects exactly its
    column. *)
Lemma named_unique c df :
  NoDup (columns df) -> c ∈ columns df ->
  exists s, named c df = [(c, s)] /\ (c, s) ∈ data df.
Proof.
  unfold columns, named. induction (data df) as [|[c' s'] l IH]; simpl.
  - intros _ H. by apply elem_of_nil in H.
  - intros Hnd Hin. apply NoDup_cons in Hnd as [Hnotin Hnd].
    destruct (String.eqb_spec c' c) as [->|Hne].
    + rewrite filter_cons_True by (simpl; apply String.eqb_refl).
      exists s'. split; [|by left]. f_equal. by apply named_absent.
    + rewrite filter_cons_False by (simpl; rewrite String.eqb_eq; congruence).
      apply elem_of_cons in Hin as [->|Hin]; [done|].
      destruct (IH Hnd Hin) as (s & Hs & Hin'). exists s. split; [done|by right].
Qed.

(** [df[keep]] when every kept name is a column, the names being distinct:
    the columns are [keep], each with the cells it has in [df]. *)
Lemma select_present df : NoDup (columns df) -> forall keep,
  Forall (fun c => c ∈ columns df) keep ->
  columns (select keep df) = keep
  /\ forall cs, cs ∈ data (select keep df) -> cs ∈ data df.
Proof.
  intros Hnd. unfold select, columns. simpl.
  induction keep as [|c keep IH]; intros Hall; [split; [done|]|].
  - intros cs H. by apply elem_of_nil in H.
  - apply Forall_cons in Hall as [Hc Hall]. destruct (IH Hall) as [IH1 IH2].
    destruct (named_unique c df Hnd Hc) as (s & Hs & Hin).
    simpl. rewrite Hs. simpl. split.
    + f_equal. exact IH1.
    + intros cs Hcs. apply elem_of_cons in Hcs as [->|Hcs]; [done|by apply IH2].
Qed.

End SubsetFacts.

(** C9, as stated, fails when no requested column is present: the guard
    [if keep:] then leaves the table as it is, with all its columns, where
    the intersection is empty. *)
Lemma C9_nothing_present_keeps_all :
  (SiMEM.step_subset two_columns ["Precio"] true world0).1 = Ok two_columns
  /\ columns two_columns = ["fecha"; "valor"]
  /\ filter (fun c => c ∈ columns two_columns) [SiMEM._snake_case "Precio"] = [].
Proof. repeat split. Qed.

(** C9, amended. For a requested subset (the column names of the table
    being distinct): the requested names are canonicalized with
    [_snake_case], the function that renamed the columns, when
    [to_snake_case] is on, and taken as given when it is off; the step
    never fails; a warning naming the missing ones is printed when some are
    missing; when at least one requested name is present the result has
    exactly the requested names that are present, in requested order, each
    with its cells, and the same rows; when none is present the table is
    returned unchanged. *)
Theorem C9_subset_of_columns (df : DataFrame) (subset_cols : list string)
        (to_snake : bool) (w : world) :
  NoDup (columns df) ->
  subset_cols <> [] ->
  let final_cols :=
    map (fun c => if to_snake then SiMEM._snake_case c else c) subset_cols in
  let keep := filter (fun c => mem c (columns df) = true) final_cols in
  let missing := filter (fun c => mem c (columns df) = false) final_cols in
  let out := SiMEM.step_subset df subset_cols to_snake w in
  (forall c, c ∈ keep <-> c ∈ final_cols /\ c ∈ columns df)
  /\ (forall df0 c, c ∈ columns df0 ->
        SiMEM._snake_case c ∈ columns (rename SiMEM._snake_case df0))
  /\ out.2 = match missing with
             | [] => w
             | _ => World (gets w) (sleeps w)
                      (logs w ++ [(STDOUT,
                         "[WARN] Columnas faltantes en subset: %s. Se ignorarán.",
                         map AStr missing)])
                      (files w)
             end
  /\ match keep with
     | [] => out.1 = Ok df
     | _ => exists df',
              out.1 = Ok df'
              /\ columns df' = keep
              /\ nrows df' = nrows df
              /\ forall cs, cs ∈ data df' -> cs ∈ data df
     end.
Proof.
  intros Hnd Hne final_cols keep missing out.
  split; [|split; [|split]].
  - intros c. unfold keep. rewrite list_elem_of_filter, ListFacts.mem_spec. tauto.
  - intros df0 c Hc. unfold rename, columns in *. simpl.
    rewrite map_map. simpl.
    apply list_elem_of_In, in_map_iff. apply list_elem_of_In, in_map_iff in Hc.
    destruct Hc as (cs & <- & Hcs). by exists cs.
  - subst out. unfold SiMEM.step_subset.
    destruct subset_cols as [|c0 rest]; [done|].
    fold final_cols. fold missing. fold keep. munfold.
    destruct missing; simpl; destruct keep; reflexivity.
  - subst out. unfold SiMEM.step_subset.
    destruct subset_cols as [|c0 rest]; [done|].
    fold final_cols. fold missing. fold keep. munfold.
    assert (Forall (fun c => c ∈ columns df) keep) as Hall.
    { apply Forall_forall. intros c Hc. unfold keep in Hc.
      apply list_elem_of_filter in Hc as [Hc _]. by apply ListFacts.mem_spec. }
    destruct (SubsetFacts.select_present df Hnd keep Hall) as [Hcols Hdata].
    destruct keep as [|k keep'] eqn:Ek.
    + by destruct missing.
    + exists (select (k :: keep') df).
      repeat split; [by destruct missing | exact Hcols | exact Hdata].
Qed.

Lemma C9_subset_of_columns_witness :
  exists df',
    (SiMEM.step_subset two_columns ["Valor"; "Precio"; "Fecha"] true world0).1 = Ok df'
    /\ columns df' = ["valor"; "fecha"]
    /\ nrows df' = 2%nat
    /\ forall cs, cs ∈ data df' -> cs ∈ data two_columns.
Proof.
  assert (NoDup (columns two_columns)) as Hnd.
  { apply NoDup_ListNoDup. repeat constructor; simpl; intuition discriminate. }
  destruct (C9_subset_of_columns two_columns ["Valor"; "Precio"; "Fecha"] true
              world0 Hnd ltac:(discriminate)) as (_ & _ & _ & H).
  exact H.
Defined.

(** ** C5: flattening the records *)

Module FlattenFacts.

Lemma nub_filter (P : string -> Prop) `{!forall x, Decision (P x)} l :
  nub (filter P l) = filter P (nub l).
Proof.
  induction l as [|x l IH]; [done|].
  simpl. destruct (decide (P x)) as [Hx|Hx].
  - rewrite !filter_cons_True by done. simpl. f_equal.
    rewrite IH, !list_filter_filter. apply list_filter_iff. tauto.
  - rewrite !filter_cons_False by done. rewrite IH.
    rewrite list_filter_filter. apply list_filter_iff.
    intros y. split; [|tauto]. intros Hy. split; [done|]. congruence.
Qed.

Lemma elem_of_nub x l : x ∈ nub l <-> x ∈ l.
Proof.
  induction l as [|y l IH]; [done|]. simpl.
  rewrite !elem_of_cons, list_elem_of_filter, IH.
  destruct (decide (x = y)); tauto.
Qed.

Lemma NoDup_nub l : NoDup (nub l).
Proof.
  induction l as [|y l IH]; simpl; [constructor|].
  apply NoDup_cons. split; [|by apply NoDup_filter].
  rewrite list_elem_of_filter. tauto.
Qed.

(** Adding the names one by one, each unless it is there already, gives
    the names in the order first seen. *)
Lemma foldl_add_nub (l : list string) : forall acc,
  foldl (fun acc k => if mem k acc then acc else acc ++ [k]) acc l =
  acc ++ nub (filter (fun k => k ∉ acc) l).
Proof.
  induction l as [|x l IH]; intros acc; simpl.
  - by rewrite app_nil_r.
  - destruct (mem x acc) eqn:E.
    + apply ListFacts.mem_spec in E.
      rewrite filter_cons_False by tauto. apply IH.
    + assert (x ∉ acc) as Hx.
      { intros H. apply ListFacts.mem_spec in H. congruence. }
      rewrite filter_cons_True by done. simpl.
      rewrite IH, <- app_assoc. simpl. do 2 f_equal.
      rewrite <- nub_filter, list_filter_filter. f_equal.
      apply list_filter_iff. intros y.
      rewrite not_elem_of_app, not_elem_of_cons, elem_of_nil. tauto.
Qed.

Lemma foldl_keys {V} (f : list string -> string -> list string)
      (recs : list (list (string * V))) : forall acc,
  foldl (fun acc rec => foldl (fun acc kv => f acc kv.1) acc rec) acc recs =
  foldl f acc (concat (map (map fst) recs)).
Proof.
  induction recs as [|rec recs IH]; intros acc; [done|].
  simpl. rewrite foldl_app, IH. f_equal.
  clear. revert acc. induction rec as [|kv rec IH]; intros acc; [done|].
  simpl. apply IH.
Qed.

(** The column names are the keys of the records in the order first
    seen. *)
Lemma union_keys_nub {V} (recs : list (list (string * V))) :
  union_keys recs = nub (concat (map (map fst) recs)).
Proof.
  unfold union_keys.
  rewrite (foldl_keys (fun acc k => if mem k acc then acc else acc ++ [k])).
  rewrite foldl_add_nub. simpl. f_equal.
  induction (concat (map (map fst) recs)) as [|x l IH]; [done|].
  rewrite filter_cons_True by apply not_elem_of_nil. by f_equal.
Qed.

Lemma columns_from_records L recs :
  columns (from_records L recs) = union_keys recs.
Proof.
  unfold columns, from_records. simpl. rewrite map_map. simpl. apply map_id.
Qed.

(** Row [i] of the frame: under every column the cell of record [i], null
    where the record lacks the key. *)
Lemma record_from_records L recs i rec :
  recs !! i = Some rec ->
  record (from_records L recs) i =
  map (fun k => (k, cell_at rec k)) (columns (from_records L recs)).
Proof.
  intros Hi. rewrite columns_from_records.
  unfold record, from_records. simpl. rewrite map_map. simpl.
  apply map_ext. intros k. f_equal.
  by apply (ListFacts.nth_map_lookup (fun r => cell_at r k)).
Qed.

End FlattenFacts.

(** C5, as stated, fails on the names: the loader flattens with
    [sep="_"], so the columns of the two records are a_b and a_c, not a.b
    and a.c. *)
Lemma C5_names_join_with_underscore :
  columns (SiMEM.flatten Iso.L two_records) = ["a_b"; "a_c"]
  /\ ["a_b"; "a_c"] <> ["a.b"; "a.c"].
Proof. split; [reflexivity | discriminate]. Qed.

(** C5, amended. The two records [{"a":{"b":1}}, {"a":{"c":2}}] flatten to
    the rows {a_b: 1, a_c: null} and {a_b: null, a_c: 2} with the columns
    [a_b, a_c]: a nested object gives names joined with "_"; the
    columns are the keys of all flattened records, each once, in the order
    first seen; there is one row per record, and a row has the null marker
    under every column its record lacks. *)
Theorem C5_flatten_records (L : lib) :
  columns (SiMEM.flatten L two_records) = ["a_b"; "a_c"]
  /\ map (record (SiMEM.flatten L two_records)) [0; 1]%nat =
       [[("a_b", Obj (JNum 1)); ("a_c", NA)];
        [("a_b", NA); ("a_c", Obj (JNum 2))]]
  /\ (forall k k' v,
        nonempty k = true -> is_dict v = false ->
        _normalise_json_ordered [(k, JMap [(k', v)])] "_" = [(k +:+ "_" +:+ k', v)])
  /\ (forall records,
        let flat := map (fun r => _normalise_json_ordered r "_") records in
        let df := SiMEM.flatten L records in
        columns df = nub (concat (map (map fst) flat))
        /\ NoDup (columns df)
        /\ (forall k, k ∈ columns df <-> exists rec, rec ∈ flat /\ k ∈ map fst rec)
        /\ nrows df = List.length records
        /\ (forall i rec, flat !! i = Some rec ->
              record df i = map (fun k => (k, cell_at rec k)) (columns df))
        /\ (forall rec k, dict_get rec k = None -> cell_at rec k = NA)).
Proof.
  split; [reflexivity|]. split; [reflexivity|]. split.
  - intros k k' v Hk Hv. unfold _normalise_json_ordered. simpl.
    unfold join_key. simpl. rewrite Hk.
    destruct v; simpl; try done.
  - intros records flat df.
    assert (columns df = nub (concat (map (map fst) flat))) as Hcols.
    { unfold df, SiMEM.flatten, json_normalize.
      by rewrite FlattenFacts.columns_from_records, FlattenFacts.union_keys_nub. }
    split; [exact Hcols|]. split; [|split; [|split; [|split]]].
    + rewrite Hcols. apply FlattenFacts.NoDup_nub.
    + intros k. rewrite Hcols, FlattenFacts.elem_of_nub.
      rewrite list_elem_of_In, in_concat. split.
      * intros (ks & Hks & Hk). apply in_map_iff in Hks as (rec & <- & Hrec).
        exists rec. split; by apply list_elem_of_In.
      * intros (rec & Hrec & Hk). exists (map fst rec). split.
        -- apply in_map. by apply list_elem_of_In.
        -- by apply list_elem_of_In.
    + unfold df, SiMEM.flatten, json_normalize, from_records. simpl.
      by rewrite length_map.
    + intros i rec Hi. by apply FlattenFacts.record_from_records.
    + intros rec k Hk. unfold cell_at. by rewrite Hk.
Qed.

(** ** C4: inference without a schema *)

Module InferFacts.

(** With [errors="coerce"] the conversion returns: a time where the cell
    parses, null elsewhere. *)
Lemma to_datetime_coerce L s :
  to_datetime L errors_coerce s =
  Ok (mkSeries (datetime_dtype L (values s))
        (map cell_of_parsed (parsed_cells L (values s)))).
Proof. reflexivity. Qed.

Lemma length_parsed_cells L vs :
  List.length (parsed_cells L vs) = List.length vs.
Proof. apply length_imap. Qed.

Lemma count_notna_parsed (l : list (option Z)) :
  List.length (filter (fun c => notna c = true) (map cell_of_parsed l)) =
  List.length (filter is_Some l).
Proof.
  induction l as [|[t|] l IH]; [done| |]; cbn [map cell_of_parsed].
  - rewrite !filter_cons_True by (done || eauto). cbn [List.length]. by rewrite IH.
  - rewrite !filter_cons_False; [done| |done].
    by intros [? ?].
Qed.

End InferFacts.

(** C4, as stated, fails at the boundary: a column of twenty non-null
    values of which eighteen are valid dates (exactly 90%) is not committed
    to datetime, it becomes text; the test of the code is [> 0.9]. *)
Lemma C4_exactly_ninety_percent_stays_text :
  List.length (filter (fun c => notna c = true) (values (dates_and_junk 18 2))) = 20%nat
  /\ List.length (filter is_Some (parsed_cells Iso.L (values (dates_and_junk 18 2)))) = 18%nat
  /\ SiMEM.infer_column Iso.L true ("fecha", dates_and_junk 18 2) =
     Ok ("fecha", SiMEM.text_column Iso.L true (dates_and_junk 18 2)).
Proof. repeat split; vm_compute; reflexivity. Qed.

(** C4, amended. Without a schema each column is first parsed as
    datetime, and it is committed to datetime (it becomes the column that
    [pd.to_datetime] gave) if and only if strictly more
    than 90% of its rows parse, the nulls counting as rows that do not:
    19 valid dates out of 20 commit, 17 out of 20 and 18 out of 20 do not,
    and neither do 10 valid dates beside 10 nulls; a column that is not
    committed becomes text (stripped when configured) when its dtype is
    object and is left as it is otherwise. *)
Theorem C4_inference_threshold (L : lib) (strip_text to_snake : bool) :
  let n_rows (s : Series) := Z.of_nat (List.length (values s)) in
  let n_ok (s : Series) :=
    Z.of_nat (List.length (filter is_Some (parsed_cells L (values s)))) in
  let inferred (s : Series) :=
    if decide (10 * n_ok s > 9 * n_rows s)
    then mkSeries (datetime_dtype L (values s))
           (map cell_of_parsed (parsed_cells L (values s)))
    else if decide (dtype_of s = DObject)
         then SiMEM.text_column L strip_text s
         else s in
  (forall name s,
     SiMEM.infer_column L strip_text (name, s) = Ok (name, inferred s))
  /\ (forall df,
        NoDup (columns df) ->
        SiMEM._fallback_infer_types L df to_snake strip_text =
        Ok (let df' := mkDataFrame (nrows df)
                         (map (fun cs => (cs.1, inferred cs.2)) (data df)) in
            if to_snake then rename SiMEM._snake_case df' else df'))
  /\ dtype_of (SiMEM.text_column L strip_text (dates_and_junk 17 3)) = DString
  /\ (exists p, SiMEM.infer_column Iso.L true ("fecha", dates_and_junk 19 1)
                = Ok ("fecha", p) /\ dtype_of p = DDatetime64)
  /\ (exists p, SiMEM.infer_column Iso.L true ("fecha", dates_and_junk 17 3)
                = Ok ("fecha", p) /\ dtype_of p = DString)
  /\ (exists p, SiMEM.infer_column Iso.L true ("fecha", dates_and_junk 18 2)
                = Ok ("fecha", p) /\ dtype_of p = DString)
  /\ (exists p, SiMEM.infer_column Iso.L true ("fecha", dates_and_nulls 10 10)
                = Ok ("fecha", p) /\ dtype_of p = DString).
Proof.
  intros n_rows n_ok inferred.
  assert (forall name s,
            SiMEM.infer_column L strip_text (name, s) = Ok (name, inferred s))
    as Hcol.
  { intros name s. unfold SiMEM.infer_column.
    rewrite InferFacts.to_datetime_coerce. munfold. simpl.
    unfold SiMEM.mostly_dates, count_notna, inferred, n_ok, n_rows. simpl.
    rewrite InferFacts.count_notna_parsed, length_map, InferFacts.length_parsed_cells.
    destruct (Z.gtb_spec
                (10 * Z.of_nat (List.length (filter is_Some (parsed_cells L (values s)))))
                (9 * Z.of_nat (List.length (values s)))) as [Hgt|Hle].
    - case_decide; [reflexivity | lia].
    - case_decide; [lia|].
      case_decide.
      + by rewrite bool_decide_eq_true_2.
      + by rewrite bool_decide_eq_false_2. }
  split; [exact Hcol|]. split.
  - intros df _. unfold SiMEM._fallback_infer_types.
    rewrite (ListFacts.mapM_total _ (fun cs => (cs.1, inferred cs.2))).
    + reflexivity.
    + intros [name s]. apply Hcol.
  - split; [by destruct strip_text|].
    repeat split; eexists; (split; [vm_compute; reflexivity | reflexivity]).
Qed.

(** ** C8: coercion by the declared schema *)

Module SchemaFacts.


Section Typing.
Variable L : lib.
Variable idx : gmap string (string * string).
Variable strip_text : bool.

Local Abbreviation declared := (fun name : string => snd <$> idx !! SiMEM._norm name).

(** The column that the loop of [_map_types_by_schema] puts in the place
    of a column, when it puts one. *)
Local Abbreviation coerced :=
  (fun (name : string) (s : Series) =>
     if decide (declared name = Some "fecha") then
       mkSeries DObject
         (map (fun o => match o with Some t => Date (t / ns_per_day) | None => NA end)
              (parsed_cells L (values s)))
     else if decide (declared name = Some "fecha hora") then
       mkSeries (datetime_dtype L (values s))
         (map cell_of_parsed (parsed_cells L (values s)))
     else SiMEM.text_column L strip_text s).

(** A column declared "fecha" whose values mix UTC offsets. *)
Local Abbreviation mixed_date :=
  (fun cs : string * Series =>
     bool_decide (declared cs.1 = Some "fecha") && mixed_offsets L (values cs.2)).



End Typing.




End SchemaFacts.




(** ** C6: the client-side date filter *)

Module DateFilterFacts.

(** On a datetime column, with both bounds given: the rows kept are those
    whose timestamp lies between the start and the end plus
    23:59:59.999999, both included; a null timestamp is dropped. *)
Lemma date_filter_mask L df col a b s ta tb w :
  nonempty col = true -> nonempty a = true -> nonempty b = true ->
  mem col (columns df) = true ->
  named col df = [(col, s)] ->
  dtype_of s = DDatetime64 ->
  List.length (values s) = nrows df ->
  parse_scalar L a = Some ta ->
  parse_scalar L b = Some tb ->
  SiMEM._apply_client_date_filter L df
    (SiMEM.DateFilter (Some col) (Some a) (Some b)) false w =
  (Ok (loc (map (fun c => SiMEM.ge_mask ta c
                          && SiMEM.le_mask (tb + SiMEM.end_of_day) c)
                (values s)) df), w).
Proof.
  intros Hcol Ha Hb Hmem Hnamed Hdt Hlen Hta Htb.
  unfold SiMEM._apply_client_date_filter, SiMEM.effective_column,
    SiMEM.compare_bound, getitem, to_datetime_scalar. simpl.
  rewrite Hcol, Hmem, Hnamed, Ha, Hb, Hta, Htb. munfold. simpl.
  rewrite !bool_decide_eq_true_2 by done. simpl.
  rewrite ListFacts.zip_with_all_true by (by rewrite length_map).
  by rewrite ListFacts.zip_with_map.
Qed.

End DateFilterFacts.

(** C6 on the code: with start and end 2025-01-10 on a datetime column,
    a row is kept exactly when its timestamp lies between 00:00:00 and
    23:59:59.999999 of that day, both included, and 2025-01-11T00:00:00 is
    dropped; the end bound is the end date plus 23:59:59.999999, so a row
    in the last microsecond of the day, such as
    2025-01-10T23:59:59.9999995, is dropped although it lies within the
    calendar day. *)
Theorem C6_day_filter_on_the_code :
  let day := midnight_2025_01_10 in
  let result (t : Z) :=
    (SiMEM._apply_client_date_filter Iso.L (one_timestamp t) on_2025_01_10
       false world0).1 in
  Iso.parse_iso "2025-01-10" = Some day
  /\ Iso.parse_iso "2025-01-11T00:00:00" = Some (day + ns_per_day)
  /\ Iso.parse_iso "2025-01-10T23:59:59.9999995" = Some (day + ns_per_day - 500)
  /\ (forall t, day <= t <= day + ns_per_day - 1000 ->
        result t = Ok (one_timestamp t))
  /\ (forall t, t < day \/ day + ns_per_day - 1000 < t ->
        result t = Ok no_timestamp)
  /\ result (day + ns_per_day) = Ok no_timestamp
  /\ result (day + ns_per_day - 500) = Ok no_timestamp.
Proof.
  intros day result.
  assert (forall t,
            result t =
            Ok (if (day <=? t) && (t <=? day + ns_per_day - 1000)
                then one_timestamp t else no_timestamp)) as Hres.
  { intros t. unfold result, on_2025_01_10.
    rewrite (DateFilterFacts.date_filter_mask Iso.L (one_timestamp t) "fecha"
               "2025-01-10" "2025-01-10" (mkSeries DDatetime64 [Timestamp t])
               day day world0); try reflexivity.
    simpl. unfold SiMEM.ge_mask, SiMEM.le_mask.
    replace (day + SiMEM.end_of_day) with (day + ns_per_day - 1000)
      by (vm_compute; reflexivity).
    by destruct ((day <=? t) && (t <=? day + ns_per_day - 1000)). }
  split; [vm_compute; reflexivity|].
  split; [vm_compute; reflexivity|].
  split; [vm_compute; reflexivity|].
  split; [|split; [|split]].
  - intros t Ht. rewrite Hres.
    destruct (Z.leb_spec day t); [|lia].
    destruct (Z.leb_spec t (day + ns_per_day - 1000)); [done|lia].
  - intros t Ht. rewrite Hres.
    destruct (Z.leb_spec day t); [|done].
    destruct (Z.leb_spec t (day + ns_per_day - 1000)); [lia|done].
  - rewrite Hres. vm_compute. reflexivity.
  - rewrite Hres. vm_compute. reflexivity.
Qed.

(** ** C7: the pivot to the wide table *)

Module PivotFacts.

Lemma insert_by_perm {A} (leb : A -> A -> bool) x l :
  insert_by leb x l ≡ₚ x :: l.
Proof.
  induction l as [|y l IH]; [done|]. simpl.
  destruct (leb x y); [done|]. rewrite IH. apply Permutation_swap.
Qed.

(** Sorting permutes. *)
Lemma sort_by_perm {A} (leb : A -> A -> bool) l : sort_by leb l ≡ₚ l.
Proof.
  induction l as [|x l IH]; [done|]. simpl.
  by rewrite insert_by_perm, IH.
Qed.

Lemma isna_NA c : notna c = false -> c = NA.
Proof. by destruct c. Qed.

Section Pivot.
Context {K C : Type} `{EqDecision K, EqDecision C}.
Variable K_leb : K -> K -> bool.
Variable C_leb : C -> C -> bool.

Implicit Types (long : list (option K * option C * cell)).
Implicit Types (g : list (K * C * cell)).

Lemma elem_of_grouped long k c v :
  (k, c, v) ∈ grouped long <-> (Some k, Some c, v) ∈ long.
Proof.
  unfold grouped. rewrite list_elem_of_omap. split.
  - intros ([[[k'|] [c'|]] v'] & Hin & E); simplify_eq. done.
  - intros Hin. by exists (Some k, Some c, v).
Qed.

(** The aggregate of a group is not null exactly when the group has a
    value that is not null. *)
Lemma first_value_notna g kc :
  notna (first_value g kc) = true <-> exists v, (kc, v) ∈ g /\ notna v = true.
Proof.
  unfold first_value.
  destruct (filter (fun v => notna v = true)
              (map snd (filter (fun r => r.1 = kc) g))) as [|v l] eqn:E; simpl.
  - split; [done|]. intros (v & Hin & Hv). exfalso.
    assert (v ∈ filter (fun v => notna v = true)
                  (map snd (filter (fun r => r.1 = kc) g))) as Hv'.
    { apply list_elem_of_filter. split; [done|].
      apply ListFacts.elem_of_map. exists (kc, v). split; [done|].
      apply list_elem_of_filter. by split. }
    rewrite E in Hv'. by apply elem_of_nil in Hv'.
  - assert (v ∈ filter (fun v => notna v = true)
                  (map snd (filter (fun r => r.1 = kc) g))) as Hv
        by (rewrite E; left).
    apply list_elem_of_filter in Hv as [Hv Hin].
    apply ListFacts.elem_of_map in Hin as ([kc' v'] & -> & Hin).
    apply list_elem_of_filter in Hin as [Heq Hin]. simpl in *. subst kc'.
    split; [|done]. intros _. by exists v'.
Qed.

(** The first value that is not null, by position: the value of the first
    row of the pair whose value is not null. *)
Lemma first_value_first long l1 l2 k c v :
  long = l1 ++ (Some k, Some c, v) :: l2 ->
  notna v = true ->
  (forall v', (Some k, Some c, v') ∈ l1 -> v' = NA) ->
  first_value (grouped long) (k, c) = v.
Proof.
  intros -> Hv Hl1. unfold first_value, grouped.
  rewrite omap_app. simpl. rewrite filter_app, filter_cons_True by done.
  rewrite map_app, filter_app. simpl.
  rewrite (filter_cons_True (fun v => notna v = true)) by done.
  assert (filter (fun v0 => notna v0 = true)
            (map snd (filter (fun r => r.1 = (k, c))
               (omap (fun r : option K * option C * cell =>
                        match r with
                        | (Some k, Some c, v) => Some (k, c, v)
                        | _ => None
                        end) l1))) = []) as ->; [|done].
  induction l1 as [|[[[k'|] [c'|]] v'] l1 IH]; simpl; try done;
    try (apply IH; intros v0 Hv0; apply Hl1; by right).
  destruct (decide ((k', c') = (k, c))) as [E|E].
  - injection E as -> ->.
    rewrite filter_cons_True by done. simpl.
    rewrite (Hl1 v') by left.
    rewrite filter_cons_False by done.
    apply IH. intros v0 Hv0. apply Hl1. by right.
  - rewrite filter_cons_False by done.
    apply IH. intros v0 Hv0. apply Hl1. by right.
Qed.

Lemma elem_of_agged g r :
  r ∈ agged g <->
  notna r.2 = true /\ r.2 = first_value g r.1 /\ r.1 ∈ map fst g.
Proof.
  unfold agged. rewrite list_elem_of_filter, ListFacts.elem_of_map. split.
  - intros (Hv & kc & -> & Hkc). rewrite elem_of_remove_dups in Hkc.
    simpl in *. by repeat split.
  - intros (Hv & E & Hkc). split; [done|]. exists r.1. split.
    + destruct r as [kc v]. simpl in *. by subst.
    + by rewrite elem_of_remove_dups.
Qed.

Lemma filter_key_map {A B} `{EqDecision A} (f : A -> B) (ks : list A) (kc : A) :
  NoDup ks ->
  filter (fun r : A * B => r.1 = kc) (map (fun k => (k, f k)) ks) =
  if decide (kc ∈ ks) then [(kc, f kc)] else [].
Proof.
  induction ks as [|k ks IH]; intros Hnd.
  - by rewrite decide_False by apply not_elem_of_nil.
  - apply NoDup_cons in Hnd as [Hk Hnd]. simpl.
    destruct (decide (k = kc)) as [->|Hne].
    + rewrite filter_cons_True by done. rewrite IH by done.
      rewrite decide_False by done. rewrite decide_True by left. done.
    + rewrite filter_cons_False by done. rewrite IH by done.
      destruct (decide (kc ∈ ks)) as [Hin|Hin].
      * by rewrite decide_True by (by right).
      * rewrite decide_False; [done|].
        rewrite elem_of_cons. intros [->|?]; done.
Qed.

(** Looking a pair up in the aggregate gives the first value of the pair
    that is not null, or null when there is none. *)
Lemma agged_value_first g k c :
  agged_value (agged g) k c = first_value g (k, c).
Proof.
  unfold agged_value, agged.
  rewrite ListFacts.filter_swap.
  rewrite (filter_key_map (first_value g)) by apply NoDup_remove_dups.
  destruct (decide ((k, c) ∈ remove_dups (map fst g))) as [Hin|Hin].
  - destruct (notna (first_value g (k, c))) eqn:E.
    + by rewrite filter_cons_True by done.
    + rewrite filter_cons_False by (simpl; congruence). simpl.
      symmetry. by apply isna_NA.
  - rewrite filter_nil. simpl. symmetry. apply isna_NA.
    destruct (notna (first_value g (k, c))) eqn:E; [|done].
    apply first_value_notna in E as (v & Hv & _).
    exfalso. apply Hin. rewrite elem_of_remove_dups. apply ListFacts.elem_of_map.
    by exists (k, c, v).
Qed.

Lemma pivot_index long k :
  k ∈ index (pivot_table K_leb C_leb long) <->
  exists c v, (Some k, Some c, v) ∈ long /\ notna v = true.
Proof.
  unfold pivot_table. simpl.
  rewrite sort_by_perm, elem_of_remove_dups, ListFacts.elem_of_map. split.
  - intros ([[k' c] v] & -> & Hr). apply elem_of_agged in Hr as (Hv & E & _).
    simpl in *. rewrite E in Hv.
    apply first_value_notna in Hv as (v' & Hin & Hv').
    exists c, v'. split; [by apply elem_of_grouped | done].
  - intros (c & v & Hin & Hv). apply elem_of_grouped in Hin.
    exists (k, c, first_value (grouped long) (k, c)). split; [done|].
    apply elem_of_agged. simpl. split; [|split; [done|]].
    + apply first_value_notna. by exists v.
    + apply ListFacts.elem_of_map. by exists (k, c, v).
Qed.

Lemma pivot_labels long c :
  c ∈ labels (pivot_table K_leb C_leb long) <->
  exists k v, (Some k, Some c, v) ∈ long /\ notna v = true.
Proof.
  unfold pivot_table. simpl.
  rewrite sort_by_perm, elem_of_remove_dups, ListFacts.elem_of_map. split.
  - intros ([[k c'] v] & -> & Hr). apply elem_of_agged in Hr as (Hv & E & _).
    simpl in *. rewrite E in Hv.
    apply first_value_notna in Hv as (v' & Hin & Hv').
    exists k, v'. split; [by apply elem_of_grouped | done].
  - intros (k & v & Hin & Hv). apply elem_of_grouped in Hin.
    exists (k, c, first_value (grouped long) (k, c)). split; [done|].
    apply elem_of_agged. simpl. split; [|split; [done|]].
    + apply first_value_notna. by exists v.
    + apply ListFacts.elem_of_map. by exists (k, c, v).
Qed.

Lemma pivot_NoDup long :
  NoDup (index (pivot_table K_leb C_leb long))
  /\ NoDup (labels (pivot_table K_leb C_leb long)).
Proof.
  unfold pivot_table. simpl.
  rewrite !sort_by_perm. split; apply NoDup_remove_dups.
Qed.

Lemma pivot_shape long :
  List.length (cells (pivot_table K_leb C_leb long)) =
    List.length (index (pivot_table K_leb C_leb long))
  /\ Forall (fun r => List.length r =
                      List.length (labels (pivot_table K_leb C_leb long)))
            (cells (pivot_table K_leb C_leb long)).
Proof.
  unfold pivot_table. simpl. split; [by rewrite length_map|].
  apply Forall_forall. intros r Hr.
  apply ListFacts.elem_of_map in Hr as (k & -> & _). by rewrite length_map.
Qed.

Lemma find_position {A} `{EqDecision A} (l : list A) (x : A) :
  x ∈ l -> exists i, list_find (fun y => y = x) l = Some (i, x) /\ l !! i = Some x.
Proof.
  intros Hin.
  destruct (list_find (fun y => y = x) l) as [[i y]|] eqn:E.
  - apply list_find_Some in E as E'. destruct E' as (Hi & -> & _). by exists i.
  - apply list_find_None in E. rewrite Forall_forall in E.
    by specialize (E x Hin).
Qed.

(** The cell of the wide table at a key and a label it has: the first
    value of that pair that is not null, or null. *)
Lemma pivot_cell long k c :
  k ∈ index (pivot_table K_leb C_leb long) ->
  c ∈ labels (pivot_table K_leb C_leb long) ->
  wide_cell (pivot_table K_leb C_leb long) k c =
  Some (first_value (grouped long) (k, c)).
Proof.
  intros Hk Hc. unfold wide_cell.
  destruct (find_position _ _ Hk) as (i & -> & Hi).
  destruct (find_position _ _ Hc) as (j & -> & Hj). simpl.
  unfold pivot_table in *. simpl in *.
  rewrite (ListFacts.lookup_map _ _ _ _ Hi). simpl.
  rewrite (ListFacts.lookup_map _ _ _ _ Hj).
  by rewrite agged_value_first.
Qed.

End Pivot.

End PivotFacts.

Module ViewFacts.

(** The wide table of [consolidate] is the pivot of the rows of the long
    table. *)
Lemma consolidate_wide_is_pivot L df w :
  Banrep.consolidate_wide L df = Ok w ->
  exists long,
    Banrep.long_rows L df = Some long
    /\ w = pivot_table Banrep.key_leb String.leb long.
Proof.
  unfold Banrep.consolidate_wide.
  destruct (Banrep.long_rows L df) as [long|]; [|done].
  intros [= <-]. by exists long.
Qed.

(** [vista_figura] is a pivot of the melted panel with its rows and its
    year columns put in order: the same keys, the same years, and under
    each key and year the cell of the pivot. *)
Lemma build_views_is_pivot VAR_LABELS df v wp :
  PWT._build_views VAR_LABELS df = Ok (v, wp) ->
  exists long,
    PWT.melted VAR_LABELS df = Some long
    /\ wp = df
    /\ index v ≡ₚ index (pivot_table PWT.entity_leb Z.leb long)
    /\ labels v ≡ₚ labels (pivot_table PWT.entity_leb Z.leb long)
    /\ List.length (cells v) = List.length (index v)
    /\ (forall i k, index v !! i = Some k ->
          cells v !! i =
          Some (map (fun y => first_value (grouped long) (k, y)) (labels v))).
Proof.
  unfold PWT._build_views.
  destruct (PWT.melted VAR_LABELS df) as [long|]; [|done].
  set (w := pivot_table PWT.entity_leb Z.leb long).
  set (sorted := sort_by _ (zip (index w) (cells w))).
  intros [= <- <-]. exists long. cbn [index labels cells].
  split; [done|]. split; [done|].
  assert (sorted ≡ₚ zip (index w) (cells w)) as Hperm
      by apply PivotFacts.sort_by_perm.
  assert (cells w = map (fun k => map (fun c => agged_value (agged (grouped long)) k c)
                                      (labels w)) (index w)) as Hcells by done.
  split; [|split; [|split]].
  - rewrite (Permutation_map fst Hperm), Hcells. by rewrite ListFacts.zip_map_fst.
  - apply PivotFacts.sort_by_perm.
  - by rewrite !length_map.
  - intros i k Hi.
    destruct (sorted !! i) as [[k' r]|] eqn:Hs.
    2:{ apply lookup_ge_None in Hs. apply lookup_lt_Some in Hi.
        rewrite length_map in Hi. lia. }
    rewrite (ListFacts.lookup_map _ _ _ _ Hs) in Hi. injection Hi as ->.
    rewrite (ListFacts.lookup_map _ _ _ _ Hs). cbn [fst snd]. f_equal.
    assert ((k, r) ∈ zip (index w) (cells w)) as Hin.
    { rewrite <- Hperm. by eapply list_elem_of_lookup_2. }
    rewrite Hcells in Hin. apply ListFacts.elem_of_zip_map in Hin. subst r.
    apply map_ext_in. intros y Hy.
    assert (y ∈ labels w) as Hy'.
    { apply list_elem_of_In in Hy.
      rewrite PivotFacts.sort_by_perm in Hy. exact Hy. }
    change (sort_by Z.leb (remove_dups _)) with (labels w).
    destruct (PivotFacts.find_position _ _ Hy') as (j & -> & Hj).
    cbn [mbind option_bind]. rewrite (ListFacts.lookup_map _ _ _ _ Hj).
    cbn [default].
    apply PivotFacts.agged_value_first.
Qed.

End ViewFacts.

(** C7, as stated, fails on the rows and on the value kept. In the wide
    table of three observations of one series, two on date 1 (the first
    without a value, the second with 5) and one on date 2 without a value:
    date 2 has no row at all, and the collision on date 1 resolves to 5, the
    second value encountered. *)
Lemma C7_all_null_entity_has_no_row :
  column_values "date" three_observations
    = Some [Timestamp 1; Timestamp 1; Timestamp 2]
  /\ column_values "value" three_observations = Some [NA; Obj (JNum 5); NA]
  /\ Banrep.consolidate_wide Iso.L three_observations =
     Ok (mkWide [inl 1] ["F :: s"] [[Obj (JNum 5)]]).
Proof. repeat split; vm_compute; reflexivity. Qed.

(** C7, amended. In a pivot with the "first" aggregation the rows whose
    key or label is null are left out, and a collision on (entity key,
    series label) resolves, without any log, to the first value of the pair
    that is not null, in table order. The wide table has no two rows for one
    entity value; it has a row for an entity value exactly when that entity
    has a value that is not null under some label; every row has exactly one
    cell per series column, and the cell holds that first non-null value, or
    null when the pair has none. The wide table of [consolidate] is such a
    pivot, and [vista_figura] of [_build_views] is one with its rows and
    year columns reordered. *)
Theorem C7_pivot_keeps_first_non_null :
  (forall (K C : Type) (HK : EqDecision K) (HC : EqDecision C)
          (K_leb : K -> K -> bool) (C_leb : C -> C -> bool)
          (long : list (option K * option C * cell)),
     let w := pivot_table K_leb C_leb long in
     NoDup (index w)
     /\ (forall k, k ∈ index w <->
                   exists c v, (Some k, Some c, v) ∈ long /\ notna v = true)
     /\ List.length (cells w) = List.length (index w)
     /\ Forall (fun r => List.length r = List.length (labels w)) (cells w)
     /\ (forall k c, k ∈ index w -> c ∈ labels w ->
           wide_cell w k c = Some (first_value (grouped long) (k, c)))
     /\ (forall l1 l2 k c v,
           long = l1 ++ (Some k, Some c, v) :: l2 ->
           notna v = true ->
           (forall v', (Some k, Some c, v') ∈ l1 -> v' = NA) ->
           first_value (grouped long) (k, c) = v)
     /\ (forall k c,
           (forall v, (Some k, Some c, v) ∈ long -> v = NA) ->
           first_value (grouped long) (k, c) = NA))
  /\ (forall L df w,
        Banrep.consolidate_wide L df = Ok w ->
        exists long,
          Banrep.long_rows L df = Some long
          /\ w = pivot_table Banrep.key_leb String.leb long)
  /\ (forall VAR_LABELS df v wp,
        PWT._build_views VAR_LABELS df = Ok (v, wp) ->
        exists long,
          PWT.melted VAR_LABELS df = Some long
          /\ wp = df
          /\ index v ≡ₚ index (pivot_table PWT.entity_leb Z.leb long)
          /\ labels v ≡ₚ labels (pivot_table PWT.entity_leb Z.leb long)
          /\ List.length (cells v) = List.length (index v)
          /\ (forall i k, index v !! i = Some k ->
                cells v !! i =
                Some (map (fun y => first_value (grouped long) (k, y)) (labels v)))).
Proof.
  split; [|split].
  - intros K C HK HC K_leb C_leb long w. subst w.
    split; [apply PivotFacts.pivot_NoDup|].
    split; [apply PivotFacts.pivot_index|].
    split; [apply PivotFacts.pivot_shape|].
    split; [apply PivotFacts.pivot_shape|].
    split; [apply PivotFacts.pivot_cell|].
    split; [apply PivotFacts.first_value_first|].
    intros k c Hall. apply PivotFacts.isna_NA.
    destruct (notna (first_value (grouped long) (k, c))) eqn:E; [|done].
    apply PivotFacts.first_value_notna in E as (v & Hin & Hv).
    apply PivotFacts.elem_of_grouped in Hin.
    by rewrite (Hall v Hin) in Hv.
  - apply ViewFacts.consolidate_wide_is_pivot.
  - apply ViewFacts.build_views_is_pivot.
Qed.

Module RetryFacts.

Section Dane.
Variable srv : server.
Variable url : string.

(** One iteration on a response below 400: it is returned at once. *)
Lemma loop_success n backoff last w r :
  srv (List.length (gets w)) url = Answers r ->
  status_code r < 400 ->
  Dane._retry_get_loop srv (S n) backoff last url w =
  (Ok r, World (gets w ++ [url]) (sleeps w) (logs w) (files w)).
Proof.
  intros Hs Hr. simpl. munfold. rewrite Hs. simpl.
  destruct (Z.ltb_spec (status_code r) 400); [done|lia].
Qed.

(** One iteration on a status of 600 or more: it is neither returned nor
    retried nor raised, and the loop goes on without a sleep. *)
Lemma loop_beyond n backoff last w r :
  srv (List.length (gets w)) url = Answers r ->
  600 <= status_code r ->
  Dane._retry_get_loop srv (S n) backoff last url w =
  Dane._retry_get_loop srv n backoff (Some r) url
    (World (gets w ++ [url]) (sleeps w) (logs w) (files w)).
Proof.
  intros Hs Hr. simpl. munfold. rewrite Hs. simpl.
  destruct (Z.ltb_spec (status_code r) 400); [lia|].
  rewrite bool_decide_eq_false_2.
  2:{ intros Hret. apply FetchFacts.retried_range in Hret. lia. }
  simpl. destruct (Z.ltb_spec (status_code r) 600); [lia|].
  by rewrite andb_false_r.
Qed.

(** The loop issues at most [n] GET calls, all for [url], at most one sleep
    per GET, leaves the disk alone, and a response it returns has no status
    from 400 to 599. *)
Lemma retry_loop_bounded : forall n backoff last w,
  0 <= backoff ->
  let res := Dane._retry_get_loop srv n backoff last url w in
  exists k,
    (k <= n)%nat /\ (n <> O -> k <> O)
    /\ gets res.2 = gets w ++ replicate k url
    /\ (List.length (sleeps res.2) <= List.length (sleeps w) + k)%nat
    /\ files res.2 = files w
    /\ forall r, res.1 = Ok r -> status_code r < 400 \/ 600 <= status_code r.
Proof.
  induction n as [|n IH]; intros backoff last w Hb res; subst res.
  - exists O. split; [lia|]. split; [done|]. simpl.
    destruct last as [r|]; munfold; simpl.
    + destruct (Z.leb_spec 400 (status_code r));
        destruct (Z.ltb_spec (status_code r) 600); simpl;
        rewrite app_nil_r; repeat split; try lia; try done;
        intros r' [= <-]; lia.
    + rewrite app_nil_r. repeat split; try lia; done.
  - destruct (srv (List.length (gets w)) url) as [r|e] eqn:Hs.
    2:{ rewrite (FetchFacts.loop_transport _ _ _ _ _ _ _ Hs). exists 1%nat.
        simpl. repeat split; try lia; done. }
    destruct (Z.ltb_spec (status_code r) 400) as [Hlt|Hge].
    { rewrite (loop_success _ _ _ _ _ Hs Hlt). exists 1%nat. simpl.
      repeat split; try lia; try done. intros r' [= <-]. lia. }
    destruct (decide (Dane.retried (status_code r))) as [Hret|Hret].
    { rewrite (FetchFacts.loop_retry _ _ _ _ _ _ _ Hs Hret Hb).
      destruct (IH (backoff * 2) (Some r)
                  (World (gets w ++ [url]) (sleeps w ++ [backoff])
                     (logs w ++ [(WARNING, "GET %s -> %s, retry in %.1fs",
                        [AStr url; AInt (status_code r); AInt backoff])])
                     (files w)) ltac:(lia))
        as (k & Hk & _ & Hg & Hsl & Hf & Hok).
      exists (S k). simpl in *. rewrite length_app in Hsl. simpl in Hsl.
      rewrite Hg, <- app_assoc. repeat split; try lia; try done. }
    destruct (Z.ltb_spec (status_code r) 600) as [Hlt6|Hge6].
    { rewrite (FetchFacts.loop_fatal _ _ _ _ _ _ _ Hs ltac:(lia) Hret).
      exists 1%nat. simpl. repeat split; try lia; done. }
    rewrite (loop_beyond _ _ _ _ _ Hs Hge6).
    destruct (IH backoff (Some r)
                (World (gets w ++ [url]) (sleeps w) (logs w) (files w)) Hb)
      as (k & Hk & _ & Hg & Hsl & Hf & Hok).
    exists (S k). simpl in *.
    rewrite Hg, <- app_assoc. repeat split; try lia; try done.
Qed.

(** [k] retried responses, then a response below 400: it is returned after
    [k + 1] GET calls and the [k] doubling delays. *)
Lemma loop_retries_then_success k : forall n backoff last w r,
  (k < n)%nat -> 0 <= backoff ->
  (forall i, (i < k)%nat ->
     exists ri, srv (List.length (gets w) + i)%nat url = Answers ri
                /\ Dane.retried (status_code ri)) ->
  srv (List.length (gets w) + k)%nat url = Answers r ->
  status_code r < 400 ->
  exists lg,
    Dane._retry_get_loop srv n backoff last url w =
    (Ok r,
     World (gets w ++ replicate (S k) url)
           (sleeps w ++ Dane.doubling backoff k) (logs w ++ lg) (files w))
    /\ List.length lg = k.
Proof.
  induction k as [|k IH]; intros n backoff last w r Hk Hb Hpre Hr Hlt.
  - destruct n as [|n]; [lia|]. exists [].
    rewrite Nat.add_0_r in Hr.
    rewrite (loop_success _ _ _ _ _ Hr Hlt). simpl.
    by rewrite !app_nil_r.
  - destruct n as [|n]; [lia|].
    destruct (Hpre 0%nat ltac:(lia)) as (r0 & Hr0 & Hret0).
    rewrite Nat.add_0_r in Hr0.
    rewrite (FetchFacts.loop_retry _ _ _ _ _ _ _ Hr0 Hret0 Hb).
    edestruct (IH n (backoff * 2) (Some r0)
                 (World (gets w ++ [url]) (sleeps w ++ [backoff])
                    (logs w ++ [(WARNING, "GET %s -> %s, retry in %.1fs",
                        [AStr url; AInt (status_code r0); AInt backoff])])
                    (files w)) r) as (lg & Hrun & Hlen).
    + lia.
    + lia.
    + intros i Hi. simpl. rewrite length_app. simpl.
      destruct (Hpre (S i) ltac:(lia)) as (ri & Hri & Hreti).
      exists ri. split; [|done].
      rewrite <- Hri. f_equal. lia.
    + simpl. rewrite length_app. simpl. rewrite <- Hr. f_equal. lia.
    + done.
    + eexists. rewrite Hrun. simpl. split.
      * rewrite <- !app_assoc. simpl. reflexivity.
      * simpl. rewrite Hlen. reflexivity.
Qed.

End Dane.

End RetryFacts.

Module SimemRetryFacts.

Section Loop.
Variable srv : server.
Variable url : string.
Variables max_retries backoff : Z.

(** One attempt that gets a 2xx response: it is returned at once. *)
Lemma loop_2xx n attempt last w r :
  srv (List.length (gets w)) url = Answers r ->
  200 <= status_code r < 300 ->
  SiMEM._http_get_loop srv (S n) attempt last url max_retries backoff w =
  (Ok r, World (gets w ++ [url]) (sleeps w) (logs w) (files w)).
Proof.
  intros Hs Hr. simpl. munfold. rewrite Hs. simpl.
  destruct (Z.leb_spec 200 (status_code r)); [|lia].
  destruct (Z.ltb_spec (status_code r) 300); [done|lia].
Qed.

Lemma failure_of_none o :
  SiMEM.failure_of o = None ->
  exists r, o = Answers r /\ 200 <= status_code r < 300.
Proof.
  destruct o as [r|e]; simpl; [|done].
  destruct (Z.leb_spec 200 (status_code r));
    destruct (Z.ltb_spec (status_code r) 300); simpl; try done.
  intros _. exists r. split; [done|lia].
Qed.

(** One failed attempt, whatever the delay: a GET, then either the sleep
    refuses a negative delay or the loop goes on. *)
Lemma loop_failed_any n attempt last w e :
  SiMEM.failure_of (srv (List.length (gets w)) url) = Some e ->
  let res := SiMEM._http_get_loop srv (S n) attempt last url max_retries backoff w in
  (exists ex, res = (Raise ex, World (gets w ++ [url]) (sleeps w) (logs w) (files w)))
  \/ (exists sl, res =
        SiMEM._http_get_loop srv n (attempt + 1) (Some e) url max_retries backoff
          (World (gets w ++ [url]) sl (logs w) (files w))).
Proof.
  intros Hf res. subst res. simpl. munfold. unfold SiMEM.failure_of in Hf.
  destruct (srv (List.length (gets w)) url) as [r|e0]; simpl.
  - destruct ((200 <=? status_code r) && (status_code r <? 300)); [done|].
    injection Hf as <-. simpl.
    destruct (attempt <? max_retries); simpl.
    + destruct (backoff * attempt <? 0); [left|right]; eexists; reflexivity.
    + right. eexists; reflexivity.
  - injection Hf as <-.
    destruct (attempt <? max_retries); simpl.
    + destruct (backoff * attempt <? 0); [left|right]; eexists; reflexivity.
    + right. eexists; reflexivity.
Qed.

(** The loop issues at most [n] GET calls, all for [url], leaves the disk
    alone, and what it returns is the 2xx response of its last GET. *)
Lemma http_loop_bounded : forall n attempt last w,
  let res := SiMEM._http_get_loop srv n attempt last url max_retries backoff w in
  exists k,
    (k <= n)%nat
    /\ gets res.2 = gets w ++ replicate k url
    /\ files res.2 = files w
    /\ forall r, res.1 = Ok r ->
         200 <= status_code r < 300
         /\ exists j, k = S j /\ srv (List.length (gets w) + j)%nat url = Answers r.
Proof.
  induction n as [|n IH]; intros attempt last w res; subst res.
  - exists O. simpl. rewrite app_nil_r.
    destruct last; munfold; simpl; repeat split; try lia; done.
  - destruct (SiMEM.failure_of (srv (List.length (gets w)) url)) as [e|] eqn:Hf.
    + destruct (loop_failed_any n attempt last w e Hf) as [[ex ->]|[sl ->]].
      * exists 1%nat. simpl. repeat split; try lia; done.
      * destruct (IH (attempt + 1) (Some e)
                    (World (gets w ++ [url]) sl (logs w) (files w)))
          as (k & Hk & Hg & Hfl & Hok).
        exists (S k). simpl in *. rewrite Hg, <- app_assoc.
        split; [lia|]. split; [done|]. split; [done|].
        intros r Hr. destruct (Hok r Hr) as (H2 & j & -> & Hj).
        split; [done|]. exists (S j). split; [done|].
        rewrite <- Hj. f_equal. rewrite length_app. simpl. lia.
    + apply failure_of_none in Hf as (r & Hs & Hr).
      rewrite (loop_2xx _ _ _ _ _ Hs Hr). exists 1%nat. simpl.
      split; [lia|]. split; [done|]. split; [done|].
      intros r' [= <-]. split; [done|]. exists O. split; [done|].
      by rewrite Nat.add_0_r.
Qed.

(** [k] failed attempts, then a 2xx response: it is returned after
    [k + 1] GET calls and the sleeps of the failed attempts. *)
Lemma loop_fails_then_2xx k : forall n attempt last w r,
  (k < n)%nat -> 0 <= backoff -> 0 <= attempt ->
  (forall i, (i < k)%nat ->
     SiMEM.failure_of (srv (List.length (gets w) + i)%nat url) <> None) ->
  srv (List.length (gets w) + k)%nat url = Answers r ->
  200 <= status_code r < 300 ->
  SiMEM._http_get_loop srv n attempt last url max_retries backoff w =
  (Ok r,
   World (gets w ++ replicate (S k) url)
         (sleeps w ++ SiMEM.delays k attempt max_retries backoff)
         (logs w) (files w)).
Proof.
  induction k as [|k IH]; intros n attempt last w r Hk Hb Ha Hpre Hr H2.
  - destruct n as [|n]; [lia|]. rewrite Nat.add_0_r in Hr.
    rewrite (loop_2xx _ _ _ _ _ Hr H2). simpl. by rewrite app_nil_r.
  - destruct n as [|n]; [lia|].
    destruct (SiMEM.failure_of (srv (List.length (gets w)) url)) as [e|] eqn:Hf.
    2:{ exfalso. apply (Hpre 0%nat); [lia|]. by rewrite Nat.add_0_r. }
    rewrite (SimemFetchFacts.loop_failed _ _ _ _ _ _ _ _ _ Hf) by nia.
    rewrite (IH n (attempt + 1) (Some e) _ r); try lia; try done.
    + simpl. by rewrite <- !app_assoc.
    + intros i Hi. simpl. rewrite length_app. simpl.
      replace (List.length (gets w) + 1 + i)%nat
        with (List.length (gets w) + S i)%nat by lia.
      apply Hpre. lia.
    + simpl. rewrite length_app. simpl. rewrite <- Hr. f_equal. lia.
Qed.

End Loop.

End SimemRetryFacts.

Module SearchFacts.

Section Search.
Variable srv : server.
Variable urlencode : list (string * string) -> string.

#[local] Arguments Dane._retry_get : simpl never.

(** [_retry_get] issues between one and five GET calls and leaves the
    disk alone. *)
Lemma retry_get_gets url w :
  exists k, (1 <= k <= 5)%nat
    /\ gets (Dane._retry_get srv url w).2 = gets w ++ replicate k url
    /\ files (Dane._retry_get srv url w).2 = files w.
Proof.
  destruct (RetryFacts.retry_loop_bounded srv url 5 1 None w ltac:(lia))
    as (k & Hk & Hk0 & Hg & _ & Hf & _).
  exists k. unfold Dane._retry_get. split; [|done].
  specialize (Hk0 ltac:(done)). lia.
Qed.

Lemma slice_to_length {A} (n : Z) (l : list A) :
  0 < n -> Z.of_nat (List.length (Dane.slice_to n l)) <= n.
Proof.
  intros Hn. unfold Dane.slice_to.
  destruct (Z.ltb_spec n 0); [lia|]. rewrite length_take. lia.
Qed.

(** The search loop issues at most five GET calls per page and leaves the
    disk alone; with a positive limit, and fewer ids than the limit so
    far, it returns at most [limit_studies] ids. *)
Lemma search_loop_bounded : forall pages page offset ids q date_from date_to
                                   page_size limit_studies w,
  let res := Dane.search_loop srv urlencode pages page offset ids q date_from
               date_to page_size limit_studies w in
  exists urls,
    gets res.2 = gets w ++ urls
    /\ (List.length urls <= pages * 5)%nat
    /\ files res.2 = files w
    /\ (0 < limit_studies ->
        Z.of_nat (List.length ids) < limit_studies ->
        forall out, res.1 = Ok out -> Z.of_nat (List.length out) <= limit_studies).
Proof.
  induction pages as [|pages IH];
    intros page offset ids q date_from date_to page_size limit_studies w res;
    subst res.
  - exists []. simpl. rewrite app_nil_r. repeat split; try done.
    intros _ Hlt out [= <-]. lia.
  - pose (Q := fun X : result (list json) * world =>
                 exists urls,
                   gets X.2 = gets w ++ urls
                   /\ (List.length urls <= S pages * 5)%nat
                   /\ files X.2 = files w
                   /\ (0 < limit_studies ->
                       Z.of_nat (List.length ids) < limit_studies ->
                       forall out, X.1 = Ok out ->
                                   Z.of_nat (List.length out) <= limit_studies)).
    change (Q (Dane.search_loop srv urlencode (S pages) page offset ids q
                 date_from date_to page_size limit_studies w)).
    cbn [Dane.search_loop]. munfold.
    match goal with |- context [Dane._retry_get srv ?u w] => set (url := u) end.
    destruct (retry_get_gets url w) as (k & Hk & Hg & Hfl).
    destruct (Dane._retry_get srv url w) as [[r|e] w1]; cbn [fst snd] in Hg, Hfl.
    2:{ exists (replicate k url). cbn [fst snd]. rewrite length_replicate.
        repeat split; try done; lia. }
    assert (forall res0 w2,
              gets w2 = gets w1 -> files w2 = files w1 ->
              (0 < limit_studies ->
               Z.of_nat (List.length ids) < limit_studies ->
               forall out, res0 = Ok out ->
                           Z.of_nat (List.length out) <= limit_studies) ->
              Q (res0, w2)) as Hstop.
    { intros res0 w2 Hg2 Hf2 Hout. exists (replicate k url). cbn [fst snd].
      rewrite length_replicate, Hg2, Hf2. repeat split; try done; lia. }
    assert (forall e w2, gets w2 = gets w1 -> files w2 = files w1 ->
                         Q (Raise e, w2)) as Hraise.
    { intros e w2 Hg2 Hf2. apply Hstop; try done. }
    destruct (body r) as [j|]; munfold; cbn beta iota; [|by apply Hraise].
    destruct (Dane.json_get j "result" (JMap [])) as [d|e];
      cbn beta iota; [|by apply Hraise].
    destruct (Dane.json_get d "rows" (JList [])) as [rows0|e];
      cbn beta iota; [|by apply Hraise].
    destruct (Dane.rows_of rows0) as [rows|e]; cbn beta iota; [|by apply Hraise].
    destruct rows as [|row rows]; cbn beta iota.
    { apply Hstop; try done. intros _ Hlt out [= <-]. lia. }
    destruct (Dane.page_ids (row :: rows)) as [new|e]; cbn beta iota;
      [|by apply Hraise].
    destruct (negb (limit_studies =? 0)
              && (limit_studies <=? Z.of_nat (List.length (ids ++ new)))) eqn:Hlim;
      cbn beta iota.
    { apply Hstop; try done. intros Hpos _ out [= <-].
      by apply slice_to_length. }
    destruct (Z.of_nat (List.length (row :: rows)) <? page_size); cbn beta iota.
    { apply Hstop; try done. intros Hpos _ out [= <-].
      apply andb_false_iff in Hlim as [Hlim|Hlim].
      + apply negb_false_iff, Z.eqb_eq in Hlim. lia.
      + apply Z.leb_gt in Hlim. lia. }
    match goal with |- context [Dane.search_loop _ _ _ ?p ?o ?i _ _ _ _ _ ?w'] =>
      destruct (IH p o i q date_from date_to page_size limit_studies w')
        as (urls2 & Hg2 & Hl2 & Hf2 & Hout2);
      destruct (Dane.search_loop srv urlencode pages p o i q date_from date_to
                  page_size limit_studies w') as [res2 w2]
    end.
    cbn [fst snd gets files] in *.
    subst Q. cbn beta. cbn [fst snd].
    exists (replicate k url ++ urls2).
    rewrite Hg2, Hg, Hf2, Hfl, length_app, length_replicate, app_assoc.
    repeat split; try done; try lia.
    intros Hpos _ out Hres. apply Hout2; try done.
    apply andb_false_iff in Hlim as [Hlim|Hlim].
    + apply negb_false_iff, Z.eqb_eq in Hlim. lia.
    + apply Z.leb_gt in Hlim. lia.
Qed.

End Search.
End SearchFacts.

Module RunFacts.

Section Extraction.
Variable srv : server.
Variable urlencode : list (string * string) -> string.
Variable py_repr : json -> string.
Variables study_row var_row : Type.
Variable parse_study : json -> json -> result study_row.
Variable parse_variables : json -> json -> result (list var_row).
Variable regex : Type.
Variable re_compile : string -> result regex.
Variable selected : Dane.var_filters regex -> var_row -> result bool.

(** A run that returns has one study row per study id it resolved, so at
    least one. *)
Lemma run_extraction_rows q sid_list date_from date_to
      limit_studies page_size max_pages
      var_names var_name_regex var_label_regex file_ids_filter
      w vars studies w' :
  Dane.run_extraction srv urlencode py_repr study_row var_row parse_study
    parse_variables regex re_compile selected q sid_list date_from date_to
    limit_studies page_size max_pages
    var_names var_name_regex var_label_regex file_ids_filter w
  = (Ok (vars, studies), w') ->
  (0 < List.length studies)%nat.
Proof.
  unfold Dane.run_extraction.
  assert (forall ids w0,
            ids <> [] ->
            match Dane.compile_filters regex re_compile var_names var_name_regex
                    var_label_regex file_ids_filter with
            | Ok f =>
                Dane.extract_all srv py_repr study_row var_row parse_study
                  parse_variables regex selected f ids ([], []) w0
            | Raise e => (Raise e, w0)
            end = (Ok (vars, studies), w') ->
            (0 < List.length studies)%nat) as Hloop.
  { intros ids w0 Hne.
    destruct (Dane.compile_filters _ _ _ _ _ _) as [f|e]; [|done].
    intros Hrun.
    pose proof (DaneFacts.extract_all_spec srv py_repr study_row var_row
                  parse_study parse_variables regex selected f ids ([], []) w0)
      as H.
    rewrite Hrun in H. simpl in H. rewrite H.
    destruct ids; [done|]. simpl. lia. }
  destruct sid_list as [|sid rest]; munfold.
  - destruct (truthy q) as [text|]; [|done].
    destruct (Dane.search_catalog srv urlencode q date_from date_to page_size
                max_pages limit_studies w) as [[[|i ids]|e] w1]; try done.
    intros Hrun. apply (Hloop (i :: ids) w1); [done|].
    by destruct (Dane.compile_filters _ _ _ _ _ _).
  - intros Hrun. apply (Hloop (map JNum (sid :: rest)) w); [done|].
    by destruct (Dane.compile_filters _ _ _ _ _ _).
Qed.

#[local] Arguments Dane._retry_get : simpl never.

(** Processing one study requests its metadata export and nothing else. *)
Lemma extract_study_gets f sid acc w :
  exists k, (1 <= k <= 5)%nat
    /\ gets (Dane.extract_study srv py_repr study_row var_row parse_study
               parse_variables regex selected f sid acc w).2
       = gets w ++ replicate k (Dane.export_url py_repr sid).
Proof.
  unfold Dane.extract_study, Dane.export_metadata. munfold. munfold.
  destruct (SearchFacts.retry_get_gets srv (Dane.export_url py_repr sid) w)
    as (k & Hk & Hg & _).
  exists k. split; [done|].
  destruct (Dane._retry_get srv (Dane.export_url py_repr sid) w) as [[r|e] w1];
    simpl in Hg; [|done].
  destruct (body r) as [md|]; munfold; cbn beta iota; [|done].
  destruct (parse_study md sid) as [st|e]; cbn beta iota; [|done].
  destruct (parse_variables md sid) as [rows|e]; cbn beta iota; [|done].
  by destruct (Dane.filter_rows var_row regex selected f rows) as [out|e].
Qed.

(** The loop over the studies requests the metadata exports of studies of
    the list, in the order of the list, and nothing else. *)
Lemma extract_all_gets f study_ids : forall acc w,
  exists urls,
    gets (Dane.extract_all srv py_repr study_row var_row parse_study
            parse_variables regex selected f study_ids acc w).2 = gets w ++ urls
    /\ (List.length urls <= List.length study_ids * 5)%nat
    /\ Forall (fun u => exists sid, sid ∈ study_ids
                                    /\ u = Dane.export_url py_repr sid) urls.
Proof.
  induction study_ids as [|sid rest IH]; intros acc w.
  - exists []. simpl. rewrite app_nil_r. by repeat split.
  - rewrite DaneFacts.extract_all_cons.
    destruct (extract_study_gets f sid acc w) as (k & Hk & Hg).
    assert (Forall (fun u => exists sid0, sid0 ∈ sid :: rest
                                        /\ u = Dane.export_url py_repr sid0)
                   (replicate k (Dane.export_url py_repr sid))) as Hone.
    { apply Forall_forall. intros u Hu. apply elem_of_replicate in Hu as [-> _].
      exists sid. split; [left|done]. }
    destruct (Dane.extract_study srv py_repr study_row var_row parse_study
                parse_variables regex selected f sid acc w) as [[acc1|e] w1];
      simpl in Hg.
    + destruct (IH acc1 w1) as (urls & Hg2 & Hl & Hall).
      exists (replicate k (Dane.export_url py_repr sid) ++ urls).
      rewrite Hg2, Hg, app_assoc, length_app, length_replicate. simpl.
      split; [done|]. split; [lia|].
      apply Forall_app. split; [done|].
      eapply Forall_impl; [exact Hall|].
      intros u (sid0 & Hin & ->). exists sid0. split; [by right|done].
    + exists (replicate k (Dane.export_url py_repr sid)). rewrite length_replicate.
      simpl. split; [done|]. split; [lia|done].
Qed.

End Extraction.

End RunFacts.

Module GetFacts.

(** From a default that is not an object the walk returns the default. *)
Lemma get_from_default keys dflt :
  is_dict dflt = false -> Dane._get dflt keys dflt = dflt.
Proof.
  intros Hd. destruct keys as [|k keys]; simpl; by destruct dflt.
Qed.

End GetFacts.

Module NameFacts.

Import Names.

(** Induction on strings for functions that look at two characters. *)
Lemma string_pair_ind (P : string -> Prop) :
  P EmptyString ->
  (forall c, P (String c EmptyString)) ->
  (forall c1 c2 s, P s -> P (String c2 s) -> P (String c1 (String c2 s))) ->
  forall s, P s.
Proof.
  intros H0 H1 H2 s.
  assert (P s /\ forall c, P (String c s)) as [H _]; [|exact H].
  induction s as [|c s [IH1 IH2]]; split; auto.
Qed.

Lemma upper_not_snake c : snake_char c = true -> is_upper c = false /\ SiMEM.is_sep c = false.
Proof.
  destruct c as [[] [] [] [] [] [] [] []]; vm_compute; intros; split; congruence.
Qed.

Lemma lower_char_not_upper c : is_upper (lower_char c) = false.
Proof. destruct c as [[] [] [] [] [] [] [] []]; vm_compute; reflexivity. Qed.

Lemma lower_char_sep c : SiMEM.is_sep (lower_char c) = SiMEM.is_sep c.
Proof. destruct c as [[] [] [] [] [] [] [] []]; vm_compute; reflexivity. Qed.

Lemma lower_char_id c : is_upper c = false -> lower_char c = c.
Proof. unfold lower_char. by intros ->. Qed.

Lemma all_chars_impl (p q : ascii -> bool) s :
  (forall c, p c = true -> q c = true) ->
  all_chars p s = true -> all_chars q s = true.
Proof.
  intros Hpq. induction s as [|c s IH]; [done|]. simpl.
  rewrite !andb_true_iff. intros [Hc Hs]. split; [by apply Hpq | by apply IH].
Qed.

(** *** [_snake_case] *)

Lemma join_seps_no_sep s : forall in_run,
  all_chars (fun c => negb (SiMEM.is_sep c)) (SiMEM.join_seps in_run s) = true.
Proof.
  induction s as [|c s IH]; intros in_run; [done|]. simpl.
  destruct (SiMEM.is_sep c) eqn:E.
  - destruct in_run; [apply IH|]. simpl. apply IH.
  - simpl. rewrite E. simpl. apply IH.
Qed.

Lemma halve_underscores_chars (p : ascii -> bool) s :
  all_chars p s = true -> all_chars p (SiMEM.halve_underscores s) = true.
Proof.
  induction s as [|c|c1 c2 s IH1 IH2] using string_pair_ind; try done.
  intros H. cbn [SiMEM.halve_underscores].
  destruct ((code c1 =? 95) && (code c2 =? 95)) eqn:E.
  - apply andb_true_iff in E as [E1 E2].
    cbn [all_chars] in *. apply andb_true_iff in H as [Hc1 H].
    apply andb_true_iff in H as [Hc2 H].
    apply andb_true_iff. split; [|by apply IH1].
    replace "_"%char with c1; [done|].
    apply Z.eqb_eq in E1. unfold code in E1.
    rewrite <- (ascii_N_embedding c1).
    replace (N_of_ascii c1) with 95%N by lia. reflexivity.
  - cbn [all_chars] in *. apply andb_true_iff in H as [Hc1 H].
    apply andb_true_iff. split; [done|]. by apply IH2.
Qed.

Lemma lower_chars s :
  all_chars (fun c => negb (SiMEM.is_sep c)) s = true ->
  all_chars (fun c => negb (is_upper c) && negb (SiMEM.is_sep c)) (lower s) = true.
Proof.
  induction s as [|c s IH]; [done|]. simpl.
  rewrite !andb_true_iff. intros [Hc Hs].
  rewrite lower_char_not_upper, lower_char_sep. repeat split; try done.
  by apply IH.
Qed.

(** A result of [_snake_case] has no upper-case letter and no separator. *)
Lemma snake_case_chars name :
  all_chars (fun c => negb (is_upper c) && negb (SiMEM.is_sep c))
            (SiMEM._snake_case name) = true.
Proof.
  unfold SiMEM._snake_case.
  apply lower_chars, halve_underscores_chars, join_seps_no_sep.
Qed.

Lemma split_camel_id s :
  all_chars (fun c => negb (is_upper c)) s = true -> SiMEM.split_camel s = s.
Proof.
  induction s as [|c|c1 c2 s IH1 IH2] using string_pair_ind; try done.
  intros H. cbn [SiMEM.split_camel].
  cbn [all_chars] in H. apply andb_true_iff in H as [Hc1 H].
  pose proof H as H'. cbn [all_chars] in H'.
  apply andb_true_iff in H' as [Hc2 _].
  apply negb_true_iff in Hc2. rewrite Hc2, andb_false_r.
  f_equal. by apply IH2.
Qed.

Lemma join_seps_id s :
  all_chars (fun c => negb (SiMEM.is_sep c)) s = true ->
  SiMEM.join_seps false s = s.
Proof.
  induction s as [|c s IH]; [done|]. simpl.
  rewrite andb_true_iff. intros [Hc Hs]. apply negb_true_iff in Hc.
  rewrite Hc. f_equal. by apply IH.
Qed.

Lemma halve_underscores_id s :
  single_underscores s = true -> SiMEM.halve_underscores s = s.
Proof.
  induction s as [|c|c1 c2 s IH1 IH2] using string_pair_ind; try done.
  intros H. cbn [SiMEM.halve_underscores]. cbn [single_underscores] in H.
  apply andb_true_iff in H as [Hc H]. apply negb_true_iff in Hc.
  rewrite Hc. f_equal. by apply IH2.
Qed.

Lemma lower_id s :
  all_chars (fun c => negb (is_upper c)) s = true -> lower s = s.
Proof.
  induction s as [|c s IH]; [done|]. simpl.
  rewrite andb_true_iff. intros [Hc Hs]. apply negb_true_iff in Hc.
  rewrite (lower_char_id _ Hc). f_equal. by apply IH.
Qed.

(** *** Reversal and [strip] *)

Lemma rev_app_chars (p : ascii -> bool) s : forall acc,
  all_chars p (String.rev_app s acc) = all_chars p s && all_chars p acc.
Proof.
  induction s as [|c s IH]; intros acc; [done|]. simpl.
  rewrite IH. simpl. by destruct (p c), (all_chars p s).
Qed.

Lemma rev_chars (p : ascii -> bool) s :
  all_chars p (String.rev s) = all_chars p s.
Proof. unfold String.rev. rewrite rev_app_chars. simpl. by rewrite andb_true_r. Qed.

Lemma rev_app_rev_app s : forall acc1 acc2,
  String.rev_app (String.rev_app s acc1) acc2 =
  String.rev_app acc1 (s +:+ acc2).
Proof.
  induction s as [|c s IH]; intros acc1 acc2; [done|]. simpl.
  by rewrite IH.
Qed.

Lemma rev_rev s : String.rev (String.rev s) = s.
Proof.
  unfold String.rev. rewrite rev_app_rev_app. simpl.
  induction s as [|c s IH]; [done|].
  change (String c s +:+ "") with (String c (s +:+ "")). by f_equal.
Qed.

Lemma lstrip_id s :
  match s with String c _ => is_space c = false | EmptyString => True end ->
  lstrip s = s.
Proof. destruct s as [|c s]; [done|]. simpl. by intros ->. Qed.

Lemma lstrip_head s :
  match lstrip s with String c _ => is_space c = false | EmptyString => True end.
Proof.
  induction s as [|c s IH]; [done|]. simpl.
  destruct (is_space c) eqn:E; [done|]. exact E.
Qed.

Lemma lstrip_no_space s :
  all_chars (fun c => negb (is_space c)) s = true -> lstrip s = s.
Proof.
  intros H. apply lstrip_id. destruct s as [|c s]; [done|].
  simpl in H. apply andb_true_iff in H as [H _]. by apply negb_true_iff.
Qed.

Lemma strip_no_space s :
  all_chars (fun c => negb (is_space c)) s = true -> strip s = s.
Proof.
  intros H. unfold strip. rewrite (lstrip_no_space s H).
  rewrite lstrip_no_space by (by rewrite rev_chars).
  apply rev_rev.
Qed.

Lemma rev_app_append s : forall acc,
  String.rev_app s acc = String.rev s +:+ acc.
Proof.
  unfold String.rev.
  induction s as [|c s IH]; intros acc; [done|]. simpl.
  rewrite IH, (IH (String c "")).
  generalize (String.rev_app s ""). intros t.
  induction t as [|d t IHt]; [done|].
  change (String d t +:+ String c acc) with (String d (t +:+ String c acc)).
  change (String d t +:+ String c "") with (String d (t +:+ String c "")).
  change (String d (t +:+ String c "") +:+ acc)
    with (String d ((t +:+ String c "") +:+ acc)).
  by rewrite IHt.
Qed.

(** Stripping on the left keeps the last character. *)
Lemma lstrip_last s : head_ok (String.rev s) -> head_ok (String.rev (lstrip s)).
Proof.
  induction s as [|c s IH]; [done|]. simpl.
  destruct (is_space c) eqn:E; [|done].
  intros H. apply IH. destruct s as [|d s]; [done|].
  revert H. unfold String.rev. cbn [String.rev_app].
  rewrite (rev_app_append s (String d (String c ""))).
  rewrite (rev_app_append s (String d "")).
  by destruct (String.rev s).
Qed.

Lemma strip_stripped s : stripped (strip s) = true.
Proof.
  assert (head_ok (strip s) /\ head_ok (String.rev (strip s))) as [H1 H2].
  { unfold strip. rewrite rev_rev. split; [|apply lstrip_head].
    apply lstrip_last. rewrite rev_rev. apply lstrip_head. }
  unfold stripped. unfold head_ok in *.
  destruct (strip s) as [|c t]; [done|].
  rewrite H1. destruct (String.rev (String c t)) as [|d u]; [done|].
  by rewrite H2.
Qed.

(** *** [_safe_name] *)

Lemma replace_unsafe_safe s : forall in_run,
  all_chars PWT.is_safe (PWT.replace_unsafe in_run s) = true.
Proof.
  induction s as [|c s IH]; intros in_run; [done|]. simpl.
  destruct (PWT.is_safe c) eqn:E.
  - simpl. rewrite E. apply IH.
  - destruct in_run; [apply IH|]. simpl. apply IH.
Qed.

Lemma replace_unsafe_id s :
  all_chars PWT.is_safe s = true -> PWT.replace_unsafe false s = s.
Proof.
  induction s as [|c s IH]; [done|]. simpl.
  rewrite andb_true_iff. intros [Hc Hs]. rewrite Hc. f_equal. by apply IH.
Qed.

Lemma safe_not_space c : PWT.is_safe c = true -> negb (is_space c) = true.
Proof. destruct c as [[] [] [] [] [] [] [] []]; vm_compute; congruence. Qed.

Lemma safe_not_slash c : PWT.is_safe c = true -> negb (code c =? 47) = true.
Proof. destruct c as [[] [] [] [] [] [] [] []]; vm_compute; congruence. Qed.

End NameFacts.

Module RowFacts.

Lemma mask_list_map {A B} (f : A -> B) (mask : list bool) : forall l,
  mask_list mask (map f l) = map f (mask_list mask l).
Proof.
  induction mask as [|b mask IH]; intros [|x l]; simpl; try done.
  destruct b; simpl; by rewrite IH.
Qed.

Lemma mask_list_same_length {A B} (mask : list bool) : forall (l : list A) (l' : list B),
  List.length l = List.length l' ->
  List.length (mask_list mask l) = List.length (mask_list mask l').
Proof.
  induction mask as [|b mask IH]; intros [|x l] [|y l'] Hlen; simpl in *;
    try done.
  destruct b; simpl; rewrite (IH l l') by lia; done.
Qed.

Lemma mask_list_sublist {A} (mask : list bool) : forall l : list A,
  mask_list mask l `sublist_of` l.
Proof.
  induction mask as [|b mask IH]; intros [|x l]; simpl;
    try apply sublist_nil_l.
  destruct b; [by apply sublist_skip | by apply sublist_cons].
Qed.

(** The cells kept by a mask, by the positions kept. *)
Lemma mask_list_positions {A} (d : A) (mask : list bool) : forall (l : list A) k,
  mask_list mask l =
  map (fun i => nth (i - k) l d) (mask_list mask (seq k (List.length l))).
Proof.
  induction mask as [|b mask IH]; intros [|x l] k; try done.
  cbn [List.length seq mask_list].
  assert (map (fun i => nth (i - k) (x :: l) d)
              (mask_list mask (seq (S k) (List.length l)))
          = map (fun i => nth (i - S k) l d)
                (mask_list mask (seq (S k) (List.length l)))) as Hshift.
  { apply map_ext_in. intros i Hi.
    assert (i ∈ seq (S k) (List.length l)) as Hi'.
    { apply list_elem_of_In in Hi.
      eapply elem_of_sublist; [exact Hi | apply mask_list_sublist]. }
    apply elem_of_seq in Hi'.
    replace (i - k)%nat with (S (i - S k)) by lia. done. }
  destruct b; cbn [map].
  - rewrite Hshift, Nat.sub_diag. cbn [nth]. f_equal. apply IH.
  - rewrite Hshift. apply IH.
Qed.

Lemma map_by_position {A B} (f : A -> B) (d : A) (l : list A) :
  map f l = map (fun j => f (nth j l d)) (seq 0 (List.length l)).
Proof.
  induction l as [|x l IH]; [done|]. simpl. f_equal.
  rewrite <- seq_shift, map_map. exact IH.
Qed.

(** Selecting rows of a well-formed frame selects its rows. *)
Lemma rows_loc mask df :
  Frames.well_formed df -> rows (loc mask df) = mask_list mask (rows df).
Proof.
  unfold Frames.well_formed. intros Hwf. unfold rows at 2. rewrite mask_list_map.
  unfold rows, loc. cbn [nrows data].
  set (idxs := mask_list mask (seq 0 (nrows df))).
  rewrite (map_by_position (row df) 0%nat idxs).
  apply map_ext_in. intros j Hj. apply in_seq in Hj.
  unfold row. cbn [data]. rewrite map_map.
  apply map_ext_in. intros [c s] Hcs. cbn [fst snd values].
  rewrite Forall_forall in Hwf.
  specialize (Hwf (c, s) ltac:(by apply list_elem_of_In)). cbn [snd] in Hwf.
  rewrite (mask_list_positions NA mask (values s) 0), Hwf. fold idxs.
  rewrite (nth_indep _ NA (nth (0 - 0) (values s) NA))
    by (rewrite length_map; lia).
  rewrite (map_nth (fun i => nth (i - 0) (values s) NA) idxs 0%nat j).
  by rewrite Nat.sub_0_r.
Qed.

Lemma loc_well_formed mask df :
  Frames.well_formed df -> Frames.well_formed (loc mask df).
Proof.
  unfold Frames.well_formed. rewrite !Forall_forall. intros Hwf cs Hcs.
  unfold loc in *. cbn [nrows data] in *.
  apply ListFacts.elem_of_map in Hcs as ([c s] & -> & Hcs). cbn [snd values].
  specialize (Hwf _ Hcs). cbn [snd] in Hwf.
  apply mask_list_same_length. by rewrite length_seq.
Qed.

End RowFacts.

Module FilterFacts.

Lemma mask_list_length {A} (mask : list bool) : forall l : list A,
  (List.length (mask_list mask l) <= List.length l)%nat.
Proof.
  induction mask as [|b mask IH]; intros [|x l]; simpl; try lia.
  specialize (IH l). destruct b; simpl; lia.
Qed.

(** Selecting rows keeps the columns and adds no row. *)
Lemma loc_shape mask df :
  columns (loc mask df) = columns df
  /\ (nrows (loc mask df) <= nrows df)%nat.
Proof.
  unfold loc, columns. simpl. split.
  - rewrite map_map. by apply map_ext.
  - etransitivity; [apply mask_list_length|]. by rewrite length_seq.
Qed.

Section Filters.
Variable L : lib.
Variable to_snake : bool.

(** The body of the loop of [_apply_client_filters]. *)
Local Abbreviation step :=
  (fun (acc : M DataFrame) (f : string * list string) =>
     res ← acc;
     let vals := map strip f.2 in
     match SiMEM.effective_column f.1 to_snake res with
     | None =>
         _ ← print "[WARN] Filtro ignorado: columna '%s' no encontrada."
               [AStr f.1];
         mret res
     | Some col_eff =>
         series ← lift (getitem col_eff
                          (AttributeError "'DataFrame' object has no attribute 'str'")
                          res);
         let mask := map (SiMEM.isin vals)
                         (values (str_strip (astype_str L series))) in
         mret (loc mask res)
     end).

Lemma filters_foldl df fs :
  SiMEM._apply_client_filters L df fs to_snake = foldl step (mret df) fs.
Proof. reflexivity. Qed.

(** Every filter keeps the columns and adds no row. *)
Lemma filters_shape df0 fs : forall acc : M DataFrame,
  (forall w df' w', acc w = (Ok df', w') ->
     columns df' = columns df0 /\ (nrows df' <= nrows df0)%nat) ->
  forall w df' w', foldl step acc fs w = (Ok df', w') ->
    columns df' = columns df0 /\ (nrows df' <= nrows df0)%nat.
Proof.
  induction fs as [|f fs IH]; intros acc Hacc; [exact Hacc|].
  simpl. apply IH. intros w df' w'. munfold.
  destruct (acc w) as [[res|e] w1] eqn:Eacc; [|done].
  destruct (Hacc _ _ _ Eacc) as [Hc Hn].
  destruct (SiMEM.effective_column f.1 to_snake res) as [col_eff|].
  - destruct (getitem col_eff _ res) as [series|e]; [|done].
    intros [= <- <-]. split.
    + by rewrite (proj1 (loc_shape _ _)).
    + etransitivity; [apply loc_shape | exact Hn].
  - by intros [= <- <-].
Qed.

(** On a well-formed table the filters keep some of the rows, in their
    order, and all the columns. *)
Lemma filters_rows df0 fs : forall acc : M DataFrame,
  (forall w df' w', acc w = (Ok df', w') ->
     columns df' = columns df0 /\ Frames.well_formed df'
     /\ rows df' `sublist_of` rows df0) ->
  forall w df' w', foldl step acc fs w = (Ok df', w') ->
    columns df' = columns df0 /\ Frames.well_formed df'
    /\ rows df' `sublist_of` rows df0.
Proof.
  induction fs as [|f fs IH]; intros acc Hacc; [exact Hacc|].
  simpl. apply IH. intros w df' w'. munfold.
  destruct (acc w) as [[res|e] w1] eqn:Eacc; [|done].
  destruct (Hacc _ _ _ Eacc) as (Hc & Hwf & Hsub).
  destruct (SiMEM.effective_column f.1 to_snake res) as [col_eff|].
  - destruct (getitem col_eff _ res) as [series|e]; [|done].
    intros [= <- <-]. split; [|split].
    + by rewrite (proj1 (loc_shape _ _)).
    + by apply RowFacts.loc_well_formed.
    + rewrite RowFacts.rows_loc by done.
      etransitivity; [apply RowFacts.mask_list_sublist | exact Hsub].
  - by intros [= <- <-].
Qed.

(** A filter on a column that is not found is skipped with a warning. *)
Lemma filters_unknown df fs : forall (acc : M DataFrame) lg0,
  (forall w, acc w =
     (Ok df, World (gets w) (sleeps w) (logs w ++ lg0) (files w))) ->
  Forall (fun f => SiMEM.effective_column f.1 to_snake df = None) fs ->
  forall w, foldl step acc fs w =
    (Ok df,
     World (gets w) (sleeps w)
       (logs w ++ lg0 ++
          map (fun f : string * list string =>
                 (STDOUT, "[WARN] Filtro ignorado: columna '%s' no encontrada.",
                  [AStr f.1])) fs)
       (files w)).
Proof.
  induction fs as [|f fs IH]; intros acc lg0 Hacc Hall w.
  - simpl. by rewrite app_nil_r.
  - apply Forall_cons in Hall as [Hf Hall]. simpl.
    rewrite (IH _ (lg0 ++ [(STDOUT, "[WARN] Filtro ignorado: columna '%s' no encontrada.",
                            [AStr f.1])])); [|intros w0|done].
    + by rewrite <- !app_assoc.
    + munfold. rewrite Hacc, Hf. simpl. by rewrite <- app_assoc.
Qed.

End Filters.

End FilterFacts.

Module DownloadFacts.

Section Cache.
Variable srv : server.
Variable md5_hexdigest : list Byte.byte -> string.
Variables base out_dir : string.
Variable meta : PWT.FileMeta.

Local Abbreviation path := (PWT.path_join out_dir (PWT._safe_name (PWT.label meta))).

(** [download_file_by_id] does not touch the disk. *)
Lemma download_keeps_disk file_id w :
  files (PWT.download_file_by_id srv base file_id w).2 = files w.
Proof.
  unfold PWT.download_file_by_id. munfold.
  destruct (srv (List.length (gets w)) (PWT.datafile_url base file_id true))
    as [r|e]; simpl; [|done].
  destruct ((400 <=? status_code r) && (status_code r <? 600)); simpl; [|done].
  destruct (srv _ (PWT.datafile_url base file_id false)) as [r'|e']; simpl;
    [|done].
  by destruct ((400 <=? status_code r') && (status_code r' <? 600)).
Qed.

(** With the bytes [b] at the cache path and either no checksum or the
    checksum of [b], [load_raw] with the cache on returns [b] without a
    GET and without touching the disk. *)
Lemma load_raw_cached w b :
  files w !! path = Some b ->
  match truthy (PWT.checksum meta) with
  | Some sum => md5_hexdigest b = sum
  | None => True
  end ->
  let res := PWT.load_raw srv md5_hexdigest base out_dir true meta w in
  res.1 = Ok b /\ gets res.2 = gets w /\ files res.2 = files w.
Proof.
  intros Hp Hsum res. subst res.
  unfold PWT.load_raw, PWT._maybe_use_cache. munfold. rewrite Hp. simpl.
  destruct (truthy (PWT.checksum meta)) as [sum|]; simpl.
  - rewrite Hp, Hsum, String.eqb_refl. simpl. by rewrite Hp.
  - by rewrite Hp.
Qed.

End Cache.

End DownloadFacts.

Module OrderFacts.

Section Sorting.
Context {A : Type}.
Variable leb : A -> A -> bool.
Hypothesis leb_total : forall a b, leb a b = false -> leb b a = true.

Local Abbreviation R := (fun a b => leb a b = true).

Lemma insert_by_hd x a l :
  leb a x = true -> HdRel R a l -> HdRel R a (insert_by leb x l).
Proof.
  intros Hax Hhd. destruct l as [|y l]; simpl.
  - by constructor.
  - destruct (leb x y); constructor; [done|]. by inversion Hhd.
Qed.

Lemma insert_by_sorted x l : Sorted R l -> Sorted R (insert_by leb x l).
Proof.
  induction 1 as [|y l Hs IH Hhd]; simpl.
  - by repeat constructor.
  - destruct (leb x y) eqn:E.
    + constructor; [by constructor|]. by constructor.
    + constructor; [done|]. apply insert_by_hd; [|done]. by apply leb_total.
Qed.

(** Insertion sort by a total order sorts. *)
Lemma sort_by_sorted l : Sorted R (sort_by leb l).
Proof.
  induction l as [|x l IH]; simpl; [constructor|]. by apply insert_by_sorted.
Qed.

End Sorting.

Lemma Sorted_map {A B} (f : A -> B) (R : B -> B -> Prop) l :
  Sorted (fun a b => R (f a) (f b)) l -> Sorted R (map f l).
Proof.
  induction 1 as [|x l Hs IH Hhd]; simpl; constructor; [done|].
  destruct Hhd; simpl; by constructor.
Qed.

Lemma Sorted_impl {A} (R R' : A -> A -> Prop) l :
  (forall a b, R a b -> R' a b) -> Sorted R l -> Sorted R' l.
Proof.
  intros HR. induction 1 as [|x l Hs IH Hhd]; constructor; [done|].
  destruct Hhd; constructor. by apply HR.
Qed.

(** A list in ascending order without repetitions is strictly ascending. *)
Lemma Sorted_strict (l : list Z) : Sorted Z.le l -> NoDup l -> Sorted Z.lt l.
Proof.
  induction 1 as [|x l Hs IH Hhd]; intros Hnd; constructor.
  - apply IH. by apply NoDup_cons in Hnd as [_ ?].
  - destruct Hhd as [|y l Hxy]; constructor.
    apply NoDup_cons in Hnd as [Hx _].
    assert (x <> y) by (intros ->; apply Hx; left). lia.
Qed.

Lemma Z_leb_total a b : (a <=? b) = false -> (b <=? a) = true.
Proof. lia. Qed.

Lemma string_leb_total a b : String.leb a b = false -> String.leb b a = true.
Proof. destruct (String.leb_total a b) as [H|H]; congruence. Qed.

Lemma pair_leb_total a b : PWT.pair_leb a b = false -> PWT.pair_leb b a = true.
Proof.
  unfold PWT.pair_leb. rewrite (String.eqb_sym b.1 a.1).
  destruct (String.eqb a.1 b.1); apply string_leb_total.
Qed.

Lemma key_leb_total a b : Banrep.key_leb a b = false -> Banrep.key_leb b a = true.
Proof.
  destruct a as [x|x], b as [y|y]; simpl; try done.
  - apply Z_leb_total.
  - apply string_leb_total.
Qed.

End OrderFacts.

Module LabelFacts.

(** A row of the melted panel that has a key has the code of a variable
    column of the panel and, as name, the label of the code in
    [VAR_LABELS], or the code itself when it has none. *)
Lemma melted_key VAR_LABELS df long iso cty code name y v :
  PWT.melted VAR_LABELS df = Some long ->
  (Some (iso, cty, code, name), y, v) ∈ long ->
  name = default code (VAR_LABELS !! code)
  /\ code ∈ columns df
  /\ mem code ["iso"; "country"; "year"] = false.
Proof.
  unfold PWT.melted.
  destruct (column_values "iso" df) as [isos|]; [|done].
  destruct (column_values "country" df) as [countries|]; [|done].
  destruct (column_values "year" df) as [years|]; [|done].
  simpl. intros [= <-]. unfold PWT.melt.
  intros Hin. apply list_elem_of_In, in_concat in Hin as (block & Hblock & Hin).
  apply in_map_iff in Hblock as ([c s] & <- & Hcs).
  apply list_elem_of_In, list_elem_of_filter in Hcs as [Hkey Hcs].
  apply list_elem_of_In, elem_of_lookup_imap in Hin as (i & cell0 & E & _).
  simpl in *.
  destruct (PWT.text_of_cell (nth i isos NA)) as [a|]; simpl in E; [|done].
  destruct (PWT.text_of_cell (nth i countries NA)) as [b|]; simpl in E; [|done].
  injection E as -> -> -> -> _ _.
  split; [done|]. split; [|exact Hkey].
  apply ListFacts.elem_of_map. by exists (c, s).
Qed.

End LabelFacts.

Module LoadFacts.

Section Load.
Variable list_available_flows : string -> M (list string).
Variable load_one_flow_csv : string -> M DataFrame.
(** The reader as a function of the path: it returns a frame and has no
    effect of its own. *)
Variable frame : string -> DataFrame.
Hypothesis load_pure : forall p w, load_one_flow_csv p w = (Ok (frame p), w).

Variable data_dir : string.

Local Abbreviation csv := (fun fid : string => Banrep.os_path_join data_dir (fid +:+ ".csv")).
Local Abbreviation warning :=
  (fun fid : string =>
     (WARNING, "No existe CSV para %s (omito). Esperado: %s",
      [AStr fid; AStr (csv fid)])).

(** The loop loads the flows that have a file, in order, and warns about
    each of the others. *)
Lemma load_flows_pure flows : forall dfs w,
  Banrep.load_flows load_one_flow_csv data_dir flows dfs w =
  (Ok (dfs ++ map (fun fid => Banrep.flow_frame fid (frame (csv fid)))
                  (filter (fun fid => is_Some (files w !! csv fid)) flows)),
   World (gets w) (sleeps w)
         (logs w ++ map warning
                        (filter (fun fid => ¬ is_Some (files w !! csv fid)) flows))
         (files w)).
Proof.
  induction flows as [|fid flows IH]; intros dfs w.
  - simpl. rewrite !app_nil_r. by destruct w.
  - cbn [Banrep.load_flows]. munfold.
    destruct (decide (is_Some (files w !! csv fid))) as [Hyes|Hno].
    + rewrite bool_decide_eq_true_2 by done. cbn [negb].
      rewrite load_pure, IH. cbn [files gets sleeps logs].
      rewrite filter_cons_True by done.
      rewrite (filter_cons_False (fun fid0 => ¬ is_Some (files w !! csv fid0)))
        by (intros H; by apply H).
      simpl. by rewrite <- app_assoc.
    + rewrite bool_decide_eq_false_2 by done. cbn [negb].
      rewrite IH. cbn [files gets sleeps logs].
      rewrite filter_cons_False by done.
      rewrite (filter_cons_True (fun fid0 => ¬ is_Some (files w !! csv fid0)))
        by done.
      simpl. by rewrite <- app_assoc.
Qed.

End Load.

(** The columns called [c] after a selection. *)
Lemma named_select c keep df :
  named c (select keep df) =
  concat (map (fun k => if String.eqb k c then named k df else []) keep).
Proof.
  unfold named at 1, select. simpl.
  induction keep as [|k keep IH]; [done|]. simpl.
  rewrite filter_app, IH. f_equal.
  destruct (String.eqb k c) eqn:E.
  - unfold named. rewrite list_filter_filter. apply list_filter_iff.
    intros [k' s']. simpl. apply String.eqb_eq in E. subst k.
    rewrite String.eqb_eq. tauto.
  - unfold named. rewrite list_filter_filter.
    induction (data df) as [|[k' s'] l IHl]; [done|].
    rewrite filter_cons_False; [exact IHl|].
    simpl. rewrite !String.eqb_eq. intros [-> ->].
    by rewrite String.eqb_refl in E.
Qed.

Lemma named_select_absent c keep df :
  mem c keep = false ->
  concat (map (fun k => if String.eqb k c then named k df else []) keep) = [].
Proof.
  induction keep as [|k keep IH]; [done|]. simpl.
  rewrite (String.eqb_sym c k). destruct (String.eqb k c); [done|].
  simpl. apply IH.
Qed.

Lemma mem_filter_not (P : string -> Prop) `{!forall x, Decision (P x)} c l :
  ¬ P c -> mem c (filter P l) = false.
Proof.
  intros Hp. destruct (mem c (filter P l)) eqn:E; [|done].
  apply ListFacts.mem_spec, list_elem_of_filter in E as [? _]. done.
Qed.

Lemma mem_filter_absent (P : string -> Prop) `{!forall x, Decision (P x)} c l :
  mem c l = false -> mem c (filter P l) = false.
Proof.
  intros Hl. destruct (mem c (filter P l)) eqn:E; [|done].
  apply ListFacts.mem_spec, list_elem_of_filter in E as [_ E].
  apply ListFacts.mem_spec in E. congruence.
Qed.

(** After [df["flow_id"] = fid] the first column called flow_id holds
    [fid] in every row. *)
Lemma set_column_named c v df :
  mem c (columns (Banrep.set_column c v df)) = true
  /\ exists l,
       named c (Banrep.set_column c v df) =
       (c, mkSeries DObject (replicate (nrows df) v)) :: l.
Proof.
  unfold Banrep.set_column, named, columns.
  destruct (mem c (map fst (data df))) eqn:Hmem; simpl.
  - split.
    + rewrite map_map. erewrite map_ext; [exact Hmem|].
      intros [k s]. simpl. by destruct (String.eqb k c).
    + apply ListFacts.mem_spec in Hmem.
      induction (data df) as [|[k s] l IH]; simpl in *.
      * by apply elem_of_nil in Hmem.
      * destruct (String.eqb k c) eqn:E.
        -- apply String.eqb_eq in E. subst k.
           rewrite filter_cons_True by apply String.eqb_refl.
           eexists. reflexivity.
        -- rewrite filter_cons_False by (simpl; congruence).
           apply IH. apply elem_of_cons in Hmem as [->|Hmem]; [|done].
           by rewrite String.eqb_refl in E.
  - split.
    + rewrite map_app. simpl. apply ListFacts.mem_spec.
      apply elem_of_app. right. left.
    + exists []. rewrite filter_app.
      rewrite SubsetFacts.named_absent.
      * rewrite filter_cons_True by apply String.eqb_refl. done.
      * intros Hin. apply ListFacts.mem_spec in Hin. congruence.
Qed.

End LoadFacts.

Module CleanFacts.

Lemma typed_nrows L df sc to_snake strip_text df' :
  SiMEM._map_types_by_schema L df sc to_snake strip_text = Ok df' ->
  nrows df' = nrows df.
Proof.
  unfold SiMEM._map_types_by_schema. munfold.
  destruct (SiMEM.schema_of_json sc) as [entries|e]; [|done].
  destruct (mapM _ (data df)) as [typed|e]; [|done]. simpl.
  intros [= <-]. by destruct to_snake.
Qed.

Lemma inferred_nrows L df to_snake strip_text df' :
  SiMEM._fallback_infer_types L df to_snake strip_text = Ok df' ->
  nrows df' = nrows df.
Proof.
  unfold SiMEM._fallback_infer_types.
  destruct (mapM _ (data df)) as [typed|e]; [|done]. simpl.
  intros [= <-]. by destruct to_snake.
Qed.

(** The date filter keeps the columns and adds no row. *)
Lemma date_filter_shape L df conf to_snake w df' w' :
  SiMEM._apply_client_date_filter L df conf to_snake w = (Ok df', w') ->
  columns df' = columns df /\ (nrows df' <= nrows df)%nat.
Proof.
  unfold SiMEM._apply_client_date_filter. munfold.
  destruct (truthy (SiMEM.date_column conf)) as [col|]; [|by intros [= <- <-]].
  destruct (SiMEM.effective_column col to_snake df) as [col_eff|];
    [|by intros [= <- <-]].
  destruct (getitem col_eff _ df) as [s0|e]; [|done].
  repeat match goal with
         | |- context [match ?x with (_, _) => _ end] =>
             destruct x as [[?|?] ?]; [|done]
         end.
  intros [= <- <-]. apply FilterFacts.loc_shape.
Qed.

(** The column subset keeps the rows. *)
Lemma subset_nrows df cols to_snake w df' w' :
  SiMEM.step_subset df cols to_snake w = (Ok df', w') -> nrows df' = nrows df.
Proof.
  unfold SiMEM.step_subset. destruct cols as [|c cols]; munfold.
  - by intros [= <- <-].
  - match goal with
    | |- context [match ?x with (_, _) => _ end] =>
        destruct x as [[?|?] ?]; [|done]
    end.
    destruct (filter (fun c0 => mem c0 (columns df) = true) _);
      by intros [= <- <-].
Qed.

Lemma flatten_nrows L recs : nrows (SiMEM.flatten L recs) = List.length recs.
Proof.
  unfold SiMEM.flatten, json_normalize, from_records. simpl.
  by rewrite length_map.
Qed.

Lemma drop_duplicates_nrows df : (nrows (drop_duplicates df) <= nrows df)%nat.
Proof. apply FilterFacts.loc_shape. Qed.

(** A frame all of whose column names are results of [_snake_case]. *)
Local Abbreviation snake_named :=
  (fun df : DataFrame =>
     Forall (fun c => exists c0, c = SiMEM._snake_case c0) (columns df)).

Lemma typed_snake L df sc strip_text df' :
  SiMEM._map_types_by_schema L df sc true strip_text = Ok df' -> snake_named df'.
Proof.
  unfold SiMEM._map_types_by_schema. munfold.
  destruct (SiMEM.schema_of_json sc) as [entries|e]; [|done].
  destruct (mapM _ (data df)) as [typed|e]; [|done]. simpl.
  intros [= <-]. unfold rename, columns. simpl. rewrite map_map.
  apply Forall_forall. intros c Hc.
  apply ListFacts.elem_of_map in Hc as ([c0 s0] & -> & _). by exists c0.
Qed.

Lemma inferred_snake L df strip_text df' :
  SiMEM._fallback_infer_types L df true strip_text = Ok df' -> snake_named df'.
Proof.
  unfold SiMEM._fallback_infer_types.
  destruct (mapM _ (data df)) as [typed|e]; [|done]. simpl.
  intros [= <-]. unfold rename, columns. simpl. rewrite map_map.
  apply Forall_forall. intros c Hc.
  apply ListFacts.elem_of_map in Hc as ([c0 s0] & -> & _). by exists c0.
Qed.

Lemma columns_sub (P : string -> Prop) df df' :
  (forall c, c ∈ columns df' -> c ∈ columns df) ->
  Forall P (columns df) -> Forall P (columns df').
Proof.
  rewrite !Forall_forall. intros Hsub H c Hc. by apply H, Hsub.
Qed.

Lemma dropna_columns_sub df c : c ∈ columns (dropna_columns df) -> c ∈ columns df.
Proof.
  unfold dropna_columns, columns. simpl. rewrite !ListFacts.elem_of_map.
  intros (cs & -> & Hcs). apply list_elem_of_filter in Hcs as [_ Hcs].
  by exists cs.
Qed.

Lemma select_sub keep df c : c ∈ columns (select keep df) -> c ∈ columns df.
Proof.
  unfold select, columns. simpl. rewrite !ListFacts.elem_of_map.
  intros (cs & -> & Hcs). exists cs. split; [done|].
  apply list_elem_of_In, in_concat in Hcs as (block & Hblock & Hcs).
  apply in_map_iff in Hblock as (k & <- & _).
  apply list_elem_of_In, list_elem_of_filter in Hcs as [_ Hcs]. done.
Qed.

Lemma subset_sub df cols to_snake w df' w' c :
  SiMEM.step_subset df cols to_snake w = (Ok df', w') ->
  c ∈ columns df' -> c ∈ columns df.
Proof.
  unfold SiMEM.step_subset. destruct cols as [|c0 cols]; munfold.
  - by intros [= <- <-].
  - match goal with
    | |- context [match ?x with (_, _) => _ end] =>
        destruct x as [[?|?] ?]; [|done]
    end.
    destruct (filter (fun c1 => mem c1 (columns df) = true) _);
      intros [= <- <-]; [done|]. apply select_sub.
Qed.

Section Extraction.
Variable srv : server.
Variable L : lib.
Variable urlencode : list (string * string) -> string.

#[local] Arguments SiMEM._http_get_with_retries : simpl never.
#[local] Arguments SiMEM._apply_client_filters : simpl never.
#[local] Arguments SiMEM._apply_client_date_filter : simpl never.
#[local] Arguments SiMEM.step_subset : simpl never.
#[local] Arguments SiMEM._map_types_by_schema : simpl never.
#[local] Arguments SiMEM._fallback_infer_types : simpl never.
#[local] Arguments SiMEM.flatten : simpl never.
#[local] Arguments SiMEM.records_of_json : simpl never.
#[local] Arguments SiMEM.schema_of_json : simpl never.
#[local] Arguments SiMEM.json_get : simpl never.
#[local] Arguments SiMEM.json_or : simpl never.
#[local] Arguments SiMEM.json_truthy : simpl never.
#[local] Arguments drop_duplicates : simpl never.
#[local] Arguments dropna_columns : simpl never.
#[local] Arguments empty : simpl never.

(** The table returned has at most one row per record of the payload,
    and with [to_snake_case] on all its column names are results of
    [_snake_case]. *)
Lemma clean_rows p w res w' :
  SiMEM.fetch_dataset_and_clean srv L urlencode p w = (Ok res, w') ->
  (exists r0 rec0 recs,
     SiMEM.json_get (SiMEM.raw_json res) "result" = Ok r0
     /\ SiMEM.json_get (SiMEM.json_or r0 (JMap [])) "records" = Ok rec0
     /\ SiMEM.records_of_json (SiMEM.json_or rec0 (JList [])) = Ok recs
     /\ (nrows (SiMEM.df res) <= List.length recs)%nat)
  /\ (SiMEM.to_snake_case p = true -> snake_named (SiMEM.df res)).
Proof.
  unfold SiMEM.fetch_dataset_and_clean. munfold. munfold.
  match goal with
  | |- context [match ?x with (_, _) => _ end] =>
      destruct x as [[resp|?] w1]; [|done]
  end.
  destruct (body resp) as [payload|]; [|done]. cbn beta iota.
  destruct (SiMEM.json_get payload "success") as [success|]; [|done].
  cbn beta iota.
  destruct (negb (SiMEM.json_truthy success)); [done|].
  destruct (SiMEM.json_get payload "result") as [r0|] eqn:Er0; [|done].
  cbn beta iota.
  destruct (SiMEM.json_get (SiMEM.json_or r0 (JMap [])) "records")
    as [rec0|] eqn:Erec0; [|done].
  cbn beta iota.
  destruct (SiMEM.json_get (SiMEM.json_or r0 (JMap [])) "columns")
    as [col0|]; [|done].
  cbn beta iota.
  destruct (SiMEM.records_of_json (SiMEM.json_or rec0 (JList [])))
    as [recs|] eqn:Erecs; [|done].
  cbn beta iota.
  set (df0 := SiMEM.flatten L recs).
  match goal with
  | |- context [match ?x with (_, _) => _ end] =>
      destruct x as [[df1|?] w2] eqn:Ety; [|done]
  end.
  assert (nrows df1 = List.length recs
          /\ (SiMEM.to_snake_case p = true -> snake_named df1)) as [Hdf1 Hsn1].
  { rewrite <- (flatten_nrows L recs). fold df0.
    destruct (SiMEM.json_truthy (SiMEM.json_or col0 (JList []))).
    - injection Ety as Ety _. split; [by apply typed_nrows in Ety|].
      intros Hsn. rewrite Hsn in Ety. by apply typed_snake in Ety.
    - injection Ety as Ety _. split; [by apply inferred_nrows in Ety|].
      intros Hsn. rewrite Hsn in Ety. by apply inferred_snake in Ety. }
  clear Ety.
  set (df2 := if SiMEM.drop_all_null_columns p && negb (empty df1)
              then dropna_columns df1 else df1).
  set (df3 := if SiMEM.drop_duplicates_ p && negb (empty df2)
              then drop_duplicates df2 else df2).
  assert ((nrows df3 <= List.length recs)%nat
          /\ forall c, c ∈ columns df3 -> c ∈ columns df1) as [Hdf3 Hsub3].
  { rewrite <- Hdf1.
    assert (nrows df2 = nrows df1
            /\ forall c, c ∈ columns df2 -> c ∈ columns df1) as [<- Hsub2].
    { subst df2.
      destruct (SiMEM.drop_all_null_columns p && negb (empty df1));
        split; try done. apply dropna_columns_sub. }
    subst df3.
    destruct (SiMEM.drop_duplicates_ p && negb (empty df2)).
    - split; [apply drop_duplicates_nrows|].
      intros c Hc. apply Hsub2. unfold drop_duplicates in Hc.
      by rewrite (proj1 (FilterFacts.loc_shape _ _)) in Hc.
    - by split. }
  clearbody df3. clear df2.
  match goal with
  | |- context [match ?x with (_, _) => _ end] =>
      destruct x as [[df4|?] w3] eqn:Efl; [|done]
  end.
  assert (columns df4 = columns df3 /\ (nrows df4 <= nrows df3)%nat)
    as [Hc4 Hdf4].
  { destruct (SiMEM.client_filters p) as [|f fs].
    - by injection Efl as <- _.
    - rewrite FilterFacts.filters_foldl in Efl.
      eapply (FilterFacts.filters_shape L (SiMEM.to_snake_case p) df3 (f :: fs)
                (mret df3)); [|exact Efl].
      by intros ? ? ? [= <- <-]. }
  clear Efl.
  match goal with
  | |- context [match ?x with (_, _) => _ end] =>
      destruct x as [[df5|?] w4] eqn:Edt; [|done]
  end.
  assert (columns df5 = columns df4 /\ (nrows df5 <= nrows df4)%nat)
    as [Hc5 Hdf5].
  { destruct (truthy (SiMEM.start (SiMEM.client_date_filter p)));
      [by apply date_filter_shape in Edt|].
    destruct (truthy (SiMEM.end_ (SiMEM.client_date_filter p)));
      [by apply date_filter_shape in Edt|].
    by injection Edt as <- _. }
  clear Edt.
  match goal with
  | |- context [match ?x with (_, _) => _ end] =>
      destruct x as [[df6|?] w5] eqn:Esub; [|done]
  end.
  pose proof (subset_nrows _ _ _ _ _ _ Esub) as Hdf6.
  intros [= <- <-]. cbn [SiMEM.raw_json SiMEM.df]. split.
  - exists r0, rec0, recs. repeat split; try done. lia.
  - intros Hsn. apply (columns_sub _ df1); [|by apply Hsn1].
    intros c Hc. apply Hsub3. rewrite <- Hc4, <- Hc5.
    by eapply subset_sub.
Qed.

(** A 2xx answer to the first GET is what the fetch helper returns. *)
Lemma first_answer url max_retries backoff w r :
  srv (List.length (gets w)) url = Answers r ->
  200 <= status_code r < 300 ->
  0 < max_retries ->
  SiMEM._http_get_with_retries srv url max_retries backoff w =
  (Ok r, World (gets w ++ [url]) (sleeps w) (logs w) (files w)).
Proof.
  intros Hs Hr Hmax. unfold SiMEM._http_get_with_retries.
  destruct (Z.to_nat max_retries) as [|n] eqn:E; [lia|].
  by apply SimemRetryFacts.loop_2xx.
Qed.

End Extraction.

End CleanFacts.

Module PanelFacts.

(** Adding a column keeps what the frame had. *)
Lemma ensure_key_spec df must df' :
  Banrep.ensure_key df must = Ok df' ->
  nrows df' = nrows df
  /\ (exists added, data df' = data df ++ added
                    /\ Forall (fun cs : string * Series => cs.1 = must) added)
  /\ must ∈ columns df'.
Proof.
  unfold Banrep.ensure_key.
  destruct (mem must (columns df)) eqn:Hmem.
  - intros [= <-]. split; [done|]. split.
    + exists []. by rewrite app_nil_r.
    + by apply ListFacts.mem_spec.
  - assert (forall s, must ∈ columns (Banrep.add_column must s df)) as Hin.
    { intros s. unfold columns, Banrep.add_column. simpl. rewrite map_app.
      apply elem_of_app. right. left. }
    destruct (String.eqb must "value" && mem "OBS_VALUE" (columns df)) eqn:Hv.
    + apply andb_true_iff in Hv as [Hv _]. apply String.eqb_eq in Hv. subst must.
      destruct (getitem "OBS_VALUE" _ df) as [s|e]; [|done]. simpl.
      intros [= <-]. split; [done|]. split; [|apply Hin].
      exists [("value", s)]. split; [done|]. by repeat constructor.
    + intros [= <-]. split; [done|]. split; [|apply Hin].
      eexists. split; [reflexivity|]. by repeat constructor.
Qed.

(** The loop over the key columns only appends columns, all of them key
    columns, and leaves every key it went through in the frame. *)
Lemma ensure_keys_spec keys : forall df df',
  foldl (fun acc must => df1 ← acc; Banrep.ensure_key df1 must) (Ok df) keys
    = Ok df' ->
  nrows df' = nrows df
  /\ (exists added, data df' = data df ++ added
                    /\ Forall (fun cs : string * Series => cs.1 ∈ keys) added)
  /\ Forall (fun c => c ∈ columns df') keys.
Proof.
  induction keys as [|k keys IH]; intros df df'.
  - simpl. intros [= <-]. split; [done|]. split; [|done].
    exists []. by rewrite app_nil_r.
  - simpl. destruct (Banrep.ensure_key df k) as [df1|e] eqn:E1.
    2:{ assert (forall e0 l,
                  foldl (fun acc must => df1 ← acc; Banrep.ensure_key df1 must)
                        (Raise e0) l = Raise e0) as Hr.
        { intros e0 l. induction l as [|x l IHl]; [done|]. simpl. exact IHl. }
        by rewrite Hr. }
    intros Hrest. apply IH in Hrest as (Hn & (added2 & Hd2 & Ha2) & Hall).
    apply ensure_key_spec in E1 as (Hn1 & (added1 & Hd1 & Ha1) & Hk).
    split; [congruence|]. split.
    + exists (added1 ++ added2). rewrite Hd2, Hd1, app_assoc. split; [done|].
      apply Forall_app. split.
      * eapply Forall_impl; [exact Ha1|]. intros cs ->. left.
      * eapply Forall_impl; [exact Ha2|]. intros cs Hcs. by right.
    + apply Forall_cons. split; [|done].
      unfold columns in *. rewrite Hd2, map_app. apply elem_of_app. by left.
Qed.

(** With distinct column names the loop body never fails, and the names
    stay distinct. *)
Lemma ensure_key_total df must :
  NoDup (columns df) ->
  exists df', Banrep.ensure_key df must = Ok df' /\ NoDup (columns df').
Proof.
  intros Hnd. unfold Banrep.ensure_key.
  destruct (mem must (columns df)) eqn:Hmem; [by exists df|].
  assert (forall s, NoDup (columns (Banrep.add_column must s df))) as Hadd.
  { intros s. unfold columns, Banrep.add_column. simpl. rewrite map_app.
    apply NoDup_app. split; [done|]. split; [|apply NoDup_singleton].
    intros x Hx Hc. apply list_elem_of_singleton in Hc as ->.
    apply ListFacts.mem_spec in Hx. simpl in Hx. unfold columns in Hmem. congruence. }
  destruct (String.eqb must "value" && mem "OBS_VALUE" (columns df)) eqn:Hv.
  - apply andb_true_iff in Hv as [Hv Hobs]. apply String.eqb_eq in Hv. subst must.
    apply ListFacts.mem_spec in Hobs.
    destruct (SubsetFacts.named_unique "OBS_VALUE" df Hnd Hobs) as (s & Hs & _).
    unfold getitem. rewrite Hs. simpl. eexists. split; [reflexivity|apply Hadd].
  - eexists. split; [reflexivity|apply Hadd].
Qed.

Lemma ensure_keys_total keys : forall df,
  NoDup (columns df) ->
  exists df',
    foldl (fun acc must => df1 ← acc; Banrep.ensure_key df1 must) (Ok df) keys
    = Ok df'.
Proof.
  induction keys as [|k keys IH]; intros df Hnd; [by exists df|].
  simpl. destruct (ensure_key_total df k Hnd) as (df1 & -> & Hnd1).
  by apply IH.
Qed.

End PanelFacts.

Module FlowFacts.

(** The names of the columns after [df[c] = v]. *)
Lemma columns_set_column c v df :
  columns (Banrep.set_column c v df) =
  if mem c (columns df) then columns df else columns df ++ [c].
Proof.
  unfold Banrep.set_column, columns.
  destruct (mem c (map fst (data df))); simpl.
  - rewrite map_map. apply map_ext. intros [k s]. simpl.
    by destruct (String.eqb k c).
  - by rewrite map_app.
Qed.

Lemma set_column_NoDup c v df :
  NoDup (columns df) -> NoDup (columns (Banrep.set_column c v df)).
Proof.
  intros Hnd. rewrite columns_set_column.
  destruct (mem c (columns df)) eqn:E; [done|].
  apply NoDup_app. split; [done|]. split; [|apply NoDup_singleton].
  intros x Hx Hc. apply list_elem_of_singleton in Hc as ->.
  apply ListFacts.mem_spec in Hx. congruence.
Qed.

Lemma mem_filter (P : string -> Prop) `{!forall x, Decision (P x)} c l :
  P c -> mem c (filter P l) = mem c l.
Proof.
  intros Hp. destruct (mem c l) eqn:E.
  - apply ListFacts.mem_spec, list_elem_of_filter. split; [done|].
    by apply ListFacts.mem_spec.
  - by apply LoadFacts.mem_filter_absent.
Qed.

Lemma filter_on (P Q : string -> Prop)
      `{!forall x, Decision (P x)} `{!forall x, Decision (Q x)}
      (l : list string) :
  (forall x, x ∈ l -> P x <-> Q x) -> filter P l = filter Q l.
Proof.
  induction l as [|x l IH]; intros Hl; [done|].
  rewrite !filter_cons.
  rewrite IH by (intros y Hy; apply Hl; by right).
  destruct (decide (P x)) as [Hp|Hp], (decide (Q x)) as [Hq|Hq]; try done.
  - exfalso. apply Hq, Hl; [left|done].
  - exfalso. apply Hp, Hl; [left|done].
Qed.

End FlowFacts.

(* ================================================================== *)
(** * Further properties of the loaders *)
(* ================================================================== *)

(** ** Dane: fetching and searching *)

(** X1. [_retry_get] issues between one and five GET calls, all for the
    same URL, sleeps at most once per GET and does not touch the disk;
    a response it returns never has a status from 400 to 599. (A status of
    600 or more is neither retried nor raised, so such a response can be
    returned after the fifth attempt.) *)
Theorem retry_get_gives_up_after_five (srv : server) (url : string) (w : world) :
  let res := Dane._retry_get srv url w in
  exists k,
    (1 <= k <= 5)%nat
    /\ gets res.2 = gets w ++ replicate k url
    /\ (List.length (sleeps res.2) <= List.length (sleeps w) + k)%nat
    /\ files res.2 = files w
    /\ forall r, res.1 = Ok r -> status_code r < 400 \/ 600 <= status_code r.
Proof.
  intros res. subst res. unfold Dane._retry_get.
  destruct (RetryFacts.retry_loop_bounded srv url 5 1 None w ltac:(lia))
    as (k & Hk & Hk0 & Hrest).
  exists k. split; [|exact Hrest]. specialize (Hk0 ltac:(done)). lia.
Qed.

(** X2. When the first [k] answers (k < 5) have a retried status (429,
    500, 502, 503, 504) and the next one a status below 400, [_retry_get]
    returns that response after [k + 1] GET calls, having slept 1, 2, 4,
    ... seconds, one sleep and one warning per retried answer. *)
Theorem retry_get_returns_after_retries
        (srv : server) (url : string) (w : world) (k : nat) (r : response) :
  (k < 5)%nat ->
  (forall i, (i < k)%nat ->
     exists ri, srv (List.length (gets w) + i)%nat url = Answers ri
                /\ Dane.retried (status_code ri)) ->
  srv (List.length (gets w) + k)%nat url = Answers r ->
  status_code r < 400 ->
  exists lg,
    Dane._retry_get srv url w =
    (Ok r,
     World (gets w ++ replicate (S k) url)
           (sleeps w ++ Dane.doubling 1 k) (logs w ++ lg) (files w))
    /\ List.length lg = k.
Proof.
  intros Hk Hpre Hr Hlt. unfold Dane._retry_get.
  by apply RetryFacts.loop_retries_then_success.
Qed.

Lemma retry_get_returns_after_retries_witness :
  exists lg,
    Dane._retry_get (flaky 2 503) "u" world0 =
    (Ok (Response 200 "{}" (Some (JMap [])) []),
     World ([] ++ replicate 3 "u") ([] ++ Dane.doubling 1 2) ([] ++ lg) ∅)
    /\ List.length lg = 2%nat.
Proof.
  apply (retry_get_returns_after_retries (flaky 2 503) "u" world0 2
           (Response 200 "{}" (Some (JMap [])) [])).
  - lia.
  - intros i Hi. exists (Response 503 "busy" None []). split.
    + simpl. unfold flaky. by destruct (Nat.ltb_spec i 2); [|lia].
    + unfold Dane.retried. simpl. rewrite !elem_of_cons. lia.
  - reflexivity.
  - simpl. lia.
Defined.


(** X4. With a positive [limit_studies], [search_catalog] returns at most
    that many study ids, whatever values the catalogue gives as ids. *)
Theorem search_catalog_respects_limit
        (srv : server) (urlencode : list (string * string) -> string)
        (q date_from date_to : option string)
        (page_size max_pages limit_studies : Z) (w : world) (ids : list json) :
  0 < limit_studies ->
  (Dane.search_catalog srv urlencode q date_from date_to
     page_size max_pages limit_studies w).1 = Ok ids ->
  Z.of_nat (List.length ids) <= limit_studies.
Proof.
  intros Hpos Hres. unfold Dane.search_catalog in Hres.
  destruct (SearchFacts.search_loop_bounded srv urlencode (Z.to_nat max_pages)
              0 0 [] q date_from date_to page_size limit_studies w)
    as (urls & _ & _ & _ & Hout).
  apply Hout; try done.
Qed.

Lemma search_catalog_respects_limit_witness :
  (Dane.search_catalog three_studies (fun _ => "") (Some "censo") None None
     100 10 2 world0).1 = Ok [JNum 1; JStr "2"]
  /\ Z.of_nat (List.length [JNum 1; JStr "2"]) <= 2.
Proof.
  assert ((Dane.search_catalog three_studies (fun _ => "") (Some "censo") None
             None 100 10 2 world0).1 = Ok [JNum 1; JStr "2"]) as Hrun.
  { vm_compute. reflexivity. }
  split; [exact Hrun|].
  apply (search_catalog_respects_limit three_studies (fun _ => "")
           (Some "censo") None None 100 10 2 world0 [JNum 1; JStr "2"]).
  - lia.
  - exact Hrun.
Defined.

(** X5. A run of [run_extraction] that returns has at least one study
    row: with neither study ids nor a search that finds a study it raises
    instead of returning empty tables. *)
Theorem run_extraction_returns_a_study
        (srv : server) (urlencode : list (string * string) -> string)
        (py_repr : json -> string)
        (study_row var_row : Type)
        (parse_study : json -> json -> result study_row)
        (parse_variables : json -> json -> result (list var_row))
        (regex : Type) (re_compile : string -> result regex)
        (selected : Dane.var_filters regex -> var_row -> result bool)
        (q date_from date_to : option string) (sid_list : list Z)
        (limit_studies page_size max_pages : Z)
        (var_names : option (list string))
        (var_name_regex var_label_regex : option string)
        (file_ids_filter : option (list Z)) (w : world)
        (vars : list var_row) (studies : list study_row) :
  (Dane.run_extraction srv urlencode py_repr study_row var_row parse_study
     parse_variables regex re_compile selected q sid_list date_from date_to
     limit_studies page_size max_pages
     var_names var_name_regex var_label_regex file_ids_filter w).1
  = Ok (vars, studies) ->
  (0 < List.length studies)%nat.
Proof.
  intros Hres.
  destruct (Dane.run_extraction srv urlencode py_repr study_row var_row
              parse_study parse_variables regex re_compile selected q sid_list
              date_from date_to limit_studies page_size max_pages
              var_names var_name_regex var_label_regex file_ids_filter w)
    as [res w'] eqn:E.
  simpl in Hres. subst res.
  by eapply RunFacts.run_extraction_rows.
Qed.

Lemma run_extraction_returns_a_study_witness :
  (search_sample world0).1 = Ok ([JNum 1; JStr "2"], [JNum 1; JStr "2"])
  /\ (0 < List.length [JNum 1; JStr "2"])%nat.
Proof.
  assert ((search_sample world0).1 = Ok ([JNum 1; JStr "2"], [JNum 1; JStr "2"]))
    as Hrun.
  { vm_compute. reflexivity. }
  split; [exact Hrun|].
  apply (run_extraction_returns_a_study three_studies (fun _ => "") (fun _ => "")
           json json (fun _ sid => Ok sid) (fun _ sid => Ok [sid])
           string compile_sample (fun _ _ => Ok true)
           (Some "censo") None None [] 2 100 10 None None None None world0
           [JNum 1; JStr "2"] [JNum 1; JStr "2"]).
  exact Hrun.
Defined.

(** X6. With study ids given, [run_extraction] never asks the catalogue:
    every GET it issues is for the metadata export of a study of the list,
    in the order of the list, at most five per study. *)
Theorem run_extraction_requests_only_the_given_studies
        (srv : server) (urlencode : list (string * string) -> string)
        (py_repr : json -> string)
        (study_row var_row : Type)
        (parse_study : json -> json -> result study_row)
        (parse_variables : json -> json -> result (list var_row))
        (regex : Type) (re_compile : string -> result regex)
        (selected : Dane.var_filters regex -> var_row -> result bool)
        (q date_from date_to : option string) (sid_list : list Z)
        (limit_studies page_size max_pages : Z)
        (var_names : option (list string))
        (var_name_regex var_label_regex : option string)
        (file_ids_filter : option (list Z)) (w : world) :
  sid_list <> [] ->
  exists urls,
    gets (Dane.run_extraction srv urlencode py_repr study_row var_row parse_study
            parse_variables regex re_compile selected q sid_list date_from
            date_to limit_studies page_size max_pages
            var_names var_name_regex var_label_regex file_ids_filter w).2
    = gets w ++ urls
    /\ (List.length urls <= List.length sid_list * 5)%nat
    /\ Forall (fun u => exists sid, sid ∈ sid_list
                                    /\ u = Dane.export_url py_repr (JNum sid))
              urls.
Proof.
  intros Hne. destruct sid_list as [|sid rest]; [done|].
  rewrite DaneFacts.run_extraction_sid_list.
  destruct (Dane.compile_filters regex re_compile var_names var_name_regex
              var_label_regex file_ids_filter) as [f|e].
  - destruct (RunFacts.extract_all_gets srv py_repr study_row var_row
                parse_study parse_variables regex selected f
                (map JNum (sid :: rest)) ([], []) w) as (urls & Hg & Hl & Hall).
    exists urls. split; [done|]. rewrite length_map in Hl. split; [done|].
    eapply Forall_impl; [exact Hall|].
    intros u (j & Hin & ->). apply list_elem_of_fmap in Hin as (n & -> & Hn).
    by exists n.
  - exists []. simpl. rewrite app_nil_r. by repeat split; [lia|].
Qed.

Lemma run_extraction_requests_only_the_given_studies_witness :
  exists urls,
    gets (run_sample [1; 2; 3] world0).2 = gets world0 ++ urls
    /\ (List.length urls <= List.length [1; 2; 3] * 5)%nat
    /\ Forall (fun u => exists sid, sid ∈ [1; 2; 3]
                                    /\ u = Dane.export_url (fun _ => "") (JNum sid))
              urls.
Proof.
  apply (run_extraction_requests_only_the_given_studies study_2_missing
           (fun _ => "") (fun _ => "") json json (fun _ sid => Ok sid)
           (fun _ sid => Ok [sid]) string compile_sample (fun _ _ => Ok true)
           None None None [1; 2; 3] 25 100 10 None None None None world0).
  discriminate.
Defined.

(** X7. [_get] with a default that is not an object: it returns the value
    found by following the keys through nested objects when every step is
    an object that has the key and the value found is not null, and the
    default in every other case (a missing key, a null or a value that is
    not an object on the way, a null at the end). *)
Theorem get_follows_the_path (d : json) (keys : list string) (dflt : json) :
  is_dict dflt = false ->
  Dane._get d keys dflt =
  match Dane.at_path d keys with
  | Some JNull | None => dflt
  | Some v => v
  end.
Proof.
  revert d. induction keys as [|k keys IH]; intros d Hd.
  - simpl. by destruct d.
  - simpl. destruct d as [| | | | |m]; try done.
    destruct (dict_get m k) as [v|]; simpl.
    + by apply IH.
    + by apply GetFacts.get_from_default.
Qed.

Lemma get_follows_the_path_witness :
  Dane._get nested_title ["study_desc"; "title_statement"; "title"] (JStr "") =
  match Dane.at_path nested_title ["study_desc"; "title_statement"; "title"] with
  | Some JNull | None => JStr ""
  | Some v => v
  end.
Proof.
  apply (get_follows_the_path nested_title
           ["study_desc"; "title_statement"; "title"] (JStr "")).
  reflexivity.
Defined.

(** ** SiMEM: fetching *)

(** X8. [_http_get_with_retries] issues at most [max_retries] GET calls,
    all for the same URL, and does not touch the disk; what it returns is
    the response of its last GET, and that response is 2xx. *)
Theorem http_get_returns_only_2xx
        (srv : server) (url : string) (max_retries backoff : Z) (w : world) :
  let res := SiMEM._http_get_with_retries srv url max_retries backoff w in
  exists k,
    (k <= Z.to_nat max_retries)%nat
    /\ gets res.2 = gets w ++ replicate k url
    /\ files res.2 = files w
    /\ forall r, res.1 = Ok r ->
         200 <= status_code r < 300
         /\ exists j, k = S j /\ srv (List.length (gets w) + j)%nat url = Answers r.
Proof.
  intros res. subst res. unfold SiMEM._http_get_with_retries.
  apply SimemRetryFacts.http_loop_bounded.
Qed.

(** X9. When the first [k] attempts fail (any response that is not 2xx,
    or an exception of the GET) and attempt [k + 1] of the [max_retries]
    gets a 2xx response, that response is returned after [k + 1] GET
    calls and the sleeps [backoff * 1, ..., backoff * k]. *)
Theorem http_get_returns_first_2xx
        (srv : server) (url : string) (max_retries backoff : Z) (w : world)
        (k : nat) (r : response) :
  Z.of_nat k < max_retries ->
  0 <= backoff ->
  (forall i, (i < k)%nat ->
     SiMEM.failure_of (srv (List.length (gets w) + i)%nat url) <> None) ->
  srv (List.length (gets w) + k)%nat url = Answers r ->
  200 <= status_code r < 300 ->
  SiMEM._http_get_with_retries srv url max_retries backoff w =
  (Ok r,
   World (gets w ++ replicate (S k) url)
         (sleeps w ++ map (fun i => backoff * (1 + Z.of_nat i)) (seq 0 k))
         (logs w) (files w)).
Proof.
  intros Hk Hb Hpre Hr H2. unfold SiMEM._http_get_with_retries.
  rewrite (SimemRetryFacts.loop_fails_then_2xx srv url max_retries backoff k
             (Z.to_nat max_retries) 1 None w r); try done; try lia.
  do 3 f_equal.
  assert (forall n attempt, attempt + Z.of_nat n <= max_retries ->
            SiMEM.delays n attempt max_retries backoff =
            map (fun i => backoff * (attempt + Z.of_nat i)) (seq 0 n)) as Hd.
  { induction n as [|n IH]; intros attempt Ha; [done|].
    cbn [SiMEM.delays]. destruct (Z.ltb_spec attempt max_retries); [|lia].
    rewrite IH by lia. rewrite <- cons_seq, <- seq_shift. simpl.
    rewrite map_map.
    f_equal; [f_equal; lia|]. apply map_ext. intros i. f_equal. lia. }
  apply Hd. lia.
Qed.

Lemma http_get_returns_first_2xx_witness :
  SiMEM._http_get_with_retries (flaky 2 404) "u" 3 2 world0 =
  (Ok (Response 200 "{}" (Some (JMap [])) []),
   World ([] ++ replicate 3 "u")
         ([] ++ map (fun i => 2 * (1 + Z.of_nat i)) (seq 0 2)) [] ∅).
Proof.
  apply (http_get_returns_first_2xx (flaky 2 404) "u" 3 2 world0 2
           (Response 200 "{}" (Some (JMap [])) [])).
  - lia.
  - lia.
  - intros i Hi. simpl. unfold flaky.
    destruct (Nat.ltb_spec i 2); [|lia]. simpl. discriminate.
  - reflexivity.
  - simpl. lia.
Defined.

(** ** SiMEM: names and parameters *)

(** X10. A name produced by [_snake_case] has no upper-case letter and no
    white space, hyphen or slash. *)
Theorem snake_case_alphabet (name : string) :
  Names.all_chars (fun c => negb (is_upper c) && negb (SiMEM.is_sep c))
                  (SiMEM._snake_case name) = true.
Proof.
  unfold SiMEM._snake_case.
  apply NameFacts.lower_chars, NameFacts.halve_underscores_chars,
    NameFacts.join_seps_no_sep.
Qed.

(** X11. [_snake_case] leaves a name alone that is already in snake case:
    lower-case letters, digits and single underscores. Columns and filters
    may therefore be named in their final form when [to_snake_case] is on. *)
Theorem snake_case_keeps_canonical_names (name : string) :
  Names.canonical name = true -> SiMEM._snake_case name = name.
Proof.
  unfold Names.canonical. rewrite andb_true_iff. intros [Hchars Hunder].
  assert (Names.all_chars (fun c => negb (is_upper c)) name = true) as Hup.
  { eapply NameFacts.all_chars_impl; [|exact Hchars].
    intros c Hc. apply NameFacts.upper_not_snake in Hc as [-> _]. done. }
  assert (Names.all_chars (fun c => negb (SiMEM.is_sep c)) name = true) as Hsep.
  { eapply NameFacts.all_chars_impl; [|exact Hchars].
    intros c Hc. apply NameFacts.upper_not_snake in Hc as [_ ->]. done. }
  unfold SiMEM._snake_case.
  rewrite NameFacts.split_camel_id by done.
  rewrite NameFacts.join_seps_id by done.
  rewrite NameFacts.halve_underscores_id by done.
  by apply NameFacts.lower_id.
Qed.

Lemma snake_case_keeps_canonical_names_witness :
  SiMEM._snake_case "fecha_hora_2" = "fecha_hora_2".
Proof.
  apply (snake_case_keeps_canonical_names "fecha_hora_2").
  vm_compute. reflexivity.
Defined.

(** X12. [_ensure_values_list] never returns an empty list, and every
    item it returns is not empty and has no white space at either end. *)
Theorem ensure_values_list_items (values : option (string + list string)) :
  match SiMEM._ensure_values_list values with
  | None => True
  | Some items =>
      items <> []
      /\ Forall (fun x => nonempty x = true /\ Names.stripped x = true) items
  end.
Proof.
  assert (forall l : list string,
            Forall (fun x => nonempty x = true /\ Names.stripped x = true)
                   (filter (fun x => nonempty x = true) (map strip l))) as Hitems.
  { intros l. apply Forall_forall. intros x Hx.
    apply list_elem_of_filter in Hx as [Hne Hx]. split; [done|].
    apply ListFacts.elem_of_map in Hx as (y & -> & _).
    apply NameFacts.strip_stripped. }
  unfold SiMEM._ensure_values_list.
  destruct values as [[s|l]|]; [| |done].
  - specialize (Hitems (SiMEM.split_commas EmptyString s)).
    destruct (filter _ _); [done|]. by split.
  - specialize (Hitems l). destruct (filter _ _); [done|]. by split.
Qed.

(** ** SiMEM: client-side filters *)

(** X13. The client-side filters only remove rows: on a table whose
    columns all have one cell per row, a table that
    [_apply_client_filters] returns has the columns of the input, in the
    same order, and its rows are rows of the input, in the same order. *)
Theorem client_filters_only_drop_rows
        (L : lib) (df : DataFrame) (eq_filters : list (string * list string))
        (to_snake : bool) (w : world) (df' : DataFrame) :
  Frames.well_formed df ->
  (SiMEM._apply_client_filters L df eq_filters to_snake w).1 = Ok df' ->
  columns df' = columns df
  /\ rows df' `sublist_of` rows df
  /\ (nrows df' <= nrows df)%nat.
Proof.
  intros Hwf Hres.
  destruct (SiMEM._apply_client_filters L df eq_filters to_snake w)
    as [res w'] eqn:E.
  simpl in Hres. subst res. rewrite FilterFacts.filters_foldl in E.
  assert (forall w0 df0 w1, (mret df : M DataFrame) w0 = (Ok df0, w1) ->
            columns df0 = columns df /\ Frames.well_formed df0
            /\ rows df0 `sublist_of` rows df) as Hstart.
  { by intros ? ? ? [= <- <-]. }
  destruct (FilterFacts.filters_rows L to_snake df eq_filters (mret df)
              Hstart w df' w' E) as (Hc & _ & Hsub).
  split; [exact Hc|]. split; [exact Hsub|].
  apply sublist_length in Hsub. unfold rows in Hsub.
  by rewrite !length_map, !length_seq in Hsub.
Qed.

Lemma client_filters_only_drop_rows_witness :
  columns (mkDataFrame 1
             [("fecha", mkSeries DString [Str "2025-01-11"]);
              ("valor", mkSeries DString [Str "2"])])
    = columns two_columns
  /\ rows (mkDataFrame 1
             [("fecha", mkSeries DString [Str "2025-01-11"]);
              ("valor", mkSeries DString [Str "2"])])
     `sublist_of` rows two_columns
  /\ (nrows (mkDataFrame 1
               [("fecha", mkSeries DString [Str "2025-01-11"]);
                ("valor", mkSeries DString [Str "2"])])
      <= nrows two_columns)%nat.
Proof.
  apply (client_filters_only_drop_rows Iso.L two_columns [("Valor", [" 2 "])]
           true world0).
  - repeat constructor.
  - vm_compute. reflexivity.
Defined.



(** X15. A filter on a column that the table does not have (under the
    name given, its snake-case form when [to_snake] is on, or the same
    name up to case) is skipped: when no filter names a column of the
    table, [_apply_client_filters] returns the table unchanged and prints
    one warning per filter. *)
Theorem client_filters_skip_unknown_columns
        (L : lib) (df : DataFrame) (eq_filters : list (string * list string))
        (to_snake : bool) (w : world) :
  Forall (fun f => SiMEM.effective_column f.1 to_snake df = None) eq_filters ->
  SiMEM._apply_client_filters L df eq_filters to_snake w =
  (Ok df,
   World (gets w) (sleeps w)
     (logs w ++
        map (fun f : string * list string =>
               (STDOUT, "[WARN] Filtro ignorado: columna '%s' no encontrada.",
                [AStr f.1])) eq_filters)
     (files w)).
Proof.
  intros Hall. rewrite FilterFacts.filters_foldl.
  rewrite (FilterFacts.filters_unknown L to_snake df eq_filters (mret df) []);
    [done| |done].
  intros w0. munfold. by rewrite app_nil_r; destruct w0.
Qed.

Lemma client_filters_skip_unknown_columns_witness :
  SiMEM._apply_client_filters Iso.L two_columns [("Zona", ["x"])] true world0 =
  (Ok two_columns,
   World [] []
     ([] ++ map (fun f : string * list string =>
                   (STDOUT, "[WARN] Filtro ignorado: columna '%s' no encontrada.",
                    [AStr f.1])) [("Zona", ["x"])])
     ∅).
Proof.
  apply (client_filters_skip_unknown_columns Iso.L two_columns [("Zona", ["x"])]
           true world0).
  repeat constructor.
Defined.



(** ** SiMEM: the whole extraction *)

(** X17. What [fetch_dataset_and_clean] does with a 2xx answer to its
    first GET, by the body. A body that is not JSON, or an object whose
    success flag is missing or falsy, is an error: [RuntimeError] after
    that one GET. A body that is JSON but not an object is an
    [AttributeError]. An object with a truthy success flag and no result
    block (missing or falsy) is not an error: the function returns an empty
    table, no row and no column, after that one GET, whatever cleaning and
    filters are configured. *)
Theorem fetch_rejects_bad_payload
        (srv : server) (L : lib) (urlencode : list (string * string) -> string)
        (p : SiMEM.params) (w : world) (r : response) :
  let url := SiMEM._build_query urlencode p
               (SiMEM._ensure_values_list (SiMEM.values_ p)) in
  let run := SiMEM.fetch_dataset_and_clean srv L urlencode p w in
  let after_get :=
    World (gets w ++ [url]) (sleeps w)
          (logs w ++ [(STDOUT, "[INFO] GET %s", [AStr url])]) (files w) in
  srv (List.length (gets w)) url = Answers r ->
  200 <= status_code r < 300 ->
  0 < SiMEM.max_retries p ->
  match body r with
  | None => exists msg, run = (Raise (RuntimeError msg), after_get)
  | Some (JMap m) =>
      if SiMEM.json_truthy (default JNull (dict_get m "success"))
      then SiMEM.json_truthy (default JNull (dict_get m "result")) = false ->
           exists res w',
             run = (Ok res, w')
             /\ SiMEM.raw_json res = JMap m
             /\ SiMEM.df res = mkDataFrame 0 []
             /\ gets w' = gets w ++ [url]
             /\ sleeps w' = sleeps w
             /\ files w' = files w
      else exists msg, run = (Raise (RuntimeError msg), after_get)
  | Some _ =>
      run = (Raise (AttributeError "object has no attribute 'get'"), after_get)
  end.
Proof.
  intros url run after_get Hs Hr Hmax. subst run after_get.
  unfold SiMEM.fetch_dataset_and_clean. fold url. munfold. munfold.
  rewrite (CleanFacts.first_answer srv url _ _ _ r); try done. cbn beta iota.
  destruct (body r) as [[| | | | |m]|]; try done; [|by eexists].
  change (SiMEM.json_get (JMap m) "success")
    with (Ok (default JNull (dict_get m "success")) : result json).
  cbn beta iota.
  destruct (SiMEM.json_truthy (default JNull (dict_get m "success")));
    cbn [negb]; cbn beta iota; [|by eexists].
  intros Hres.
  change (SiMEM.json_get (JMap m) "result")
    with (Ok (default JNull (dict_get m "result")) : result json).
  cbn beta iota.
  assert (SiMEM.json_or (default JNull (dict_get m "result")) (JMap [])
          = JMap []) as ->.
  { unfold SiMEM.json_or. by rewrite Hres. }
  change (SiMEM.json_get (JMap []) "records") with (Ok JNull : result json).
  change (SiMEM.json_get (JMap []) "columns") with (Ok JNull : result json).
  cbn beta iota.
  change (SiMEM.json_or JNull (JList [])) with (JList []).
  change (SiMEM.records_of_json (JList []))
    with (Ok [] : result (list (list (string * json)))).
  change (SiMEM.json_truthy (JList [])) with false.
  cbn beta iota.
  change (SiMEM.flatten L []) with (mkDataFrame 0 []).
  assert (SiMEM._fallback_infer_types L (mkDataFrame 0 []) (SiMEM.to_snake_case p)
            (SiMEM.strip_text p) = Ok (mkDataFrame 0 [])) as ->.
  { unfold SiMEM._fallback_infer_types. simpl.
    by destruct (SiMEM.to_snake_case p). }
  cbn beta iota.
  change (empty (mkDataFrame 0 [])) with true.
  rewrite !andb_false_r.
  set (w1 := World _ _ _ _).
  match goal with
  | |- context [let (_, _) := ?x in _] =>
      assert (exists w2, x = (Ok (mkDataFrame 0 []), w2)
                         /\ gets w2 = gets w1 /\ sleeps w2 = sleeps w1
                         /\ files w2 = files w1)
        as (w2 & -> & Hg2 & Hs2 & Hf2)
  end.
  { destruct (SiMEM.client_filters p) as [|f fs]; [by exists w1|].
    eexists. rewrite FilterFacts.filters_foldl.
    rewrite (FilterFacts.filters_unknown L (SiMEM.to_snake_case p)
               (mkDataFrame 0 []) (f :: fs) _ []).
    - by repeat split.
    - intros w0. munfold. rewrite app_nil_r. by destruct w0.
    - apply Forall_forall. intros f0 _. unfold SiMEM.effective_column.
      by destruct (SiMEM.to_snake_case p). }
  cbn beta iota.
  match goal with
  | |- context [let (_, _) := ?x in _] =>
      assert (exists w3, x = (Ok (mkDataFrame 0 []), w3)
                         /\ gets w3 = gets w2 /\ sleeps w3 = sleeps w2
                         /\ files w3 = files w2)
        as (w3 & -> & Hg3 & Hs3 & Hf3)
  end.
  { assert (exists w3,
              SiMEM._apply_client_date_filter L (mkDataFrame 0 [])
                (SiMEM.client_date_filter p) (SiMEM.to_snake_case p) w2
              = (Ok (mkDataFrame 0 []), w3)
              /\ gets w3 = gets w2 /\ sleeps w3 = sleeps w2 /\ files w3 = files w2)
      as Hfilter.
    { unfold SiMEM._apply_client_date_filter. munfold.
      destruct (truthy (SiMEM.date_column (SiMEM.client_date_filter p)))
        as [col|]; [|by exists w2].
      assert (SiMEM.effective_column col (SiMEM.to_snake_case p)
                (mkDataFrame 0 []) = None) as ->.
      { unfold SiMEM.effective_column. by destruct (SiMEM.to_snake_case p). }
      by eexists. }
    destruct (truthy (SiMEM.start (SiMEM.client_date_filter p))); [done|].
    destruct (truthy (SiMEM.end_ (SiMEM.client_date_filter p))); [done|].
    by exists w2. }
  cbn beta iota.
  match goal with
  | |- context [let (_, _) := ?x in _] =>
      assert (exists w4, x = (Ok (mkDataFrame 0 []), w4)
                         /\ gets w4 = gets w3 /\ sleeps w4 = sleeps w3
                         /\ files w4 = files w3)
        as (w4 & -> & Hg4 & Hs4 & Hf4)
  end.
  { unfold SiMEM.step_subset. munfold.
    destruct (SiMEM.subset_columns p) as [|c cs]; [by exists w3|].
    assert (forall l : list string,
              filter (fun c0 => mem c0 (columns (mkDataFrame 0 [])) = true) l = [])
      as ->.
    { induction l as [|x l IH]; [done|]. by rewrite filter_cons_False. }
    destruct (filter _ _); by eexists. }
  cbn beta iota. eexists _, w4. split; [reflexivity|].
  cbn [SiMEM.raw_json SiMEM.df].
  rewrite Hg4, Hg3, Hg2, Hs4, Hs3, Hs2, Hf4, Hf3, Hf2. by subst w1.
Qed.

Lemma fetch_rejects_bad_payload_witness :
  (exists msg,
     SiMEM.fetch_dataset_and_clean (flaky 0 0) Iso.L (fun _ => "") sample_params
       world0 =
     (Raise (RuntimeError msg),
      World [SiMEM._build_query (fun _ => "") sample_params
               (SiMEM._ensure_values_list (SiMEM.values_ sample_params))]
            []
            [(STDOUT, "[INFO] GET %s",
              [AStr (SiMEM._build_query (fun _ => "") sample_params
                       (SiMEM._ensure_values_list
                          (SiMEM.values_ sample_params)))])]
            ∅))
  /\ (exists res w',
        SiMEM.fetch_dataset_and_clean success_without_result Iso.L (fun _ => "")
          sample_params world0 = (Ok res, w')
        /\ SiMEM.df res = mkDataFrame 0 []).
Proof.
  split.
  - apply (fetch_rejects_bad_payload (flaky 0 0) Iso.L (fun _ => "") sample_params
             world0 (Response 200 "{}" (Some (JMap [])) []));
      [reflexivity | simpl; lia | reflexivity].
  - destruct (fetch_rejects_bad_payload success_without_result Iso.L (fun _ => "")
                sample_params world0
                (Response 200 "" (Some (JMap [("success", JBool true)])) [])
                eq_refl ltac:(simpl; lia) eq_refl eq_refl)
      as (res & w' & Hrun & _ & Hdf & _).
    by exists res, w'.
Defined.

(** X18. The cleaning never invents rows: the table that
    [fetch_dataset_and_clean] returns has at most one row per record of
    [result.records] in the payload it returns as [raw_json]. *)
Theorem fetch_never_adds_rows
        (srv : server) (L : lib) (urlencode : list (string * string) -> string)
        (p : SiMEM.params) (w : world) (res : SiMEM.SimemResult) :
  (SiMEM.fetch_dataset_and_clean srv L urlencode p w).1 = Ok res ->
  exists r0 rec0 recs,
    SiMEM.json_get (SiMEM.raw_json res) "result" = Ok r0
    /\ SiMEM.json_get (SiMEM.json_or r0 (JMap [])) "records" = Ok rec0
    /\ SiMEM.records_of_json (SiMEM.json_or rec0 (JList [])) = Ok recs
    /\ (nrows (SiMEM.df res) <= List.length recs)%nat.
Proof.
  intros Hres.
  destruct (SiMEM.fetch_dataset_and_clean srv L urlencode p w) as [out w'] eqn:E.
  simpl in Hres. subst out. by eapply (proj1 (CleanFacts.clean_rows _ _ _ _ _ _ _ E)).
Qed.

Lemma fetch_never_adds_rows_witness :
  match (SiMEM.fetch_dataset_and_clean same_record_twice Iso.L (fun _ => "")
           sample_params world0).1 with
  | Ok res =>
      nrows (SiMEM.df res) = 1%nat
      /\ exists r0 rec0 recs,
           SiMEM.json_get (SiMEM.raw_json res) "result" = Ok r0
           /\ SiMEM.json_get (SiMEM.json_or r0 (JMap [])) "records" = Ok rec0
           /\ SiMEM.records_of_json (SiMEM.json_or rec0 (JList [])) = Ok recs
           /\ (nrows (SiMEM.df res) <= List.length recs)%nat
  | Raise _ => False
  end.
Proof.
  destruct (SiMEM.fetch_dataset_and_clean same_record_twice Iso.L (fun _ => "")
              sample_params world0).1 as [res|e] eqn:E.
  - split.
    + vm_compute in E. by injection E as <-.
    + exact (fetch_never_adds_rows same_record_twice Iso.L (fun _ => "")
               sample_params world0 res E).
  - vm_compute in E. discriminate.
Defined.

(** X19. With [to_snake_case] on, every column name of the table that
    [fetch_dataset_and_clean] returns is in the alphabet of [_snake_case]:
    it has no upper-case letter and no white space, hyphen or slash. *)
Theorem fetch_names_columns_in_snake_case
        (srv : server) (L : lib) (urlencode : list (string * string) -> string)
        (p : SiMEM.params) (w : world) (res : SiMEM.SimemResult) :
  SiMEM.to_snake_case p = true ->
  (SiMEM.fetch_dataset_and_clean srv L urlencode p w).1 = Ok res ->
  Forall (fun c =>
            Names.all_chars (fun ch => negb (is_upper ch) && negb (SiMEM.is_sep ch))
                            c = true)
         (columns (SiMEM.df res)).
Proof.
  intros Hsn Hres.
  destruct (SiMEM.fetch_dataset_and_clean srv L urlencode p w) as [out w'] eqn:E.
  simpl in Hres. subst out.
  pose proof (proj2 (CleanFacts.clean_rows _ _ _ _ _ _ _ E) Hsn) as Hnames.
  eapply Forall_impl; [exact Hnames|].
  intros c (c0 & ->). apply NameFacts.snake_case_chars.
Qed.

Lemma fetch_names_columns_in_snake_case_witness :
  match (SiMEM.fetch_dataset_and_clean same_record_twice Iso.L (fun _ => "")
           sample_params world0).1 with
  | Ok res =>
      columns (SiMEM.df res) = ["fecha"; "valor"]
      /\ Forall (fun c =>
                   Names.all_chars
                     (fun ch => negb (is_upper ch) && negb (SiMEM.is_sep ch)) c = true)
                (columns (SiMEM.df res))
  | Raise _ => False
  end.
Proof.
  destruct (SiMEM.fetch_dataset_and_clean same_record_twice Iso.L (fun _ => "")
              sample_params world0).1 as [res|e] eqn:E.
  - split.
    + vm_compute in E. by injection E as <-.
    + exact (fetch_names_columns_in_snake_case same_record_twice Iso.L
               (fun _ => "") sample_params world0 res eq_refl E).
  - vm_compute in E. discriminate.
Defined.

(** ** PWT: file names, download and cache *)

(** X20. [_safe_name] yields only letters, digits, underscores, hyphens
    and dots, so never a slash: the cache file of a label is always a
    direct child of [out_dir]; and a name that went through it is not
    changed by it again. *)
Theorem safe_name_is_safe_and_stable (name : string) :
  Names.all_chars PWT.is_safe (PWT._safe_name name) = true
  /\ Names.all_chars (fun c => negb (code c =? 47)) (PWT._safe_name name) = true
  /\ PWT._safe_name (PWT._safe_name name) = PWT._safe_name name.
Proof.
  assert (Names.all_chars PWT.is_safe (PWT._safe_name name) = true) as Hsafe
      by apply NameFacts.replace_unsafe_safe.
  split; [exact Hsafe|]. split.
  - eapply NameFacts.all_chars_impl; [|exact Hsafe]. apply NameFacts.safe_not_slash.
  - unfold PWT._safe_name at 1.
    rewrite NameFacts.strip_no_space.
    + by apply NameFacts.replace_unsafe_id.
    + eapply NameFacts.all_chars_impl; [|exact Hsafe].
      apply NameFacts.safe_not_space.
Qed.

(** X21. [download_file_by_id] issues one GET with [format=original] and
    at most one more, without the format; the second GET is issued exactly
    when the first is answered with a status from 400 to 599, and its
    outcome is then the result. A transport failure of the first GET is
    not retried. The disk is not touched. *)
Theorem download_tries_at_most_twice
        (srv : server) (base : string) (file_id : Z) (w : world) :
  let u1 := PWT.datafile_url base file_id true in
  let u2 := PWT.datafile_url base file_id false in
  let res := PWT.download_file_by_id srv base file_id w in
  files res.2 = files w
  /\ match srv (List.length (gets w)) u1 with
     | Fails e => res.1 = Raise e /\ gets res.2 = gets w ++ [u1]
     | Answers r =>
         if (400 <=? status_code r) && (status_code r <? 600)
         then gets res.2 = gets w ++ [u1; u2]
              /\ match srv (S (List.length (gets w))) u2 with
                 | Fails e => res.1 = Raise e
                 | Answers r' =>
                     res.1 = if (400 <=? status_code r') && (status_code r' <? 600)
                             then Raise (HTTPError (status_code r'))
                             else Ok (content r')
                 end
         else res.1 = Ok (content r) /\ gets res.2 = gets w ++ [u1]
     end.
Proof.
  intros u1 u2 res. subst res u1 u2.
  split; [apply DownloadFacts.download_keeps_disk|].
  unfold PWT.download_file_by_id. munfold.
  destruct (srv (List.length (gets w)) (PWT.datafile_url base file_id true))
    as [r|e]; simpl; [|done].
  destruct ((400 <=? status_code r) && (status_code r <? 600)); simpl; [|done].
  rewrite length_app. simpl.
  replace (List.length (gets w) + 1)%nat with (S (List.length (gets w))) by lia.
  destruct (srv (S (List.length (gets w))) (PWT.datafile_url base file_id false))
    as [r'|e']; simpl.
  - destruct ((400 <=? status_code r') && (status_code r' <? 600)); simpl;
      by rewrite <- app_assoc.
  - by rewrite <- app_assoc.
Qed.

(** X22. The cache round trip. Whenever the part of [load_pwt] that
    obtains the raw file returns, with the cache on or off, the file
    [out_dir / _safe_name(label)] holds exactly the bytes returned and no
    other file has changed; so a second run with the cache on, for a file
    whose checksum is absent or is the MD5 of those bytes, returns them
    again without any GET and without writing. *)
Theorem load_raw_round_trip
        (srv : server) (md5_hexdigest : list Byte.byte -> string)
        (base out_dir : string) (use_cache : bool) (meta : PWT.FileMeta)
        (w w' : world) (b : list Byte.byte) :
  PWT.load_raw srv md5_hexdigest base out_dir use_cache meta w = (Ok b, w') ->
  let path := PWT.path_join out_dir (PWT._safe_name (PWT.label meta)) in
  let again := PWT.load_raw srv md5_hexdigest base out_dir true meta w' in
  files w' !! path = Some b
  /\ (forall p, p <> path -> files w' !! p = files w !! p)
  /\ (match truthy (PWT.checksum meta) with
      | Some sum => md5_hexdigest b = sum
      | None => True
      end ->
      again.1 = Ok b /\ gets again.2 = gets w' /\ files again.2 = files w').
Proof.
  intros Hrun path again.
  assert (files w' !! path = Some b
          /\ forall p, p <> path -> files w' !! p = files w !! p) as [Hfile Hrest].
  { revert Hrun. unfold PWT.load_raw.
    assert (forall (w1 : world) (X : result (list Byte.byte) * world),
              files w1 = files w ->
              X = (let (r, w2) := PWT.download_file_by_id srv base (PWT.id meta) w1 in
                   match r with
                   | Ok a =>
                       (Ok a,
                        World (gets w2) (sleeps w2)
                          (logs w2 ++ [(INFO, "Guardado archivo crudo en %s",
                                        [AStr path])])
                          (<[path := a]> (files w2)))
                   | Raise e => (Raise e, w2)
                   end) ->
              X = (Ok b, w') ->
              files w' !! path = Some b
              /\ forall p, p <> path -> files w' !! p = files w !! p) as Hmiss.
    { intros w1 X Hw1 ->.
      pose proof (DownloadFacts.download_keeps_disk srv base (PWT.id meta) w1) as Hf.
      destruct (PWT.download_file_by_id srv base (PWT.id meta) w1) as [[b0|e] w2];
        [|done].
      simpl in Hf. intros [= <- <-]. simpl. rewrite Hf, Hw1. split.
      - apply lookup_insert_eq.
      - intros p Hp. by apply lookup_insert_ne. }
    destruct use_cache.
    2:{ munfold. simpl. eapply Hmiss; [|reflexivity]. done. }
    unfold PWT._maybe_use_cache. munfold. fold path.
    destruct (files w !! path) as [b0|] eqn:Hp; simpl.
    2:{ eapply Hmiss; [|reflexivity]. done. }
    destruct (truthy (PWT.checksum meta)) as [sum|]; simpl.
    - rewrite Hp. destruct (String.eqb (md5_hexdigest b0) sum); simpl.
      + rewrite Hp. intros [= <- <-]. by simpl.
      + eapply Hmiss; [|reflexivity]. done.
    - rewrite Hp. intros [= <- <-]. by simpl. }
  split; [exact Hfile|]. split; [exact Hrest|].
  intros Hsum. by apply DownloadFacts.load_raw_cached.
Qed.

Lemma load_raw_round_trip_witness :
  files (PWT.load_raw (always 200) md5_of_nothing "https://dataverse.nl" "pwt_out"
           false (pwt110 None) world0).2 !! "pwt_out/pwt110.dta" = Some []
  /\ (PWT.load_raw (always 200) md5_of_nothing "https://dataverse.nl" "pwt_out" true
        (pwt110 None)
        (PWT.load_raw (always 200) md5_of_nothing "https://dataverse.nl" "pwt_out"
           false (pwt110 None) world0).2).1 = Ok []
  /\ gets (PWT.load_raw (always 200) md5_of_nothing "https://dataverse.nl" "pwt_out"
             true (pwt110 None)
             (PWT.load_raw (always 200) md5_of_nothing "https://dataverse.nl"
                "pwt_out" false (pwt110 None) world0).2).2
     = ["https://dataverse.nl/api/access/datafile/7?format=original"].
Proof.
  pose proof (load_raw_round_trip (always 200) md5_of_nothing
                "https://dataverse.nl" "pwt_out" false (pwt110 None) world0
                (PWT.load_raw (always 200) md5_of_nothing "https://dataverse.nl"
                   "pwt_out" false (pwt110 None) world0).2
                [] eq_refl) as (Hfile & _ & Hagain).
  destruct (Hagain I) as (Hbytes & Hgets & _).
  split; [exact Hfile|]. split; [exact Hbytes|].
  rewrite Hgets. vm_compute. reflexivity.
Defined.

(** ** PWT and BanRep: the views *)

(** X23. In [vista_figura] the year columns ascend strictly and the rows
    are in the order of (iso, variable_code). *)
Theorem build_views_order
        (VAR_LABELS : gmap string string) (df : DataFrame)
        (v : wide PWT.entity Z) (wp : DataFrame) :
  PWT._build_views VAR_LABELS df = Ok (v, wp) ->
  Sorted Z.lt (labels v)
  /\ Sorted (fun a b => PWT.pair_leb (PWT.iso_code a) (PWT.iso_code b) = true)
            (index v).
Proof.
  intros Hv.
  destruct (ViewFacts.build_views_is_pivot _ _ _ _ Hv)
    as (long & _ & _ & _ & Hlabels & _).
  revert Hv. unfold PWT._build_views.
  destruct (PWT.melted VAR_LABELS df) as [long'|]; [|done].
  intros [= <- <-]. cbn [index labels] in *. split.
  - apply OrderFacts.Sorted_strict.
    + apply (OrderFacts.Sorted_impl (fun a b => (a <=? b) = true)).
      * intros a b Hab. lia.
      * apply OrderFacts.sort_by_sorted, OrderFacts.Z_leb_total.
    + rewrite Hlabels. apply PivotFacts.pivot_NoDup.
  - apply (OrderFacts.Sorted_map fst
             (fun a b => PWT.pair_leb (PWT.iso_code a) (PWT.iso_code b) = true)).
    apply (OrderFacts.sort_by_sorted
             (fun a b : PWT.entity * list cell =>
                PWT.pair_leb (PWT.iso_code a.1) (PWT.iso_code b.1))).
    intros a b. apply OrderFacts.pair_leb_total.
Qed.

Lemma build_views_order_witness :
  match PWT._build_views ∅ small_panel with
  | Ok (v, wp) =>
      labels v = [2019; 2020]
      /\ Sorted Z.lt (labels v)
      /\ Sorted (fun a b => PWT.pair_leb (PWT.iso_code a) (PWT.iso_code b) = true)
                (index v)
  | Raise _ => False
  end.
Proof.
  destruct (PWT._build_views ∅ small_panel) as [[v wp]|e] eqn:E.
  - split.
    + vm_compute in E. by injection E as <- _.
    + exact (build_views_order ∅ small_panel v wp E).
  - vm_compute in E. discriminate.
Defined.

(** X24. Every row of [vista_figura] is for a variable column of the
    panel, never for iso, country or year, and its variable_name is the
    entry of [VAR_LABELS] for the variable code, or the code itself when
    the table has no entry for it. *)
Theorem build_views_variable_names
        (VAR_LABELS : gmap string string) (df : DataFrame)
        (v : wide PWT.entity Z) (wp : DataFrame)
        (iso country code name : string) :
  PWT._build_views VAR_LABELS df = Ok (v, wp) ->
  (iso, country, code, name) ∈ index v ->
  name = default code (VAR_LABELS !! code)
  /\ code ∈ columns df
  /\ mem code ["iso"; "country"; "year"] = false.
Proof.
  intros Hv Hin.
  destruct (ViewFacts.build_views_is_pivot _ _ _ _ Hv)
    as (long & Hlong & _ & Hindex & _).
  rewrite Hindex in Hin.
  apply PivotFacts.pivot_index in Hin as (y & c & Hrow & _).
  by eapply LabelFacts.melted_key.
Qed.

Lemma build_views_variable_names_witness :
  "pop" = default "pop" ((∅ : gmap string string) !! "pop")
  /\ "pop" ∈ columns small_panel
  /\ mem "pop" ["iso"; "country"; "year"] = false.
Proof.
  apply (build_views_variable_names ∅ small_panel
           (mkWide [("COL", "Colombia", "pop", "pop")] [2019; 2020]
                   [[Obj (JNum 50); Obj (JNum 51)]])
           small_panel "COL" "Colombia" "pop" "pop").
  - vm_compute. reflexivity.
  - left.
Defined.

(** X25. In the wide table of [consolidate] the rows ascend by key (the
    dates in time order) and the series columns ascend by label. *)
Theorem consolidate_wide_order
        (L : lib) (df_long : DataFrame) (w : wide Banrep.key string) :
  Banrep.consolidate_wide L df_long = Ok w ->
  Sorted (fun a b => Banrep.key_leb a b = true) (index w)
  /\ Sorted (fun a b => String.leb a b = true) (labels w).
Proof.
  intros Hw. apply ViewFacts.consolidate_wide_is_pivot in Hw as (long & _ & ->).
  unfold pivot_table. cbn [index labels]. split.
  - apply OrderFacts.sort_by_sorted, OrderFacts.key_leb_total.
  - apply OrderFacts.sort_by_sorted, OrderFacts.string_leb_total.
Qed.

Lemma consolidate_wide_order_witness :
  Sorted (fun a b => Banrep.key_leb a b = true)
         (index (mkWide [inl 1] ["F :: s"] [[Obj (JNum 5)]] : wide Banrep.key string))
  /\ Sorted (fun a b => String.leb a b = true)
            (labels (mkWide [inl 1] ["F :: s"] [[Obj (JNum 5)]]
                     : wide Banrep.key string)).
Proof.
  apply (consolidate_wide_order Iso.L three_observations).
  vm_compute. reflexivity.
Defined.

(** ** BanRep: loading the flows *)

(** X26. In [consolidate], a flow whose CSV does not exist is skipped
    with a warning and the other flows are still loaded, in the order
    given; the run fails only when no flow at all could be loaded. (The
    reader of a CSV is taken as a function of the path.) *)
Theorem consolidate_skips_missing_files
        (list_available_flows : string -> M (list string))
        (load_one_flow_csv : string -> M DataFrame)
        (frame : string -> DataFrame)
        (out_dir : string) (l : list string) (w : world) :
  (forall p w0, load_one_flow_csv p w0 = (Ok (frame p), w0)) ->
  let csv fid :=
    Banrep.os_path_join (Banrep.os_path_join out_dir "data") (fid +:+ ".csv") in
  let flows := filter (fun f => nonempty f = true) (map strip l) in
  let found := filter (fun fid => is_Some (files w !! csv fid)) flows in
  let missing := filter (fun fid => ¬ is_Some (files w !! csv fid)) flows in
  flows <> [] ->
  Banrep.consolidate_frames list_available_flows load_one_flow_csv out_dir
    (Some l) w =
  (match found with
   | [] => Raise (RuntimeError
             "No se pudo cargar ningún CSV. ¿Ruta correcta y permisos?")
   | _ => Ok (map (fun fid => Banrep.flow_frame fid (frame (csv fid))) found)
   end,
   World (gets w) (sleeps w)
     (logs w ++ map (fun fid =>
                       (WARNING, "No existe CSV para %s (omito). Esperado: %s",
                        [AStr fid; AStr (csv fid)])) missing)
     (files w)).
Proof.
  intros Hpure csv flows found missing Hne. subst found missing csv.
  unfold Banrep.consolidate_frames.
  destruct l as [|f l]; [done|].
  fold flows. munfold.
  destruct flows as [|f0 flows0] eqn:Eflows; [done|].
  rewrite (LoadFacts.load_flows_pure load_one_flow_csv frame Hpure).
  cbn [app]. by destruct (filter _ (f0 :: flows0)).
Qed.

Lemma consolidate_skips_missing_files_witness :
  Banrep.consolidate_frames no_flows read_two_columns "out" (Some ["A"; " B "])
    disk_with_flow_A =
  (Ok [Banrep.flow_frame "A" two_columns],
   World [] []
     [(WARNING, "No existe CSV para %s (omito). Esperado: %s",
       [AStr "B"; AStr "out/data/B.csv"])]
     {[ "out/data/A.csv" := [] ]}).
Proof.
  pose proof (consolidate_skips_missing_files no_flows read_two_columns
                (fun _ => two_columns) "out" ["A"; " B "] disk_with_flow_A
                ltac:(done)) as H.
  apply H. discriminate.
Defined.

(** X27. The frame that [consolidate] keeps for a flow carries the flow id
    in every row of its column flow_id, whatever the CSV held there. When
    the names of the columns read are distinct, its columns are the key
    columns date, time, value and series_name that the CSV has, in that
    order, then flow_id, then the other columns in the order of the CSV. *)
Theorem flow_frame_carries_flow_id (fid : string) (df : DataFrame) :
  column_values "flow_id" (Banrep.flow_frame fid df) =
  Some (replicate (nrows df) (Str fid))
  /\ (NoDup (columns df) ->
      columns (Banrep.flow_frame fid df) =
      filter (fun c => mem c (columns df) = true)
             ["date"; "time"; "value"; "series_name"]
      ++ "flow_id"
      :: filter (fun c => mem c ["date"; "time"; "value"; "series_name"; "flow_id"]
                          = false)
                (columns df)).
Proof.
  unfold Banrep.flow_frame, Banrep.key_columns_first, column_values.
  destruct (LoadFacts.set_column_named "flow_id" (Str fid) df)
    as [Hmem (l & Hnamed)].
  pose proof (FlowFacts.columns_set_column "flow_id" (Str fid) df) as Hcols.
  pose proof (FlowFacts.set_column_NoDup "flow_id" (Str fid) df) as Hnd'.
  set (df' := Banrep.set_column "flow_id" (Str fid) df) in *.
  set (first := filter (fun c => mem c (columns df') = true) _).
  assert (first = filter (fun c => mem c (columns df) = true)
                         ["date"; "time"; "value"; "series_name"]
                  ++ ["flow_id"]) as Hfirst.
  { subst first.
    change ["date"; "time"; "value"; "series_name"; "flow_id"]
      with (["date"; "time"; "value"; "series_name"] ++ ["flow_id"]).
    rewrite filter_app. f_equal.
    - apply FlowFacts.filter_on. intros x Hx. rewrite Hcols.
      destruct (mem "flow_id" (columns df)); [done|].
      assert (mem x (columns df ++ ["flow_id"]) = mem x (columns df)) as ->; [|done].
      unfold mem. rewrite existsb_app. simpl.
      assert (String.eqb x "flow_id" = false) as ->.
      { apply String.eqb_neq. intros ->.
        apply ListFacts.mem_spec in Hx. discriminate Hx. }
      by rewrite !orb_false_r.
    - by rewrite filter_cons_True, filter_nil. }
  split.
  - rewrite LoadFacts.named_select, map_app, concat_app.
    rewrite Hfirst, map_app, concat_app.
    rewrite (LoadFacts.named_select_absent _ (filter _ _))
      by (by apply LoadFacts.mem_filter_absent).
    simpl. rewrite app_nil_r.
    rewrite (LoadFacts.named_select_absent "flow_id" (filter _ _)).
    2:{ apply LoadFacts.mem_filter_not.
        assert (mem "flow_id" (filter (fun c => mem c (columns df) = true)
                                      ["date"; "time"; "value"; "series_name"]
                               ++ ["flow_id"]) = true) as Hin.
        { apply ListFacts.mem_spec, elem_of_app. right. left. }
        congruence. }
    by rewrite app_nil_r, Hnamed.
  - intros Hnd. specialize (Hnd' Hnd).
    destruct (SubsetFacts.select_present df' Hnd'
                (first ++ filter (fun c => mem c first = false) (columns df')))
      as [-> _].
    { apply Forall_app. split; apply Forall_forall; intros x Hx.
      - subst first. apply list_elem_of_filter in Hx as [Hx _].
        by apply ListFacts.mem_spec.
      - by apply list_elem_of_filter in Hx as [_ Hx]. }
    rewrite Hfirst at 1. rewrite <- app_assoc. f_equal. simpl. f_equal.
    rewrite (FlowFacts.filter_on _
               (fun c => mem c ["date"; "time"; "value"; "series_name"; "flow_id"]
                         = false)).
    + rewrite Hcols. destruct (mem "flow_id" (columns df)); [done|].
      by rewrite filter_app, filter_cons_False, filter_nil, app_nil_r.
    + intros x Hx. subst first.
      rewrite FlowFacts.mem_filter; [done|by apply ListFacts.mem_spec].
Qed.

Lemma flow_frame_carries_flow_id_witness :
  column_values "flow_id" (Banrep.flow_frame "A" flow_columns) = Some [Str "A"]
  /\ columns (Banrep.flow_frame "A" flow_columns) =
     ["date"; "value"; "flow_id"; "obs"].
Proof.
  destruct (flow_frame_carries_flow_id "A" flow_columns) as [Hid Horder].
  split; [exact Hid|]. rewrite Horder; [reflexivity|].
  apply (bool_decide_unpack _). reflexivity.
Defined.

(** X28. What the body of [load_one_flow_csv] does with the frame that
    [pd.read_csv] gave: whenever it returns, the frame is the one read with
    columns appended, every appended column being a key column, the rows
    are as many, the five key columns (time, date, value, series_name,
    flow_id) are all there, and nothing but the reading has had an effect.
    It returns whenever the names of the columns read are distinct. *)
Theorem load_one_flow_csv_only_appends_key_columns
        (L : lib) (read_csv : string -> M DataFrame)
        (flow_of_path : string -> string)
        (strptime : string -> string -> option Z)
        (path : string) (w w0 : world) (df0 : DataFrame) :
  read_csv path w = (Ok df0, w0) ->
  (forall df' w',
      Banrep.load_one_flow_csv L read_csv flow_of_path strptime path w
      = (Ok df', w') ->
      w' = w0
      /\ nrows df' = nrows df0
      /\ (exists added,
            data df' = data df0 ++ added
            /\ Forall (fun cs : string * Series => cs.1 ∈ Banrep.KEY_COLUMNS) added)
      /\ Forall (fun c => c ∈ columns df') Banrep.KEY_COLUMNS)
  /\ (NoDup (columns df0) ->
      exists df',
        Banrep.load_one_flow_csv L read_csv flow_of_path strptime path w
        = (Ok df', w0)).
Proof.
  intros Hread. unfold Banrep.load_one_flow_csv. munfold. rewrite Hread.
  set (df1 := if mem "flow_id" (columns df0) then df0 else _).
  assert (nrows df1 = nrows df0
          /\ (exists a1, data df1 = data df0 ++ a1
                         /\ Forall (fun cs : string * Series =>
                                      cs.1 ∈ Banrep.KEY_COLUMNS) a1)
          /\ (NoDup (columns df0) -> NoDup (columns df1)))
    as (Hn1 & (a1 & Hd1 & Ha1) & Hnd1).
  { subst df1. destruct (mem "flow_id" (columns df0)) eqn:Hmem.
    - split; [done|]. split; [|done]. exists []. by rewrite app_nil_r.
    - split; [done|]. split.
      + eexists. split; [reflexivity|]. by repeat constructor.
      + intros Hnd. unfold columns, Banrep.add_column. simpl. rewrite map_app.
        apply NoDup_app. split; [done|]. split; [|apply NoDup_singleton].
        intros x Hx Hc. apply list_elem_of_singleton in Hc as ->.
        apply ListFacts.mem_spec in Hx. simpl in Hx. unfold columns in Hmem. congruence. }
  clearbody df1. split.
  - intros df' w'.
    match goal with
    | |- context [match ?x with (_, _) => _ end] =>
        destruct x as [[df2|?] w2] eqn:E2; [|done]
    end.
    assert (w2 = w0
            /\ nrows df2 = nrows df1
            /\ exists a2, data df2 = data df1 ++ a2
                          /\ Forall (fun cs : string * Series =>
                                       cs.1 ∈ Banrep.KEY_COLUMNS) a2)
      as (-> & Hn2 & a2 & Hd2 & Ha2).
    { destruct (negb (mem "date" (columns df1)) && mem "time" (columns df1)).
      - destruct (getitem "time" _ df1) as [s|e]; [|done].
        injection E2 as <- <-. split; [done|]. split; [done|].
        eexists. split; [reflexivity|]. by repeat constructor.
      - injection E2 as <- <-. split; [done|]. split; [done|].
        exists []. by rewrite app_nil_r. }
    clear E2.
    destruct (foldl _ (Ok df2) Banrep.KEY_COLUMNS) as [df3|e] eqn:E3; [|done].
    intros [= <- <-].
    apply PanelFacts.ensure_keys_spec in E3 as (Hn3 & (a3 & Hd3 & Ha3) & Hall).
    split; [done|]. split; [congruence|]. split; [|exact Hall].
    exists (a1 ++ a2 ++ a3). split.
    + by rewrite Hd3, Hd2, Hd1, <- !app_assoc.
    + by rewrite !Forall_app.
  - intros Hnd. specialize (Hnd1 Hnd).
    destruct (negb (mem "date" (columns df1)) && mem "time" (columns df1)) eqn:Hd.
    + apply andb_true_iff in Hd as [Hdate Htime].
      apply negb_true_iff in Hdate. apply ListFacts.mem_spec in Htime.
      destruct (SubsetFacts.named_unique "time" df1 Hnd1 Htime) as (s & Hs & _).
      unfold getitem. rewrite Hs. cbn beta iota.
      set (df2 := Banrep.add_column "date" _ df1).
      assert (NoDup (columns df2)) as Hnd2.
      { subst df2. unfold columns, Banrep.add_column. simpl. rewrite map_app.
        apply NoDup_app. split; [done|]. split; [|apply NoDup_singleton].
        intros x Hx Hc. apply list_elem_of_singleton in Hc as ->.
        apply ListFacts.mem_spec in Hx. simpl in Hx. unfold columns in Hdate. congruence. }
      destruct (PanelFacts.ensure_keys_total Banrep.KEY_COLUMNS df2 Hnd2)
        as (df' & Hkeys).
      exists df'. munfold. by rewrite Hkeys.
    + destruct (PanelFacts.ensure_keys_total Banrep.KEY_COLUMNS df1 Hnd1)
        as (df' & Hkeys).
      exists df'. munfold. by rewrite Hkeys.
Qed.

Lemma load_one_flow_csv_only_appends_key_columns_witness :
  exists df',
    Banrep.load_one_flow_csv Iso.L read_time_and_obs (fun _ => "A") year_only
      "out/data/A.csv" world0 = (Ok df', world0)
    /\ columns df' = ["time"; "OBS_VALUE"; "flow_id"; "date"; "value"; "series_name"]
    /\ nrows df' = 2%nat.
Proof.
  destruct (load_one_flow_csv_only_appends_key_columns Iso.L read_time_and_obs
              (fun _ => "A") year_only "out/data/A.csv" world0 world0 time_and_obs
              eq_refl) as [Hshape Hreturns].
  destruct Hreturns as (df' & E); [apply (bool_decide_unpack _); reflexivity|].
  exists df'. split; [exact E|]. split; [|by apply Hshape in E as (_ & -> & _)].
  vm_compute in E. by injection E as <-.
Defined.

(** ** PWT: the optional filters *)

(** X29. The variable filter of [load_pwt]: on a panel with distinct
    column names that has the three key columns, [keep_vars] leaves iso,
    country and year followed by the variables asked for that the panel
    has, in the order asked, each with its cells, and all the rows; the
    variables it does not have are named in one warning and nothing is
    raised. When the panel has none of them, the three key columns alone
    are left. *)
Theorem keep_variables_keeps_the_keys
        (keep_vars : list string) (df : DataFrame) (w : world) :
  NoDup (columns df) ->
  Forall (fun c => c ∈ columns df) ["iso"; "country"; "year"] ->
  keep_vars <> [] ->
  let present := filter (fun v => mem v (columns df) = true) keep_vars in
  let missing := filter (fun v => mem v (columns df) = false) keep_vars in
  exists df',
    PWT.keep_variables keep_vars df w =
    (Ok df',
     World (gets w) (sleeps w)
       (logs w ++ match missing with
                  | [] => []
                  | _ => [(WARNING, "Variables no encontradas: %s",
                           [AStr (SiMEM.join ", " missing)])]
                  end)
       (files w))
    /\ columns df' = ["iso"; "country"; "year"] ++ present
    /\ nrows df' = nrows df
    /\ forall cs, cs ∈ data df' -> cs ∈ data df.
Proof.
  intros Hnd Hkeys Hne present missing.
  destruct (SubsetFacts.select_present df Hnd
              (["iso"; "country"; "year"] ++ present)) as [Hcols Hdata].
  { apply Forall_app. split; [exact Hkeys|].
    apply Forall_forall. intros v Hv. subst present.
    apply list_elem_of_filter in Hv as [Hv _]. by apply ListFacts.mem_spec. }
  exists (select (["iso"; "country"; "year"] ++ present) df).
  split; [|by repeat split].
  unfold PWT.keep_variables. destruct keep_vars as [|v vs]; [done|].
  fold present. fold missing.
  assert (forallb (fun c => mem c (columns df)) ["iso"; "country"; "year"] = true)
    as ->.
  { apply forallb_forall. intros c Hc. apply ListFacts.mem_spec.
    rewrite Forall_forall in Hkeys. apply Hkeys. by apply list_elem_of_In. }
  munfold. destruct missing; simpl; [|done].
  by rewrite app_nil_r; destruct w.
Qed.

Lemma keep_variables_keeps_the_keys_witness :
  exists df',
    PWT.keep_variables ["gdp"; "pop"] small_panel world0 =
    (Ok df',
     World [] []
       ([] ++ match filter (fun v => mem v (columns small_panel) = false)
                           ["gdp"; "pop"] with
              | [] => []
              | _ => [(WARNING, "Variables no encontradas: %s",
                       [AStr (SiMEM.join ", "
                                (filter (fun v => mem v (columns small_panel) = false)
                                        ["gdp"; "pop"]))])]
              end)
       ∅)
    /\ columns df' = ["iso"; "country"; "year"]
                     ++ filter (fun v => mem v (columns small_panel) = true)
                               ["gdp"; "pop"]
    /\ nrows df' = nrows small_panel
    /\ forall cs, cs ∈ data df' -> cs ∈ data small_panel.
Proof.
  apply (keep_variables_keeps_the_keys ["gdp"; "pop"] small_panel world0).
  - apply (bool_decide_unpack _). reflexivity.
  - apply (bool_decide_unpack _). reflexivity.
  - discriminate.
Defined.

(** X30. The country filter of [load_pwt]: on a well-formed panel that
    has the columns iso and country once, both of text as
    [_normalize_panel] leaves them, the rows kept are exactly the rows
    whose iso or whose country, in upper case, is one of the names asked
    for, stripped and in upper case (on ASCII text); they stay in order and
    keep all their columns. A row whose iso and country are both null is
    dropped. *)
Theorem filter_countries_keeps_matching_rows
        (countries : list string) (df : DataFrame) (iso cty : Series) :
  Frames.well_formed df ->
  countries <> [] ->
  named "iso" df = [("iso", iso)] ->
  named "country" df = [("country", cty)] ->
  dtype_of iso = DString ->
  dtype_of cty = DString ->
  let cc := map (fun c => PWT.upper (strip c)) countries in
  let keep := zip_with orb (map (PWT.upper_isin cc) (values iso))
                           (map (PWT.upper_isin cc) (values cty)) in
  exists df',
    PWT.filter_countries countries df = Ok df'
    /\ columns df' = columns df
    /\ rows df' = mask_list keep (rows df).
Proof.
  intros Hwf Hne Hiso Hcty Hti Htc cc keep.
  exists (loc keep df). split; [|split].
  - unfold PWT.filter_countries, PWT.str_upper_isin, getitem.
    destruct countries as [|c cs]; [done|].
    by rewrite Hiso, Hcty; simpl; rewrite Hti, Htc.
  - apply FilterFacts.loc_shape.
  - by apply RowFacts.rows_loc.
Qed.

Lemma filter_countries_keeps_matching_rows_witness :
  exists df',
    PWT.filter_countries [" col "; "Peru"] two_countries = Ok df'
    /\ columns df' = columns two_countries
    /\ rows df' =
       mask_list
         (zip_with orb
            (map (PWT.upper_isin (map (fun c => PWT.upper (strip c)) [" col "; "Peru"]))
                 (values (mkSeries DString [Str "COL"; Str "PER"; Str "ECU"])))
            (map (PWT.upper_isin (map (fun c => PWT.upper (strip c)) [" col "; "Peru"]))
                 (values (mkSeries DString [Str "Colombia"; Str "Peru"; NA]))))
         (rows two_countries).
Proof.
  apply (filter_countries_keeps_matching_rows [" col "; "Peru"] two_countries
           (mkSeries DString [Str "COL"; Str "PER"; Str "ECU"])
           (mkSeries DString [Str "Colombia"; Str "Peru"; NA])).
  - repeat constructor.
  - discriminate.
  - reflexivity.
  - reflexivity.
  - reflexivity.
  - reflexivity.
Defined.
